(** * Period concatenation node of shaka-streamer: a shallow embedding

    This development embeds [streamer/periodconcat_node.py] and states the
    properties of its specification over the embedding.  The file first
    models the fragments of the Python runtime the node relies on (integers,
    binary64 floats and their textual forms, the regular expression used by
    the duration parser, [os.path] on POSIX, [xml.etree.ElementTree]), then
    the node itself, and finally the properties. *)

From Stdlib Require Import ZArith List String Ascii Bool Lia.
From Stdlib Require Import Decimal DecimalString.
From Stdlib Require DecimalFacts DecimalZ.
From Stdlib Require Import Floats.SpecFloat.
Import ListNotations.

Local Open Scope list_scope.
Local Open Scope string_scope.

(* ================================================================== *)
(** * Part I.  Definitions *)
(* ================================================================== *)

(** ** Exceptions and results *)

(** The exceptions the node can raise, directly or through the runtime. *)
Inductive exn : Type :=
| AssertionError (msg : string)
| ValueError
| KeyError (key : string)
| IndexError
| OverflowError
| RuntimeError (msg : string)
| FileNotFoundError (path : string)
| ModuleNotFoundError (name : string).

(** A computation either returns a value or raises. *)
Inductive result (A : Type) : Type :=
| Ok (a : A)
| Raise (e : exn).
Arguments Ok {A} a.
Arguments Raise {A} e.

Definition bind {A B : Type} (c : result A) (k : A -> result B) : result B :=
  match c with
  | Ok a => k a
  | Raise e => Raise e
  end.

Notation "x <- c ;; k" := (bind c (fun x => k))
  (at level 61, c at next level, right associativity).
Notation "' p <- c ;; k" := (bind c (fun x => let 'p := x in k))
  (at level 61, p pattern, c at next level, right associativity).

Definition succeeds {A : Type} (c : result A) : bool :=
  match c with Ok _ => true | Raise _ => false end.

(** [[f(x) for x in xs]]: elements are evaluated left to right, the first
    exception aborts the comprehension. *)
Fixpoint mapM {A B : Type} (f : A -> result B) (xs : list A) : result (list B) :=
  match xs with
  | [] => Ok []
  | x :: xs' => y <- f x ;; ys <- mapM f xs' ;; Ok (y :: ys)
  end.

(** ** Python integers, floats and their textual forms *)

Module Py.

(** *** Strings *)

(** [s.startswith(c)] for a one-character prefix. *)
Definition startswith (s : string) (c : ascii) : bool :=
  match s with
  | String c' _ => Ascii.eqb c' c
  | EmptyString => false
  end.

(** [s.startswith(p)]. *)
Fixpoint has_prefix (s p : string) {struct p} : bool :=
  match p with
  | EmptyString => true
  | String c p' =>
      match s with
      | String c' s' => Ascii.eqb c' c && has_prefix s' p'
      | EmptyString => false
      end
  end.

(** [s.endswith(c)] for a one-character suffix. *)
Fixpoint endswith (s : string) (c : ascii) : bool :=
  match s with
  | EmptyString => false
  | String c' EmptyString => Ascii.eqb c' c
  | String _ s' => endswith s' c
  end.

(** [s.split(sep)] for a one-character separator: never returns the empty
    list ([[''.split('/') == ['']]]). *)
Fixpoint split (sep : ascii) (s : string) : list string :=
  match s with
  | EmptyString => [EmptyString]
  | String c s' =>
      if Ascii.eqb c sep then EmptyString :: split sep s'
      else match split sep s' with
           | [] => [String c EmptyString]
           | w :: ws => String c w :: ws
           end
  end.

(** [sep.join(xs)]. *)
Fixpoint join (sep : string) (xs : list string) : string :=
  match xs with
  | [] => EmptyString
  | [x] => x
  | x :: xs' => x ++ sep ++ join sep xs'
  end.

(** [c * n] for a one-character string. *)
Fixpoint repeat_char (c : ascii) (n : nat) : string :=
  match n with
  | O => EmptyString
  | S n' => String c (repeat_char c n')
  end.

Definition is_digit (c : ascii) : bool :=
  let n := nat_of_ascii c in (48 <=? n)%nat && (n <=? 57)%nat.

(** *** Integers *)

(** The decimal numeral of an integer: what [str(i)] returns for an
    integer within the limit below, as is the index of an element in a
    list, which is less than [sys.maxsize] and has at most 19 digits. *)
Definition str_int (z : Z) : string := NilEmpty.string_of_int (Z.to_int z).

(** [sys.int_info.default_max_str_digits]: the interpreter converts no
    decimal numeral of more digits to an [int], and no [int] to a numeral
    of more digits; either conversion raises [ValueError] beyond it. *)
Definition max_str_digits : Z := 4300.

(** The digits of the numeral of [z], the sign not counted. *)
Definition digits (z : Z) : Z := Z.of_nat (String.length (str_int (Z.abs z))).

(** [str(i)], and [format] of an [int] in a [{}] field: the numeral, or
    [ValueError] when it has more digits than the limit. *)
Definition format_int (z : Z) : result string :=
  if (max_str_digits <? digits z)%Z then Raise ValueError else Ok (str_int z).

(** [int(s)] on the texts the duration pattern can capture (runs of ASCII
    digits, possibly empty): the empty text, any text with a character that
    is no digit, and any text of more digits than the limit (zeros in front
    counted) raise [ValueError].  Below the limit integers are unbounded. *)
Definition int (s : string) : result Z :=
  if (max_str_digits <? Z.of_nat (String.length s))%Z then Raise ValueError
  else
    match s with
    | EmptyString => Raise ValueError
    | _ => match NilEmpty.uint_of_string s with
           | Some d => Ok (Z.of_uint d)
           | None => Raise ValueError
           end
    end.

(** *** Floats

    A Python [float] is an IEEE 754 binary64 number; [spec_float] with
    precision 53 and maximal exponent 1024 is its specification in the
    standard library, and computes. *)

Definition float : Type := spec_float.
Definition prec : Z := 53.
Definition emax : Z := 1024.

Definition fadd : float -> float -> float := SFadd prec emax.
Definition feqb : float -> float -> bool := SFeqb.

(** The binary64 number nearest to [m * 10 ^ q] (ties to even), for
    [0 <= m]: the value of a decimal numeral read by [float(...)]. *)
Definition dec2float (m q : Z) : float :=
  match m with
  | Zpos p =>
      if (0 <=? q)%Z
      then binary_normalize prec emax (m * 10 ^ q) 0 false
      else SFdiv prec emax (S754_finite false p 0)
                           (S754_finite false (Z.to_pos (10 ^ (- q))) 0)
  | _ => S754_zero false
  end.

(** [float(i)] for an [int]: raises [OverflowError] past the largest
    finite float. *)
Definition float_of_int (z : Z) : result float :=
  match binary_normalize prec emax z 0 false with
  | S754_infinity _ => Raise OverflowError
  | f => Ok f
  end.

(** Text before the first ['.'], and text after it (empty without a dot). *)
Fixpoint partition_dot (s : string) : string * string :=
  match s with
  | EmptyString => (EmptyString, EmptyString)
  | String c s' =>
      if Ascii.eqb c "." then (EmptyString, s')
      else let (a, b) := partition_dot s' in (String c a, b)
  end.

(** [float(s)] on the texts the duration pattern can capture (characters
    among [0-9.]): the text must hold at least one digit and at most one
    dot, otherwise [ValueError]. *)
Definition float_of_str (s : string) : result float :=
  let (ip, fp) := partition_dot s in
  match ip ++ fp with
  | EmptyString => Raise ValueError
  | ds => match NilEmpty.uint_of_string ds with
          | Some d => Ok (dec2float (Z.of_uint d) (- Z.of_nat (String.length fp)))
          | None => Raise ValueError
          end
  end.

(** **** [repr] of a float: the shortest decimal numeral that reads back *)

(** [floor (m * 2^e / 10^q)], and whether the quotient is exact. *)
Definition scaled_floor (m e q : Z) : Z * bool :=
  let num := (m * 2 ^ Z.max e 0 * 10 ^ Z.max (- q) 0)%Z in
  let den := (2 ^ Z.max (- e) 0 * 10 ^ Z.max q 0)%Z in
  ((num / den)%Z, (num mod den =? 0)%Z).

(** The least [k' >= k] with [m * 2^e < 10^k'], within [fuel] steps. *)
Fixpoint find_decpt (fuel : nat) (m e k : Z) : Z :=
  match fuel with
  | O => k
  | S fuel' =>
      if (fst (scaled_floor m e k) =? 0)%Z then k
      else find_decpt fuel' m e (k + 1)
  end.

(** The decimal exponent [k] with [10^(k-1) <= m * 2^e < 10^k]. *)
Definition decpt_of (m e : Z) : Z :=
  find_decpt 8 m e ((Z.log2 m + e) * 30103 / 100000 - 1).

(** Among the two [n]-digit neighbours [lo * 10^q] and [(lo+1) * 10^q] of
    [x = m * 2^e], the one that reads back as [x]; the nearer to [x] when
    both do, the even one on a tie. *)
Definition pick_digits (x : float) (m e q : Z) : option Z :=
  let (lo, exact) := scaled_floor m e q in
  if exact then Some lo
  else
    let hi := (lo + 1)%Z in
    match feqb (dec2float lo q) x, feqb (dec2float hi q) x with
    | true, false => Some lo
    | false, true => Some hi
    | false, false => None
    | true, true =>
        let (twice, half) := scaled_floor (2 * m) e q in
        if (twice =? 2 * lo)%Z then Some lo
        else if half then (if Z.even lo then Some lo else Some hi)
        else Some hi
    end.

(** Try 1, 2, ... digits: [n] is the number of digits tried, [fuel] bounds
    the search (17 digits always read back). *)
Fixpoint shortest (fuel : nat) (x : float) (m e k : Z) (n : Z) : Z * Z :=
  match fuel with
  | O => (fst (scaled_floor m e (k - n)), (k - n)%Z)
  | S fuel' =>
      match pick_digits x m e (k - n) with
      | Some c => (c, (k - n)%Z)
      | None => shortest fuel' x m e k (n + 1)
      end
  end.

Fixpoint strip_zeros_rev (s : list ascii) : list ascii :=
  match s with
  | "0"%char :: s' => strip_zeros_rev s'
  | _ => s
  end.

(** Removes the trailing zeros of a digit string. *)
Definition rstrip_zeros (s : string) : string :=
  string_of_list_ascii
    (List.rev (strip_zeros_rev (List.rev (list_ascii_of_string s)))).

(** The digits and the position of the decimal point of the shortest
    numeral of the positive float [m * 2^e]: the value is
    [0.d1d2...dn * 10^decpt]. *)
Definition float_digits (m : positive) (e : Z) : string * Z :=
  let k := decpt_of (Zpos m) e in
  let (c, q) := shortest 17 (S754_finite false m e) (Zpos m) e k 1 in
  let ds := str_int c in
  (rstrip_zeros ds, (q + Z.of_nat (String.length ds))%Z).

(** The exponent of the scientific notation: a sign and at least two
    digits. *)
Definition exponent_str (x : Z) : string :=
  let a := str_int (Z.abs x) in
  (if (x <? 0)%Z then "-" else "+") ++
  (if (String.length a <? 2)%nat then "0" ++ a else a).

(** The layout [repr] gives to digits and decimal point: scientific
    notation when [decpt <= -4] or [decpt > 16], else positional notation,
    with [.0] appended to a numeral that would be an integer. *)
Definition format_digits (ds : string) (decpt : Z) : string :=
  let nd := Z.of_nat (String.length ds) in
  if ((decpt <=? -4) || (16 <? decpt))%Z%bool then
    match ds with
    | String d EmptyString => String d EmptyString
    | String d rest => String d ("." ++ rest)
    | EmptyString => EmptyString
    end ++ "e" ++ exponent_str (decpt - 1)
  else if (decpt <=? 0)%Z then
    "0." ++ repeat_char "0" (Z.to_nat (- decpt)) ++ ds
  else if (nd <=? decpt)%Z then
    ds ++ repeat_char "0" (Z.to_nat (decpt - nd)) ++ ".0"
  else
    substring 0 (Z.to_nat decpt) ds ++ "." ++
    substring (Z.to_nat decpt) (String.length ds - Z.to_nat decpt) ds.

(** [repr(x)], which is also [str(x)], for a float. *)
Definition float_repr (x : float) : string :=
  match x with
  | S754_zero s => if s then "-0.0" else "0.0"
  | S754_infinity s => if s then "-inf" else "inf"
  | S754_nan => "nan"
  | S754_finite s m e =>
      let (ds, decpt) := float_digits m e in
      (if s then "-" else "") ++ format_digits ds decpt
  end.

(** *** Numbers: the values an attribute annotated [float] really holds *)

Inductive num : Type :=
| PyInt (z : Z)
| PyFloat (f : float).

(** [str(x)], and [format] of [x] in a [{}] field. *)
Definition str (x : num) : result string :=
  match x with
  | PyInt z => format_int z
  | PyFloat f => Ok (float_repr f)
  end.

(** [x + y]: exact on integers; an integer meeting a float is converted
    first. *)
Definition add (x y : num) : result num :=
  match x, y with
  | PyInt a, PyInt b => Ok (PyInt (a + b))
  | PyInt a, PyFloat g => f <- float_of_int a ;; Ok (PyFloat (fadd f g))
  | PyFloat f, PyInt b => g <- float_of_int b ;; Ok (PyFloat (fadd f g))
  | PyFloat f, PyFloat g => Ok (PyFloat (fadd f g))
  end.

End Py.

(** ** Regular expressions: the fragment of [re] the duration pattern uses *)

Module re.

(** Patterns.  Capturing groups carry their number, which in the pattern
    text is the rank of their opening parenthesis. *)
Inductive regex : Type :=
| Bol                              (* ^ *)
| Eol                              (* $ *)
| Lit (c : ascii)                  (* a literal character *)
| Star (cls : ascii -> bool)       (* [...]*, greedy *)
| Group (i : nat) (r : regex)      (* ( r ) *)
| Opt (r : regex)                  (* (?: r )?, greedy *)
| Cat (r1 r2 : regex).             (* r1 r2 *)

(** A match object: the text captured by each group that took part. *)
Definition captures : Type := list (nat * string).

Fixpoint lookup (i : nat) (caps : captures) : option string :=
  match caps with
  | [] => None
  | (j, s) :: caps' => if Nat.eqb i j then Some s else lookup i caps'
  end.

(** Continuations of the backtracking matcher: the position reached, the
    text left to read and the captures so far. *)
Definition cont : Type := nat -> string -> captures -> option captures.

(** Greedy [cls*]: consume while possible, give characters back one at a
    time when the continuation fails. *)
Fixpoint star (cls : ascii -> bool) (pos : nat) (s : string)
         (caps : captures) (k : cont) : option captures :=
  match s with
  | String c s' =>
      if cls c then
        match star cls (S pos) s' caps k with
        | Some m => Some m
        | None => k pos s caps
        end
      else k pos s caps
  | EmptyString => k pos s caps
  end.

(** The backtracking matcher.  [$] matches at the end of the text and
    before a newline that ends the text; [^] at position 0 only (no
    [MULTILINE] flag). *)
Fixpoint run (r : regex) (pos : nat) (s : string)
         (caps : captures) (k : cont) : option captures :=
  match r with
  | Bol => if Nat.eqb pos 0 then k pos s caps else None
  | Eol =>
      match s with
      | EmptyString => k pos s caps
      | String c EmptyString => if Ascii.eqb c "010" then k pos s caps else None
      | _ => None
      end
  | Lit c =>
      match s with
      | String c' s' => if Ascii.eqb c' c then k (S pos) s' caps else None
      | EmptyString => None
      end
  | Star cls => star cls pos s caps k
  | Group i r' =>
      run r' pos s caps
          (fun pos' s' caps' => k pos' s' ((i, substring 0 (pos' - pos) s) :: caps'))
  | Opt r' =>
      match run r' pos s caps k with
      | Some m => Some m
      | None => k pos s caps
      end
  | Cat r1 r2 =>
      run r1 pos s caps (fun pos' s' caps' => run r2 pos' s' caps' k)
  end.

(** A match attempt that starts at position [pos]. *)
Definition match_at (r : regex) (pos : nat) (s : string) : option captures :=
  run r pos s [] (fun _ _ caps => Some caps).

(** [re.search(r, s)]: the first position, from the left, where a match
    starts; [s] is the text from [pos] on. *)
Fixpoint search_from (r : regex) (pos : nat) (s : string) : option captures :=
  match match_at r pos s with
  | Some m => Some m
  | None =>
      match s with
      | String _ s' => search_from r (S pos) s'
      | EmptyString => None
      end
  end.

Definition search (r : regex) (s : string) : option captures :=
  search_from r 0 s.

(** [m.groups(default)] for a pattern with [n] groups. *)
Definition groups (n : nat) (m : captures) (default : string) : list string :=
  map (fun i => match lookup i m with Some s => s | None => default end)
      (seq 1 n).

Definition digit : ascii -> bool := Py.is_digit.                 (* [0-9] *)
Definition digit_or_dot (c : ascii) : bool :=                     (* [0-9.] *)
  Py.is_digit c || Ascii.eqb c ".".

End re.

(** ** [os.path] on POSIX *)

Module posixpath.

Definition curdir : string := ".".
Definition pardir : string := "..".

Definition isabs (s : string) : bool := Py.startswith s "/".

(** One step of [join]: a component that starts with a slash discards
    what precedes it. *)
Definition join2 (path b : string) : string :=
  if Py.startswith b "/" then b
  else if (path =? "") || Py.endswith path "/" then path ++ b
  else path ++ "/" ++ b.

(** [join(a, *p)]. *)
Definition join (a : string) (p : list string) : string :=
  fold_left join2 p a.

(** The loop body of [normpath]; [new_comps] is kept as a stack, its last
    element first. *)
Definition norm_step (initial_slashes : nat) (new_comps : list string)
           (comp : string) : list string :=
  if (comp =? "") || (comp =? ".") then new_comps
  else if negb (comp =? "..")
          || (Nat.eqb initial_slashes 0 && match new_comps with [] => true | _ => false end)
          || match new_comps with top :: _ => top =? ".." | [] => false end
       then comp :: new_comps
       else match new_comps with
            | _ :: below => below
            | [] => new_comps
            end.

Definition normpath (path : string) : string :=
  if path =? "" then "."
  else
    let initial_slashes :=
      if Py.startswith path "/"
      then if Py.has_prefix path "//" && negb (Py.has_prefix path "///")
           then 2%nat else 1%nat
      else 0%nat in
    let comps := Py.split "/" path in
    let new_comps := List.rev (fold_left (norm_step initial_slashes) comps []) in
    let path := Py.repeat_char "/" initial_slashes ++ Py.join "/" new_comps in
    if path =? "" then "." else path.

(** [abspath(path)] when [os.getcwd()] returns [cwd]. *)
Definition abspath (cwd path : string) : string :=
  normpath (if isabs path then path else join2 cwd path).

(** [commonprefix([l1, l2])] on two lists of components. *)
Fixpoint commonprefix (l1 l2 : list string) : list string :=
  match l1, l2 with
  | a :: l1', b :: l2' => if a =? b then a :: commonprefix l1' l2' else []
  | _, _ => []
  end.

Definition nonempty (x : string) : bool := negb (x =? "").

(** [relpath(path, start)] when [os.getcwd()] returns [cwd]. *)
Definition relpath (cwd path start : string) : result string :=
  if path =? "" then Raise ValueError
  else
    let start_list := filter nonempty (Py.split "/" (abspath cwd start)) in
    let path_list := filter nonempty (Py.split "/" (abspath cwd path)) in
    let i := List.length (commonprefix start_list path_list) in
    let rel_list := (repeat pardir (List.length start_list - i) ++ skipn i path_list)%list in
    match rel_list with
    | [] => Ok curdir
    | a :: p => Ok (join a p)
    end.

End posixpath.

(** ** [xml.etree.ElementTree] *)

Module ElementTree.

(** An attribute dictionary keeps its insertion order, as a [dict] does. *)
Definition attributes : Type := list (string * string).

(** [d.get(key)]. *)
Fixpoint get (d : attributes) (key : string) : option string :=
  match d with
  | [] => None
  | (k, v) :: d' => if k =? key then Some v else get d' key
  end.

(** [d[key]]. *)
Definition getitem (d : attributes) (key : string) : result string :=
  match get d key with
  | Some v => Ok v
  | None => Raise (KeyError key)
  end.

(** [d[key] = value]: a present key keeps its place. *)
Fixpoint setitem (d : attributes) (key value : string) : attributes :=
  match d with
  | [] => [(key, value)]
  | (k, v) :: d' =>
      if k =? key then (k, value) :: d' else (k, v) :: setitem d' key value
  end.

#[local] Set Warnings "-register-all".

(** An element: qualified tag ([{namespace}local]), attributes, text and
    children in document order. *)
Inductive Element : Type :=
| Node (tag : string) (attrib : attributes) (text : option string)
       (children : list Element).

Definition tag (e : Element) : string := let 'Node t _ _ _ := e in t.
Definition attrib (e : Element) : attributes := let 'Node _ a _ _ := e in a.
Definition text (e : Element) : option string := let 'Node _ _ x _ := e in x.
Definition children (e : Element) : list Element := let 'Node _ _ _ c := e in c.

Definition set_attrib (e : Element) (key value : string) : Element :=
  let 'Node t a x c := e in Node t (setitem a key value) x c.
Definition set_text (e : Element) (value : string) : Element :=
  let 'Node t a _ c := e in Node t a (Some value) c.
Definition set_children (e : Element) (c : list Element) : Element :=
  let 'Node t a x _ := e in Node t a x c.

Definition has_tag (t : string) (e : Element) : bool := tag e =? t.

(** [elem.findall("t1/t2/.../tn")]: the elements reached from [elem]
    through children tagged [t1], then [t2], ..., in document order. *)
Fixpoint iterfind (elems : list Element) (path : list string) : list Element :=
  match path with
  | [] => elems
  | t :: path' => iterfind (flat_map (fun e => filter (has_tag t) (children e)) elems) path'
  end.

Definition findall (elem : Element) (path : list string) : list Element :=
  match path with
  | [] => []
  | _ => iterfind [elem] path
  end.

(** [elem.find(path)]: the first such element, or [None]. *)
Definition find (elem : Element) (path : list string) : option Element :=
  hd_error (findall elem path).

Fixpoint remove_first (t : string) (l : list Element) : list Element :=
  match l with
  | [] => []
  | c :: l' => if has_tag t c then l' else c :: remove_first t l'
  end.

(** [elem.remove(elem.find(t))]: [remove] drops the child that is the
    object it is given, here the first child tagged [t]. *)
Definition remove_found (elem : Element) (t : string) : Element :=
  set_children elem (remove_first t (children elem)).

(** [elem.extend(elements)]. *)
Definition extend (elem : Element) (elements : list Element) : Element :=
  set_children elem (children elem ++ elements)%list.

(** In-place updates of the elements a [findall] returned: they sit at the
    end of [path] below [elem] and are visited in document order; the first
    exception aborts the walk. *)
Fixpoint update_all (path : list string) (f : Element -> result Element)
         (elem : Element) : result Element :=
  match path with
  | [] => f elem
  | t :: path' =>
      cs <- mapM (fun c => if has_tag t c then update_all path' f c else Ok c)
                 (children elem) ;;
      Ok (set_children elem cs)
  end.

(** The file store: the document a path parses to, if there is one. *)
Definition store : Type := string -> option Element.

(** [ElementTree.ElementTree(file=path).getroot()]. *)
Definition parse (fs : store) (path : string) : result Element :=
  match fs path with
  | Some root => Ok root
  | None => Raise (FileNotFoundError path)
  end.

End ElementTree.

(** ** The collaborators of the node (interfaces only) *)

(** [streamer.node_base.ProcessStatus]. *)
Inductive ProcessStatus : Type := Finished | Running | Errored.

(** [streamer.pipeline_configuration.ManifestFormat] and [StreamingMode]. *)
Inductive ManifestFormat : Type := DASH | HLS.
Inductive StreamingMode : Type := LIVE | VOD.

Definition ManifestFormat_eqb (a b : ManifestFormat) : bool :=
  match a, b with
  | DASH, DASH | HLS, HLS => true
  | _, _ => false
  end.

(** The options of [PipelineConfig] the node reads. *)
Record PipelineConfig : Type := {
  manifest_format : list ManifestFormat;
  streaming_mode : StreamingMode;
  dash_output : string
}.

(** A [PackagerNode] as the node sees it: where it writes, and what
    [check_status()] answers at the time of the pass. *)
Record PackagerNode : Type := {
  packager_output_dir : string;      (* packager_node._output_dir *)
  check_status : ProcessStatus
}.

(** What surrounds a pass: the working directory [os.path] resolves
    against, the manifests on disk, what the statement
    [with open(path, 'w')] raises for a path, [open] refusing it or the
    writing failing ([None] when the file is written), whether
    [import m3u8] succeeds, and the [__version__] of the [streamer]
    package. *)
Record World : Type := {
  getcwd : string;
  files : ElementTree.store;
  write_error : string -> option exn;
  m3u8_installed : bool;
  __version__ : string
}.

(** ** [_dash_concat]: the duration helper class *)

Module ISO8601.

(** [ISO8601.__init__]: the five calendar fields hold integers; [seconds],
    annotated [float], holds the integer default or a float. *)
Record t : Type := mk {
  years : Z;
  months : Z;
  days : Z;
  hours : Z;
  minutes : Z;
  seconds : Py.num
}.

(** [ISO8601()]: every parameter at its default [0]. *)
Definition default : t := mk 0 0 0 0 0 (Py.PyInt 0).

(** An optional component of the duration pattern: a captured run of
    characters of [cls], then [letter]. *)
Definition component (i : nat) (cls : ascii -> bool) (letter : ascii) : re.regex :=
  re.Opt (re.Cat (re.Group i (re.Star cls)) (re.Lit letter)).

(** The pattern as [parse] writes it. *)
Definition pattern_text : string :=
  "^P(?:([0-9]*)Y)?(?:([0-9]*)M)?(?:([0-9]*)D)?" ++
  "(?:T(?:([0-9]*)H)?(?:([0-9]*)M)?(?:([0-9.]*)S)?)?$".

(** The same pattern as a syntax tree: groups 1 to 6 in the order of their
    opening parentheses. *)
Definition pattern : re.regex :=
  re.Cat re.Bol
 (re.Cat (re.Lit "P")
 (re.Cat (component 1 re.digit "Y")
 (re.Cat (component 2 re.digit "M")
 (re.Cat (component 3 re.digit "D")
 (re.Cat (re.Opt (re.Cat (re.Lit "T")
                 (re.Cat (component 4 re.digit "H")
                 (re.Cat (component 5 re.digit "M")
                         (component 6 re.digit_or_dot "S")))))
         re.Eol))))).

(** [ISO8601.parse]. *)
Definition parse (duration : string) : result t :=
  match re.search pattern duration with
  | None => Raise (AssertionError "ISO8601: Duration parsing failed.")
  | Some matches =>
      groups <- mapM Py.int (firstn 5 (re.groups 6 matches "0")) ;;
      seconds <- Py.float_of_str (nth 5 (re.groups 6 matches "0") "") ;;
      Ok (mk (nth 0 groups 0%Z) (nth 1 groups 0%Z) (nth 2 groups 0%Z)
             (nth 3 groups 0%Z) (nth 4 groups 0%Z) (Py.PyFloat seconds))
  end.

(** [ISO8601.__str__]: [format] converts the six fields from left to
    right, and raises what the conversion of a field raises. *)
Definition __str__ (self : t) : result string :=
  y <- Py.format_int (years self) ;;
  mo <- Py.format_int (months self) ;;
  d <- Py.format_int (days self) ;;
  h <- Py.format_int (hours self) ;;
  mi <- Py.format_int (minutes self) ;;
  s <- Py.str (seconds self) ;;
  Ok ("P" ++ y ++ "Y" ++ mo ++ "M" ++ d ++ "DT" ++ h ++ "H" ++ mi ++ "M" ++ s ++ "S").

(** [ISO8601.__add__]: matching containers are added. *)
Definition __add__ (self other : t) : result t :=
  s <- Py.add (seconds self) (seconds other) ;;
  Ok (mk (years self + years other)
         (months self + months other)
         (days self + days other)
         (hours self + hours other)
         (minutes self + minutes other)
         s).

(** [ISO8601.__iadd__]. *)
Definition __iadd__ (self other : t) : result t := __add__ self other.

End ISO8601.

(** ** The node *)

Module PeriodConcatNode.

Record t : Type := {
  _pipeline_config : PipelineConfig;
  _output_dir : string;
  _packager_nodes : list PackagerNode;
  _status : ProcessStatus
}.

Definition dash_namespace : string := "urn:mpeg:dash:schema:mpd:2011".

(** The qualified name the helpers [find] and [findall] build for a tag. *)
Definition qname (tag : string) : string := "{" ++ dash_namespace ++ "}" ++ tag.

(** The local helper [find]: the element must be there. *)
Definition find (elem : ElementTree.Element) (args : list string)
  : result ElementTree.Element :=
  match ElementTree.find elem (map qname args) with
  | Some child_elem => Ok child_elem
  | None => Raise (AssertionError "")
  end.

(** The local helper [findall]. *)
Definition findall (elem : ElementTree.Element) (args : list string)
  : list ElementTree.Element :=
  ElementTree.findall elem (map qname args).

(** [os.path.join(os.path.relpath(source, dest), reference)]: how every
    media location is rewritten. *)
Definition rewrite (w : World) (source dest reference : string) : result string :=
  path_to_segement <- posixpath.relpath (getcwd w) source dest ;;
  Ok (posixpath.join path_to_segement [reference]).

(** [if d.get(key): d[key] = join(path_to_segement, d[key])]: an absent
    or empty attribute is left alone. *)
Definition rewrite_attrib (path_to_segement key : string)
           (e : ElementTree.Element) : ElementTree.Element :=
  match ElementTree.get (ElementTree.attrib e) key with
  | Some v =>
      if v =? "" then e
      else ElementTree.set_attrib e key (posixpath.join path_to_segement [v])
  | None => e
  end.

(** The body of the loop over the [SegmentTemplate] elements. *)
Definition rewrite_segment_template (w : World) (source dest : string)
           (segment_template : ElementTree.Element) : result ElementTree.Element :=
  path_to_segement <- posixpath.relpath (getcwd w) source dest ;;
  Ok (rewrite_attrib path_to_segement "media"
        (rewrite_attrib path_to_segement "initialization" segment_template)).

(** The body of the loop over the [BaseURL] elements. *)
Definition rewrite_base_url (w : World) (source dest dash_file_path : string)
           (base_url : ElementTree.Element) : result ElementTree.Element :=
  path_to_segement <- posixpath.relpath (getcwd w) source dest ;;
  match ElementTree.text base_url with
  | None =>
      Raise (AssertionError
               ("No media file found for the single segment " ++ dash_file_path))
  | Some txt =>
      Ok (ElementTree.set_text base_url (posixpath.join path_to_segement [txt]))
  end.

Definition segment_template_path : list string :=
  map qname ["AdaptationSet"; "Representation"; "SegmentTemplate"].
Definition base_url_path : list string :=
  map qname ["AdaptationSet"; "Representation"; "BaseURL"].

(** The timing of a period: its duration for VOD, which also advances
    [total_time]; its start for LIVE, which leaves [total_time] as it is. *)
Definition set_timing (mode : StreamingMode) (mpd period : ElementTree.Element)
           (total_time : ISO8601.t) : result (ElementTree.Element * ISO8601.t) :=
  match mode with
  | VOD =>
      d <- ElementTree.getitem (ElementTree.attrib mpd) "mediaPresentationDuration" ;;
      let period := ElementTree.set_attrib period "duration" d in
      parsed <- ISO8601.parse d ;;
      total_time <- ISO8601.__iadd__ total_time parsed ;;
      Ok (period, total_time)
  | LIVE =>
      start <- ISO8601.__str__ total_time ;;
      Ok (ElementTree.set_attrib period "start" start, total_time)
  end.

(** One turn of the loop [for i, packager_node in enumerate(...)]: the
    period of job [i], retagged, timed and with its locations rewritten,
    and the running total after it.  The index [i] counts the elements of a
    list, whose length the interpreter keeps below [2 ^ 63]: [str(i)] has
    at most 19 digits and is the numeral of [i]. *)
Definition concat_period (self : t) (w : World) (i : nat)
           (packager_node : PackagerNode) (total_time : ISO8601.t)
  : result (ElementTree.Element * ISO8601.t) :=
  let config := _pipeline_config self in
  let dash_file_path :=
    posixpath.join (packager_output_dir packager_node) [dash_output config] in
  mpd <- ElementTree.parse (files w) dash_file_path ;;
  period <- find mpd ["Period"] ;;
  let period := ElementTree.set_attrib period "id" (Py.str_int (Z.of_nat i)) in
  '(period, total_time) <- set_timing (streaming_mode config) mpd period total_time ;;
  period <- ElementTree.update_all segment_template_path
              (rewrite_segment_template w (packager_output_dir packager_node)
                                        (_output_dir self))
              period ;;
  period <- ElementTree.update_all base_url_path
              (rewrite_base_url w (packager_output_dir packager_node)
                                (_output_dir self) dash_file_path)
              period ;;
  Ok (period, total_time).

(** The whole loop, from index [i] on, with the accumulators [total_time]
    and [periods]. *)
Fixpoint concat_loop (self : t) (w : World) (i : nat)
         (nodes : list PackagerNode) (total_time : ISO8601.t)
         (periods : list ElementTree.Element)
  : result (ISO8601.t * list ElementTree.Element) :=
  match nodes with
  | [] => Ok (total_time, periods)
  | packager_node :: nodes' =>
      '(period, total_time) <- concat_period self w i packager_node total_time ;;
      concat_loop self w (S i) nodes' total_time (periods ++ [period])%list
  end.

(** A file the node writes: where, the comment lines that open it, and the
    document serialized after them. *)
Record written_file : Type := {
  file_path : string;
  prolog : string;
  document : ElementTree.Element
}.

Definition newline : string := String "010" EmptyString.

(** The three lines that precede the serialized document. *)
Definition dash_prolog (w : World) : string :=
  "<?xml version='1.0' encoding='UTF-8'?>" ++ newline ++
  "<!--Generated with https://github.com/google/shaka-packager -->" ++ newline ++
  "<!--Made Multi-Period with https://github.com/google/shaka-streamer version "
    ++ __version__ w ++ " -->" ++ newline.

(** [_dash_concat] up to the statement [with open(...)] (lines 156 to
    236): the file it is about to write, with its path, its comment lines
    and its document.  The writing itself is [write], below. *)
Definition _dash_concat (self : t) (w : World) : result written_file :=
  let config := _pipeline_config self in
  first <- match _packager_nodes self with
           | node :: _ => Ok node
           | [] => Raise IndexError
           end ;;
  ref_mpd <- ElementTree.parse (files w)
               (posixpath.join (packager_output_dir first) [dash_output config]) ;;
  _ <- find ref_mpd ["Period"] ;;
  let ref_mpd := ElementTree.remove_found ref_mpd (qname "Period") in
  '(total_time, periods) <-
     concat_loop self w 0 (_packager_nodes self) ISO8601.default [] ;;
  let ref_mpd := ElementTree.extend ref_mpd periods in
  ref_mpd <- match streaming_mode config with
             | VOD =>
                 total <- ISO8601.__str__ total_time ;;
                 Ok (ElementTree.set_attrib ref_mpd "mediaPresentationDuration" total)
             | LIVE => Ok ref_mpd
             end ;;
  Ok {| file_path := posixpath.join (_output_dir self) [dash_output config];
        prolog := dash_prolog w;
        document := ref_mpd |}.

(** The end of [_dash_concat] (lines 239 to 249): the statement
    [with open(path, 'w')] raises, or the comment lines and the document
    are written to the file. *)
Definition write (w : World) (f : written_file) : result unit :=
  match write_error w (file_path f) with
  | Some e => Raise e
  | None => Ok tt
  end.

(** [_hls_concat]: imports [m3u8] and does nothing else. *)
Definition _hls_concat (self : t) (w : World) : result unit :=
  if m3u8_installed w then Ok tt else Raise (ModuleNotFoundError "m3u8").

(** The loop of [_thread_single_pass] over the packager nodes, from index
    [i] on: [Ok false] when it returns from the pass at a running node,
    [Ok true] when it runs to its end.  The index in the message is that of
    an element of a list, and [format] gives its numeral. *)
Fixpoint watch (i : nat) (nodes : list PackagerNode) : result bool :=
  match nodes with
  | [] => Ok true
  | packager_node :: nodes' =>
      match check_status packager_node with
      | Running => Ok false
      | Errored =>
          Raise (RuntimeError
                   ("PeriodConcatNode: 'PackagerNode#" ++ Py.str_int (Z.of_nat i)
                    ++ " Errored, Concatenation is stopped.'"))
      | Finished => watch (S i) nodes'
      end
  end.

(** What a pass leaves behind: the node's [_status], the files written in
    full, and the exception that ended the pass, if one did. *)
Record pass : Type := {
  status_after : ProcessStatus;
  written : list written_file;
  raised : option exn
}.

Definition contains (f : ManifestFormat) (l : list ManifestFormat) : bool :=
  existsb (ManifestFormat_eqb f) l.

(** [_thread_single_pass].  The call [self._dash_concat()] is the merge
    followed by the writing of its file; an exception raised by either ends
    the pass with nothing written. *)
Definition _thread_single_pass (self : t) (w : World) : pass :=
  let config := _pipeline_config self in
  let stop (ws : list written_file) (e : exn) :=
    {| status_after := _status self; written := ws; raised := Some e |} in
  match watch 0 (_packager_nodes self) with
  | Raise e => stop [] e
  | Ok false => {| status_after := _status self; written := []; raised := None |}
  | Ok true =>
      let dash :=
        if contains DASH (manifest_format config)
        then f <- _dash_concat self w ;; _ <- write w f ;; Ok [f]
        else Ok [] in
      match dash with
      | Raise e => stop [] e
      | Ok ws =>
          let hls :=
            if contains HLS (manifest_format config)
            then _hls_concat self w
            else Ok tt in
          match hls with
          | Raise e => stop ws e
          | Ok _ => {| status_after := Finished; written := ws; raised := None |}
          end
      end
  end.

End PeriodConcatNode.

(** ** The constructor of the node *)

Module Pipeline.

Section Nodes.

(** [streamer.input_configuration.Input] and
    [streamer.transcoder_node.TranscoderNode], of which [__init__] reads
    the attribute [_inputs] only. *)
Variable Input : Type.
Variable TranscoderNode : Type.
Variable _inputs : TranscoderNode -> list Input.

(** The nodes of a pipeline, by the class [__init__] tests them for:
    [TranscoderNode], [PackagerNode], or any other [NodeBase] (cloud and
    external command nodes). *)
Inductive NodeBase : Type :=
| Transcoder (node : TranscoderNode)
| Packager (node : PackagerNode)
| OtherNode.

(** The instance [__init__] builds: the fields the passes read, and the
    two lists kept beside them. *)
Record instance : Type := {
  fields : PeriodConcatNode.t;
  _period_inputs_list : list (list Input);
  _transcoder_nodes : list TranscoderNode
}.

(** The body of the loop [for node in all_nodes]. *)
Definition collect (self : instance) (node : NodeBase) : instance :=
  match node with
  | Transcoder n =>
      {| fields := fields self;
         _period_inputs_list := _period_inputs_list self ++ [_inputs n];
         _transcoder_nodes := _transcoder_nodes self ++ [n] |}
  | Packager n =>
      {| fields :=
           {| PeriodConcatNode._pipeline_config :=
                PeriodConcatNode._pipeline_config (fields self);
              PeriodConcatNode._output_dir := PeriodConcatNode._output_dir (fields self);
              PeriodConcatNode._packager_nodes :=
                PeriodConcatNode._packager_nodes (fields self) ++ [n];
              PeriodConcatNode._status := PeriodConcatNode._status (fields self) |};
         _period_inputs_list := _period_inputs_list self;
         _transcoder_nodes := _transcoder_nodes self |}
  | OtherNode => self
  end.

(** [PeriodConcatNode.__init__].  The status is the one the constructor of
    the base class leaves; the base class is not among the sources, so the
    status is a parameter. *)
Definition __init__ (status : ProcessStatus) (pipeline_config : PipelineConfig)
           (all_nodes : list NodeBase) (outpud_dir : string) : instance :=
  fold_left collect all_nodes
    {| fields :=
         {| PeriodConcatNode._pipeline_config := pipeline_config;
            PeriodConcatNode._output_dir := outpud_dir;
            PeriodConcatNode._packager_nodes := [];
            PeriodConcatNode._status := status |};
       _period_inputs_list := [];
       _transcoder_nodes := [] |}.

(** The packager nodes and the transcoder nodes of a pipeline, in its
    order. *)
Definition packagers (all_nodes : list NodeBase) : list PackagerNode :=
  flat_map (fun node => match node with Packager n => [n] | _ => [] end) all_nodes.

Definition transcoders (all_nodes : list NodeBase) : list TranscoderNode :=
  flat_map (fun node => match node with Transcoder n => [n] | _ => [] end) all_nodes.

End Nodes.

Arguments Transcoder {TranscoderNode} node.
Arguments Packager {TranscoderNode} node.
Arguments OtherNode {TranscoderNode}.
Arguments fields {Input TranscoderNode} i.
Arguments _period_inputs_list {Input TranscoderNode} i.
Arguments _transcoder_nodes {Input TranscoderNode} i.
Arguments collect {Input TranscoderNode} _inputs self node.
Arguments __init__ {Input TranscoderNode} _inputs status pipeline_config all_nodes outpud_dir.
Arguments packagers {TranscoderNode} all_nodes.
Arguments transcoders {TranscoderNode} all_nodes.

End Pipeline.


(** ** The watcher, in the states the specification gives it *)

Inductive WatcherState : Type :=
| Polling
| WatcherFinished
| WatcherErrored (cause : exn).

(** Modelled from the spec: the thread wrapper that calls
    [_thread_single_pass] lives in [ThreadedNodeBase]
    ([streamer/node_base.py]), which is not among the sources.  After the
    specification, a pass that raises ends the watcher in Errored with the
    cause (the node is built with [continue_on_exception=False]), a pass
    that sets the status to [Finished] ends it in Finished, and any other
    pass leaves it polling. *)
Definition tick (self : PeriodConcatNode.t) (w : World) : WatcherState :=
  let p := PeriodConcatNode._thread_single_pass self w in
  match PeriodConcatNode.raised p with
  | Some e => WatcherErrored e
  | None =>
      match PeriodConcatNode.status_after p with
      | Finished => WatcherFinished
      | _ => Polling
      end
  end.

(** What the jobs report, in index order. *)
Definition statuses (self : PeriodConcatNode.t) : list ProcessStatus :=
  map check_status (PeriodConcatNode._packager_nodes self).

(** The message of the error raised for job [i]. *)
Definition errored_message (i : nat) : string :=
  "PeriodConcatNode: 'PackagerNode#" ++ Py.str_int (Z.of_nat i)
  ++ " Errored, Concatenation is stopped.'".

(** Every job before [i] reports [Finished]. *)
Definition finished_before (l : list ProcessStatus) (i : nat) : Prop :=
  forall j, (j < i)%nat -> nth_error l j = Some Finished.

(** ** Sample inputs *)

Module Sample.

Definition config (mode : StreamingMode) : PipelineConfig :=
  {| manifest_format := [DASH]; streaming_mode := mode; dash_output := "dash.mpd" |}.

Definition job (dir : string) (s : ProcessStatus) : PackagerNode :=
  {| packager_output_dir := dir; check_status := s |}.

(** Three jobs that report the given statuses. *)
Definition node (mode : StreamingMode) (s0 s1 s2 : ProcessStatus) : PeriodConcatNode.t :=
  {| PeriodConcatNode._pipeline_config := config mode;
     PeriodConcatNode._output_dir := "out";
     PeriodConcatNode._packager_nodes :=
       [job "jobs/0" s0; job "jobs/1" s1; job "jobs/2" s2];
     PeriodConcatNode._status := Running |}.

Definition q : string -> string := PeriodConcatNode.qname.

Definition segment_template : ElementTree.Element :=
  ElementTree.Node (q "SegmentTemplate")
    [("timescale", "90000"); ("initialization", "init.mp4");
     ("media", "seg-$Number$.mp4")] None [].

Definition base_url (url : string) : ElementTree.Element :=
  ElementTree.Node (q "BaseURL") [] (Some url) [].

Definition period (url : string) : ElementTree.Element :=
  ElementTree.Node (q "Period") [("id", "0")] None
    [ElementTree.Node (q "AdaptationSet") [("contentType", "video")] None
       [ElementTree.Node (q "Representation") [("id", "0")] None [segment_template];
        ElementTree.Node (q "Representation") [("id", "1")] None [base_url url]]].

(** A single-period manifest with the given total duration, and one
    representation with the given base location. *)
Definition manifest (duration url : string) : ElementTree.Element :=
  ElementTree.Node (q "MPD")
    [("type", "static"); ("mediaPresentationDuration", duration)] None
    [period url].

(** The manifests of the three jobs on disk. *)
Definition world (m0 m1 m2 : ElementTree.Element) : World :=
  {| getcwd := "/home/streamer";
     files := fun path =>
       if path =? "jobs/0/dash.mpd" then Some m0
       else if path =? "jobs/1/dash.mpd" then Some m1
       else if path =? "jobs/2/dash.mpd" then Some m2
       else None;
     write_error := fun _ => None;
     m3u8_installed := true;
     __version__ := "0.3.0" |}.

(** Three jobs of ten seconds each. *)
Definition world10 (duration : string) : World :=
  world (manifest duration "video.mp4") (manifest duration "video.mp4")
        (manifest duration "video.mp4").

(** A manifest of ten seconds whose period states its duration too. *)
Definition timed_manifest : ElementTree.Element :=
  ElementTree.Node (q "MPD")
    [("type", "static"); ("mediaPresentationDuration", "PT10S")] None
    [ElementTree.Node (q "Period") [("id", "0"); ("duration", "PT10S")] None
       (ElementTree.children (period "video.mp4"))].

Definition world_timed : World := world timed_manifest timed_manifest timed_manifest.

(** The same, the first job giving an absolute base location. *)
Definition world_absolute : World :=
  world (manifest "PT10S" "https://cdn.example.com/video.mp4")
        (manifest "PT10S" "video.mp4") (manifest "PT10S" "video.mp4").

(** Three jobs whose manifests differ in duration and base location. *)
Definition world_abc : World :=
  world (manifest "PT10S" "a.mp4") (manifest "PT20S" "b.mp4") (manifest "PT30S" "c.mp4").

(** A manifest with two periods. *)
Definition two_periods : ElementTree.Element :=
  ElementTree.Node (q "MPD")
    [("type", "static"); ("mediaPresentationDuration", "PT10S")] None
    [period "a.mp4";
     ElementTree.Node (q "Period") [("id", "1")] None
       (ElementTree.children (period "z.mp4"))].

(** The same three jobs, the first with a manifest of two periods. *)
Definition world_two_periods : World :=
  world two_periods (manifest "PT20S" "b.mp4") (manifest "PT30S" "c.mp4").

End Sample.


(** ** Shapes of texts *)

(** [c in s]. *)
Fixpoint has_char (c : ascii) (s : string) : bool :=
  match s with
  | EmptyString => false
  | String c' s' => Ascii.eqb c' c || has_char c s'
  end.

(** Every character of [s] satisfies [p]. *)
Fixpoint all_chars (p : ascii -> bool) (s : string) : bool :=
  match s with
  | EmptyString => true
  | String c s' => p c && all_chars p s'
  end.





(** ** Vocabulary of the properties *)

(** The manifest a job wrote. *)
Definition manifest_path (self : PeriodConcatNode.t) (node : PackagerNode) : string :=
  posixpath.join (packager_output_dir node)
                 [dash_output (PeriodConcatNode._pipeline_config self)].

(** [e.attrib.get(key)]. *)
Definition attribute (e : ElementTree.Element) (key : string) : option string :=
  ElementTree.get (ElementTree.attrib e) key.

Definition period_tag : string := PeriodConcatNode.qname "Period".

(** The period children of a document, in document order. *)
Definition periods_of (doc : ElementTree.Element) : list ElementTree.Element :=
  filter (ElementTree.has_tag period_tag) (ElementTree.children doc).

(** The segment templates and the base locations the node looks for under
    a period. *)
Definition segment_templates (period : ElementTree.Element) : list ElementTree.Element :=
  PeriodConcatNode.findall period ["AdaptationSet"; "Representation"; "SegmentTemplate"].
Definition base_urls (period : ElementTree.Element) : list ElementTree.Element :=
  PeriodConcatNode.findall period ["AdaptationSet"; "Representation"; "BaseURL"].

Definition has_text (e : ElementTree.Element) : bool :=
  match ElementTree.text e with Some _ => true | None => false end.

(** What a job must have written for the merge to go through: its
    directory is named, its manifest is there and has a period child whose
    base locations all have a text, and, for VOD, the manifest gives a total
    duration that [parse] reads. *)
Definition job_ok (self : PeriodConcatNode.t) (w : World) (node : PackagerNode) : bool :=
  negb (packager_output_dir node =? "") &&
  match files w (manifest_path self node) with
  | Some mpd =>
      match PeriodConcatNode.find mpd ["Period"] with
      | Ok period =>
          forallb has_text (base_urls period) &&
          match streaming_mode (PeriodConcatNode._pipeline_config self) with
          | VOD =>
              match attribute mpd "mediaPresentationDuration" with
              | Some d => succeeds (ISO8601.parse d)
              | None => false
              end
          | LIVE => true
          end
      | Raise _ => false
      end
  | None => false
  end.

(** [total_time] after [+=] over the durations [ds], in their order. *)
Fixpoint accumulate (total_time : ISO8601.t) (ds : list ISO8601.t) : result ISO8601.t :=
  match ds with
  | [] => Ok total_time
  | d :: ds' => total_time <- ISO8601.__iadd__ total_time d ;; accumulate total_time ds'
  end.

(** The total duration the manifest of a job gives, as [parse] reads it. *)
Definition reported (self : PeriodConcatNode.t) (w : World) (node : PackagerNode)
  : result ISO8601.t :=
  mpd <- ElementTree.parse (files w) (manifest_path self node) ;;
  d <- ElementTree.getitem (ElementTree.attrib mpd) "mediaPresentationDuration" ;;
  ISO8601.parse d.

(** The total durations of the jobs, added up in the order of the jobs
    from the default duration. *)
Definition vod_total (self : PeriodConcatNode.t) (w : World) : result ISO8601.t :=
  ds <- mapM (reported self w) (PeriodConcatNode._packager_nodes self) ;;
  accumulate ISO8601.default ds.

(** The number can be written out: a float, or an integer with no more
    digits than [str] writes. *)
Definition writable (x : Py.num) : bool :=
  match x with
  | Py.PyInt z => (Py.digits z <=? Py.max_str_digits)%Z
  | Py.PyFloat _ => true
  end.

(** Every field of the duration can be written out. *)
Definition printable (d : ISO8601.t) : bool :=
  forallb (fun z => (Py.digits z <=? Py.max_str_digits)%Z)
          [ISO8601.years d; ISO8601.months d; ISO8601.days d;
           ISO8601.hours d; ISO8601.minutes d]
  && writable (ISO8601.seconds d).

(** The total duration of the merged document can be printed: for VOD, no
    field of the sum of the jobs' durations has more digits than [str]
    writes. *)
Definition total_printable (self : PeriodConcatNode.t) (w : World) : bool :=
  match streaming_mode (PeriodConcatNode._pipeline_config self) with
  | VOD =>
      match vod_total self w with
      | Ok total => printable total
      | Raise _ => false
      end
  | LIVE => true
  end.

(** There is a job, every job wrote what [job_ok] asks, and the total can
    be printed. *)
Definition mergeable (self : PeriodConcatNode.t) (w : World) : bool :=
  match PeriodConcatNode._packager_nodes self with
  | [] => false
  | nodes => forallb (job_ok self w) nodes && total_printable self w
  end.

(** Two nodes that differ at most in what their jobs report. *)
Definition same_jobs (self self' : PeriodConcatNode.t) : Prop :=
  PeriodConcatNode._pipeline_config self' = PeriodConcatNode._pipeline_config self /\
  PeriodConcatNode._output_dir self' = PeriodConcatNode._output_dir self /\
  map packager_output_dir (PeriodConcatNode._packager_nodes self')
  = map packager_output_dir (PeriodConcatNode._packager_nodes self).

(** The turns of the merge loop from index [i] on: the periods collected
    and the running total at the end. *)
Inductive turns (self : PeriodConcatNode.t) (w : World)
  : nat -> list PackagerNode -> ISO8601.t -> list ElementTree.Element -> ISO8601.t -> Prop :=
| turns_nil i total : turns self w i [] total [] total
| turns_cons i node nodes total period total1 periods total2 :
    PeriodConcatNode.concat_period self w i node total = Ok (period, total1) ->
    turns self w (S i) nodes total1 periods total2 ->
    turns self w i (node :: nodes) total (period :: periods) total2.

(** An absolute reference, after RFC 3986: a scheme (a letter, then
    letters, digits, [+], [-] or [.]) followed by a colon. *)
Definition is_alpha (c : ascii) : bool :=
  let n := nat_of_ascii c in
  ((65 <=? n)%nat && (n <=? 90)%nat) || ((97 <=? n)%nat && (n <=? 122)%nat).

Definition scheme_char (c : ascii) : bool :=
  is_alpha c || Py.is_digit c || Ascii.eqb c "+" || Ascii.eqb c "-" || Ascii.eqb c ".".

Fixpoint scheme_rest (s : string) : bool :=
  match s with
  | EmptyString => false
  | String c s' => Ascii.eqb c ":" || (scheme_char c && scheme_rest s')
  end.

Definition has_scheme (reference : string) : bool :=
  match reference with
  | String c s' => is_alpha c && scheme_rest s'
  | EmptyString => false
  end.


(** Ten seconds, as [parse] returns them, and the float inside. *)
Definition ten : Py.float := S754_finite false 5629499534213120 (-49).
Definition ten_seconds : ISO8601.t := ISO8601.mk 0 0 0 0 0 (Py.PyFloat ten).

(** What the rewriting makes of a location attribute: nothing when it is
    absent or empty, else the relative path [rel] joined with it. *)
Definition rewritten (rel : string) (value : option string) : option string :=
  match value with
  | Some v => if v =? "" then Some v else Some (posixpath.join rel [v])
  | None => None
  end.





(** ** The duration grammar, as the specification writes it

    [P[nY][nM][nD][T[nH][nM][n.nS]]]: every component is optional, [n] is
    an integer numeral and [n.n] a numeral that may have a fraction. *)

Module Grammar.

(** The components of a duration text: the numerals of the date part, and,
    when there is a time part, the numerals of the time part. *)
Record parts : Type := {
  years : option string;
  months : option string;
  days : option string;
  time : option (option string * option string * option string)
}.

(** An optional component: its numeral and its letter, or nothing. *)
Definition opt (o : option string) (letter : string) : string :=
  match o with
  | Some t => t ++ letter
  | None => ""
  end.

Definition time_text (t : option (option string * option string * option string))
  : string :=
  match t with
  | Some (h, mi, sec) => "T" ++ opt h "H" ++ opt mi "M" ++ opt sec "S"
  | None => ""
  end.

(** The text the components spell. *)
Definition text_of (p : parts) : string :=
  "P" ++ opt (years p) "Y" ++ opt (months p) "M" ++ opt (days p) "D"
      ++ time_text (time p).

(** [n]: one digit or more. *)
Definition integer (t : string) : Prop :=
  t <> "" /\ all_chars Py.is_digit t = true.

(** [n.n]: an integer numeral, or digits around one point with a digit on
    one side at least. *)
Definition decimal (t : string) : Prop :=
  integer t \/
  exists a b, all_chars Py.is_digit a = true /\ all_chars Py.is_digit b = true /\
              a ++ b <> "" /\ t = a ++ "." ++ b.

Definition every (P : string -> Prop) (o : option string) : Prop :=
  match o with
  | Some t => P t
  | None => True
  end.

Definition well_formed (p : parts) : Prop :=
  every integer (years p) /\ every integer (months p) /\ every integer (days p) /\
  match time p with
  | Some (h, mi, sec) => every integer h /\ every integer mi /\ every decimal sec
  | None => True
  end.

(** The texts of the grammar. *)
Definition duration (s : string) : Prop :=
  exists p, well_formed p /\ s = text_of p.

(** The time part, or the seconds in it, are absent. *)
Definition seconds_absent (p : parts) : Prop :=
  match time p with
  | Some (_, _, sec) => sec = None
  | None => True
  end.

(** The canonical form: every component is there. *)
Definition canonical (y mo d h mi sec : string) : parts :=
  {| years := Some y; months := Some mo; days := Some d;
     time := Some (Some h, Some mi, Some sec) |}.

End Grammar.

(** [s] without the newline that ends it, if one does. *)
Fixpoint chomp (s : string) : string :=
  match s with
  | EmptyString => EmptyString
  | String c s' =>
      match s' with
      | EmptyString => if Ascii.eqb c "010" then EmptyString else s
      | _ => String c (chomp s')
      end
  end.

(** ** Vocabulary for the duration pattern *)

(** The longest prefix of [s] in the class, and what follows it. *)
Fixpoint span (cls : ascii -> bool) (s : string) : string * string :=
  match s with
  | String c s' =>
      if cls c then let (w, r) := span cls s' in (String c w, r)
      else (EmptyString, s)
  | EmptyString => (EmptyString, EmptyString)
  end.

(** The first character of [s] outside the class. *)
Definition lead (cls : ascii -> bool) (s : string) : option ascii :=
  match snd (span cls s) with
  | String c _ => Some c
  | EmptyString => None
  end.

(** What a continuation of the matcher accepts: the texts [s] and the
    captures [delta] it adds, given by [R]. *)
Definition denotes (k : re.cont) (R : string -> re.captures -> Prop) : Prop :=
  forall pos s caps m,
    k pos s caps = Some m <-> exists delta, R s delta /\ m = (delta ++ caps)%list.

(** The capture of an optional component. *)
Definition cap (i : nat) (o : option string) : re.captures :=
  match o with
  | Some w => [(i, w)]
  | None => []
  end.

(** The texts of an optional component followed by texts of [R]. *)
Definition opt_rel (i : nat) (cls : ascii -> bool) (letter : ascii)
           (R : string -> re.captures -> Prop) (s : string) (delta : re.captures) : Prop :=
  exists o r d,
    Grammar.every (fun w => all_chars cls w = true) o /\
    s = Grammar.opt o (String letter "") ++ r /\
    R r d /\ delta = (d ++ cap i o)%list.

(** The end of the text, or the newline that ends it. *)
Definition end_rel (s : string) (delta : re.captures) : Prop :=
  (s = "" \/ s = String "010" "") /\ delta = [].

Definition time_rel : string -> re.captures -> Prop :=
  opt_rel 4 re.digit "H" (opt_rel 5 re.digit "M" (opt_rel 6 re.digit_or_dot "S" end_rel)).

(** The optional time part, then the end. *)
Definition tail_rel (s : string) (delta : re.captures) : Prop :=
  (exists r, s = String "T" r /\ time_rel r delta) \/ end_rel s delta.

Definition date_rel : string -> re.captures -> Prop :=
  opt_rel 1 re.digit "Y" (opt_rel 2 re.digit "M" (opt_rel 3 re.digit "D" tail_rel)).

(** The continuation that ends a match. *)
Definition final : re.cont := fun _ _ caps => Some caps.

(** The pattern after its first two items, [^] and [P]. *)
Definition after_P : re.regex :=
  re.Cat (ISO8601.component 1 re.digit "Y")
 (re.Cat (ISO8601.component 2 re.digit "M")
 (re.Cat (ISO8601.component 3 re.digit "D")
 (re.Cat (re.Opt (re.Cat (re.Lit "T")
                 (re.Cat (ISO8601.component 4 re.digit "H")
                 (re.Cat (ISO8601.component 5 re.digit "M")
                         (ISO8601.component 6 re.digit_or_dot "S")))))
         re.Eol))).

(** The characters that may lead the end of the text: none, or the
    newline. *)
Definition lead_end (o : option ascii) : bool :=
  match o with
  | None => true
  | Some c => Ascii.eqb c "010"
  end.

(** The leads an optional component adds: its letter and the characters
    of its class. *)
Definition lead_opt (cls : ascii -> bool) (letter : ascii)
           (Q : option ascii -> bool) (o : option ascii) : bool :=
  Q o || match o with
         | Some c => Ascii.eqb c letter || cls c
         | None => false
         end.

(** The default of an absent group, as [parse] asks for it. *)
Definition dflt (o : option string) : string :=
  match o with
  | Some w => w
  | None => "0"
  end.

(** The captures a text with the components [p] leaves. *)
Definition caps_of (p : Grammar.parts) : re.captures :=
  (match Grammar.time p with
   | Some (h, mi, sec) => cap 6 sec ++ cap 5 mi ++ cap 4 h
   | None => []
   end ++ cap 3 (Grammar.days p) ++ cap 2 (Grammar.months p)
       ++ cap 1 (Grammar.years p))%list.

(** The six groups of such a text, absent ones at their default. *)
Definition groups_of (p : Grammar.parts) : list string :=
  [dflt (Grammar.years p); dflt (Grammar.months p); dflt (Grammar.days p)] ++
  match Grammar.time p with
  | Some (h, mi, sec) => [dflt h; dflt mi; dflt sec]
  | None => ["0"; "0"; "0"]
  end.

(** The components are runs of the classes the pattern reads. *)
Definition in_classes (p : Grammar.parts) : Prop :=
  Grammar.every (fun w => all_chars re.digit w = true) (Grammar.years p) /\
  Grammar.every (fun w => all_chars re.digit w = true) (Grammar.months p) /\
  Grammar.every (fun w => all_chars re.digit w = true) (Grammar.days p) /\
  match Grammar.time p with
  | Some (h, mi, sec) =>
      Grammar.every (fun w => all_chars re.digit w = true) h /\
      Grammar.every (fun w => all_chars re.digit w = true) mi /\
      Grammar.every (fun w => all_chars re.digit_or_dot w = true) sec
  | None => True
  end.

(** What [parse] makes of six groups. *)
Definition convert (gs : list string) : result ISO8601.t :=
  groups <- mapM Py.int (firstn 5 gs) ;;
  seconds <- Py.float_of_str (nth 5 gs "") ;;
  Ok (ISO8601.mk (nth 0 groups 0%Z) (nth 1 groups 0%Z) (nth 2 groups 0%Z)
                 (nth 3 groups 0%Z) (nth 4 groups 0%Z) (Py.PyFloat seconds)).


(** The leads of the optional time part and of the end. *)
Definition lead_tail (o : option ascii) : bool :=
  lead_end o || match o with Some c => Ascii.eqb c "T" | None => false end.

(** The float 0, sign plus. *)
Definition zero : Py.float := S754_zero false.

(** A numeral that is spelled the way Python prints the number it
    denotes: an integer, a float. *)
Definition printed_int (t : string) : Prop :=
  exists z, Py.int t = Ok z /\ Py.str_int z = t.

Definition printed_float (t : string) : Prop :=
  exists f, Py.float_of_str t = Ok f /\ Py.float_repr f = t.

(** An integer numeral without a zero in front: the numeral [0], or one
    that starts with another digit. *)
Definition no_leading_zero (t : string) : Prop :=
  Grammar.integer t /\ (t = "0" \/ Py.startswith t "0" = false).

(** A numeral that is not longer than the limit on the digits [int]
    reads. *)
Definition within_limit (t : string) : Prop :=
  (Z.of_nat (String.length t) <= Py.max_str_digits)%Z.

(** The five integer numerals among the components, where they are there,
    are within the limit; the seconds, which [float] reads, are under no
    limit. *)
Definition readable (p : Grammar.parts) : Prop :=
  Grammar.every within_limit (Grammar.years p) /\
  Grammar.every within_limit (Grammar.months p) /\
  Grammar.every within_limit (Grammar.days p) /\
  match Grammar.time p with
  | Some (h, mi, _) => Grammar.every within_limit h /\ Grammar.every within_limit mi
  | None => True
  end.

(** A text of the grammar whose integer numerals are within the limit. *)
Definition short_duration (s : string) : Prop :=
  exists p, Grammar.well_formed p /\ readable p /\ s = Grammar.text_of p.


(** ** Further vocabulary of the properties *)

Definition calendar (d : ISO8601.t) : Z * Z * Z * Z * Z :=
  (ISO8601.years d, ISO8601.months d, ISO8601.days d,
   ISO8601.hours d, ISO8601.minutes d).

Definition is_int (x : Py.num) : bool :=
  match x with Py.PyInt _ => true | Py.PyFloat _ => false end.

(** A path component: not empty, no slash inside. *)
Definition component (c : string) : Prop := c <> "" /\ has_char "/" c = false.

(** A path that [join] extends with a slash: not empty, no slash at its
    end. *)
Definition open_path (s : string) : Prop := s <> "" /\ Py.endswith s "/" = false.

(** The leading slashes [normpath] keeps for a path that starts with [a]
    and a slash. *)
Definition slashes_under (a : string) : nat :=
  if Py.startswith (a ++ "/") "/"
  then if Py.has_prefix (a ++ "/-") "//" && negb (Py.has_prefix (a ++ "/-") "///")
       then 2%nat else 1%nat
  else 0%nat.

(** The components [normpath] has collected when it is done with [a]. *)
Definition stack_under (a : string) : list string :=
  fold_left (posixpath.norm_step (slashes_under a)) (Py.split "/" a) [].

(** A relative path of plain names, as a text and as its components. *)
Definition plain_path (x : string) (names : list string) : Prop :=
  Py.split "/" x = names /\ names <> [] /\
  Forall (fun c => component c /\ c <> "." /\ c <> "..") names /\
  exists c x', x = String c x' /\ c <> "/"%char.

(** The running total can be added to: its seconds are the integer 0 of
    the default duration, or a float. *)
Definition addable (total : ISO8601.t) : Prop :=
  ISO8601.seconds total = Py.PyInt 0 \/ is_int (ISO8601.seconds total) = false.

(** The running total goes through a turn of the loop: it can be added
    to, and in LIVE mode, where every turn prints it, it can be printed. *)
Definition steady (mode : StreamingMode) (total : ISO8601.t) : Prop :=
  addable total /\ (mode = LIVE -> succeeds (ISO8601.__str__ total) = true).

(** The manifest of a job reports ten seconds: its total duration is a
    text that [parse] reads as ten seconds. *)
Definition reports_ten_seconds (self : PeriodConcatNode.t) (w : World)
           (node : PackagerNode) : Prop :=
  exists mpd d,
    files w (manifest_path self node) = Some mpd /\
    attribute mpd "mediaPresentationDuration" = Some d /\
    ISO8601.parse d = Ok ten_seconds.

(** ** Vocabulary of the further properties *)

(** Every job reports [Finished]. *)
Definition all_finished (self : PeriodConcatNode.t) : Prop :=
  Forall (fun node => check_status node = Finished) (PeriodConcatNode._packager_nodes self).

(** What the merge needs of a job, exactly: its manifest is there and has
    a period child; for VOD the manifest gives a total duration that
    [parse] reads; the job's directory is named when the period has a
    segment template or a base location to rewrite; and every base location
    has a text. *)
Definition job_ready (self : PeriodConcatNode.t) (w : World) (node : PackagerNode) : bool :=
  match files w (manifest_path self node) with
  | Some mpd =>
      match PeriodConcatNode.find mpd ["Period"] with
      | Ok period =>
          match streaming_mode (PeriodConcatNode._pipeline_config self) with
          | VOD =>
              match attribute mpd "mediaPresentationDuration" with
              | Some d => succeeds (ISO8601.parse d)
              | None => false
              end
          | LIVE => true
          end &&
          match segment_templates period, base_urls period with
          | [], [] => true
          | _, _ => negb (packager_output_dir node =? "")
          end &&
          forallb has_text (base_urls period)
      | Raise _ => false
      end
  | None => false
  end.

(** There is a job, every job is ready, and the total can be printed. *)
Definition ready (self : PeriodConcatNode.t) (w : World) : bool :=
  match PeriodConcatNode._packager_nodes self with
  | [] => false
  | nodes => forallb (job_ready self w) nodes && total_printable self w
  end.

(** The sum of a list of integers. *)
Definition sum (l : list Z) : Z := fold_right Z.add 0%Z l.

(** The children of a document that are no periods. *)
Definition others_of (doc : ElementTree.Element) : list ElementTree.Element :=
  filter (fun c => negb (ElementTree.has_tag period_tag c)) (ElementTree.children doc).

(** An element by itself: its tag, attributes and text, its children left
    out. *)
Definition label (e : ElementTree.Element)
  : string * ElementTree.attributes * option string :=
  (ElementTree.tag e, ElementTree.attrib e, ElementTree.text e).

(** The attribute that times a period in the given mode. *)
Definition timing_attribute (mode : StreamingMode) : string :=
  match mode with
  | VOD => "duration"
  | LIVE => "start"
  end.

(** The period the merge makes of job [i]: the first period child of the
    manifest the job wrote, with the identifier [str(i)]; its text, its
    attributes other than the identifier and the timing attribute, and the
    elements along every path under it are kept, the segment templates and
    base locations but for the locations that are rewritten. *)
Definition period_of_job (self : PeriodConcatNode.t) (w : World) (i : nat)
           (node : PackagerNode) (p : ElementTree.Element) : Prop :=
  exists mpd p0,
    files w (manifest_path self node) = Some mpd /\
    hd_error (periods_of mpd) = Some p0 /\
    ElementTree.tag p = period_tag /\
    attribute p "id" = Some (Py.str_int (Z.of_nat i)) /\
    ElementTree.text p = ElementTree.text p0 /\
    (forall k, k <> "id" ->
       k <> timing_attribute (streaming_mode (PeriodConcatNode._pipeline_config self)) ->
       attribute p k = attribute p0 k) /\
    (forall path,
       path <> [] -> path <> PeriodConcatNode.segment_template_path ->
       path <> PeriodConcatNode.base_url_path ->
       map label (ElementTree.iterfind [p] path)
       = map label (ElementTree.iterfind [p0] path)) /\
    Forall2 (fun old new =>
               ElementTree.tag new = ElementTree.tag old /\
               ElementTree.text new = ElementTree.text old /\
               ElementTree.children new = ElementTree.children old /\
               forall k, k <> "initialization" -> k <> "media" ->
                         attribute new k = attribute old k)
            (segment_templates p0) (segment_templates p) /\
    Forall2 (fun old new =>
               ElementTree.tag new = ElementTree.tag old /\
               ElementTree.attrib new = ElementTree.attrib old /\
               ElementTree.children new = ElementTree.children old)
            (base_urls p0) (base_urls p).

(** The float is no NaN and has the sign plus: a positive number, plus
    zero or plus infinity. *)
Definition sign_plus (f : Py.float) : bool :=
  match f with
  | S754_zero s | S754_infinity s | S754_finite s _ _ => negb s
  | S754_nan => false
  end.

(** The texts the duration pattern matches: the components are runs of the
    characters the pattern reads for them, empty runs included, and a
    newline may end the text. *)
Definition pattern_matches (s : string) : Prop :=
  exists p tail,
    in_classes p /\ (tail = "" \/ tail = String "010" "") /\ s = Grammar.text_of p ++ tail.

(** The names [relpath] sees in a path: the components of its absolute
    form. *)
Definition names (cwd path : string) : list string :=
  filter posixpath.nonempty (Py.split "/" (posixpath.abspath cwd path)).

(** The path [abspath] normalizes. *)
Definition anchored (cwd path : string) : string :=
  if posixpath.isabs path then path else posixpath.join2 cwd path.

(** A name that [normpath] keeps on its stack under a root: a component
    other than [.] and [..]. *)
Definition plain (c : string) : Prop := component c /\ c <> "." /\ c <> "..".

(** [normpath]'s stack at the end of an absolute path, its last component
    first. *)
Definition stack (cwd path : string) : list string :=
  fold_left (posixpath.norm_step 1) (Py.split "/" (anchored cwd path)) [].

(* ================================================================== *)
(** * Part II.  Properties *)
(* ================================================================== *)

(** ** Results and lists *)

Lemma bind_ok_inv {A B : Type} (c : result A) (k : A -> result B) (b : B) :
  bind c k = Ok b -> exists a, c = Ok a /\ k a = Ok b.
Proof.
  destruct c as [a|e]; simpl; intros H; [exists a; auto | discriminate].
Qed.

(** A computation that returned: its first step returned too. *)
Tactic Notation "invert_bind" hyp(H) "as" simple_intropattern(x) simple_intropattern(Hx) :=
  apply bind_ok_inv in H; destruct H as (x & Hx & H).

(** ** Floats: addition commutes *)

Lemma fadd_comm (x y : Py.float) : Py.fadd x y = Py.fadd y x.
Proof.
  unfold Py.fadd.
  destruct x as [sx|sx| |sx mx ex], y as [sy|sy| |sy my ey];
    try reflexivity;
    try (destruct sx, sy; reflexivity).
  unfold SFadd. rewrite (Z.min_comm ey ex). f_equal. apply Z.add_comm.
Qed.

Lemma num_add_comm (x y : Py.num) : Py.add x y = Py.add y x.
Proof.
  destruct x as [a|f], y as [b|g]; simpl.
  - now rewrite Z.add_comm.
  - destruct (Py.float_of_int a); simpl; [now rewrite fadd_comm | reflexivity].
  - destruct (Py.float_of_int b); simpl; [now rewrite fadd_comm | reflexivity].
  - now rewrite fadd_comm.
Qed.

(** ** Durations: addition *)

Lemma add_inv (a b r : ISO8601.t) :
  ISO8601.__add__ a b = Ok r ->
  r = ISO8601.mk (ISO8601.years a + ISO8601.years b)
                 (ISO8601.months a + ISO8601.months b)
                 (ISO8601.days a + ISO8601.days b)
                 (ISO8601.hours a + ISO8601.hours b)
                 (ISO8601.minutes a + ISO8601.minutes b)
                 (ISO8601.seconds r)
  /\ Py.add (ISO8601.seconds a) (ISO8601.seconds b) = Ok (ISO8601.seconds r).
Proof.
  unfold ISO8601.__add__. intros H.
  invert_bind H as s Hs.
  inversion H; subst; simpl. split; [reflexivity | assumption].
Qed.

Lemma add_comm (a b : ISO8601.t) : ISO8601.__add__ a b = ISO8601.__add__ b a.
Proof.
  unfold ISO8601.__add__. rewrite (num_add_comm (ISO8601.seconds a)).
  destruct (Py.add (ISO8601.seconds b) (ISO8601.seconds a)); simpl; [|reflexivity].
  f_equal. f_equal; apply Z.add_comm.
Qed.

(** C5, as amended.  Addition of durations is commutative; it is the sum
    container by container, nothing being carried from one container to
    the next; it is associative on the five calendar containers, and on
    the seconds too when these are integers; and thirty hours plus thirty
    hours are sixty hours, not two days and twelve hours. *)
Theorem C5_add_commutative_componentwise :
  (forall a b, ISO8601.__add__ a b = ISO8601.__add__ b a) /\
  (forall a b r, ISO8601.__add__ a b = Ok r ->
     ISO8601.years r = (ISO8601.years a + ISO8601.years b)%Z /\
     ISO8601.months r = (ISO8601.months a + ISO8601.months b)%Z /\
     ISO8601.days r = (ISO8601.days a + ISO8601.days b)%Z /\
     ISO8601.hours r = (ISO8601.hours a + ISO8601.hours b)%Z /\
     ISO8601.minutes r = (ISO8601.minutes a + ISO8601.minutes b)%Z /\
     Py.add (ISO8601.seconds a) (ISO8601.seconds b) = Ok (ISO8601.seconds r)) /\
  (forall a b c ab bc l r,
     ISO8601.__add__ a b = Ok ab -> ISO8601.__add__ ab c = Ok l ->
     ISO8601.__add__ b c = Ok bc -> ISO8601.__add__ a bc = Ok r ->
     calendar l = calendar r) /\
  (forall a b c,
     is_int (ISO8601.seconds a) = true -> is_int (ISO8601.seconds b) = true ->
     is_int (ISO8601.seconds c) = true ->
     (ab <- ISO8601.__add__ a b ;; ISO8601.__add__ ab c)
     = (bc <- ISO8601.__add__ b c ;; ISO8601.__add__ a bc)) /\
  (x <- ISO8601.parse "PT30H" ;; y <- ISO8601.parse "PT30H" ;; ISO8601.__add__ x y)
  = ISO8601.parse "PT60H" /\
  ISO8601.parse "PT60H"
  = Ok (ISO8601.mk 0 0 0 60 0 (Py.PyFloat (S754_zero false))).
Proof.
  split; [exact add_comm|].
  split.
  { intros a b r H. apply add_inv in H. destruct H as [Hr Hs].
    rewrite Hr; simpl. repeat split; auto. }
  split.
  { intros a b c ab bc l r Hab Hl Hbc Hr.
    apply add_inv in Hab, Hl, Hbc, Hr.
    destruct Hab as [Hab _], Hl as [Hl _], Hbc as [Hbc _], Hr as [Hr _].
    rewrite Hl, Hr, Hab, Hbc. unfold calendar; simpl.
    now rewrite !Z.add_assoc. }
  split.
  { intros [ya ma da ha mia sa] [yb mb db hb mib sb] [yc mc dc hc mic sc];
      simpl; intros Ha Hb Hc.
    destruct sa; try discriminate. destruct sb; try discriminate.
    destruct sc; try discriminate.
    unfold ISO8601.__add__; simpl. now rewrite !Z.add_assoc. }
  split; vm_compute; reflexivity.
Qed.

(** The hypotheses of C5 hold at the durations 1S, 2S, 3S with integer
    seconds and at their sums. *)
Lemma C5_add_witness :
  let a := ISO8601.mk 1 0 0 30 0 (Py.PyInt 1) in
  let b := ISO8601.mk 0 2 0 30 0 (Py.PyInt 2) in
  let c := ISO8601.mk 0 0 3 0 61 (Py.PyInt 3) in
  ISO8601.__add__ a b = Ok (ISO8601.mk 1 2 0 60 0 (Py.PyInt 3)) /\
  ISO8601.hours (ISO8601.mk 1 2 0 60 0 (Py.PyInt 3)) = 60%Z /\
  calendar (ISO8601.mk 1 2 3 60 61 (Py.PyInt 6)) = calendar (ISO8601.mk 1 2 3 60 61 (Py.PyInt 6)) /\
  (ab <- ISO8601.__add__ a b ;; ISO8601.__add__ ab c)
  = (bc <- ISO8601.__add__ b c ;; ISO8601.__add__ a bc).
Proof.
  intros a b c.
  destruct C5_add_commutative_componentwise as (_ & Hsum & Hcal & Hint & _).
  split; [reflexivity|].
  split.
  { destruct (Hsum a b (ISO8601.mk 1 2 0 60 0 (Py.PyInt 3)) eq_refl)
      as (_ & _ & _ & Hh & _). exact Hh. }
  split.
  { apply (Hcal a b c (ISO8601.mk 1 2 0 60 0 (Py.PyInt 3))
                 (ISO8601.mk 0 2 3 30 61 (Py.PyInt 5))); reflexivity. }
  apply Hint; reflexivity.
Defined.

(** C5, as stated, fails on the seconds: float addition is not
    associative, and 0.1S, 0.2S, 0.3S add up to 0.6000000000000001S one
    way and to 0.6S the other. *)
Lemma C5_add_not_associative :
  exists a b c,
    ISO8601.parse "PT0.1S" = Ok a /\ ISO8601.parse "PT0.2S" = Ok b /\
    ISO8601.parse "PT0.3S" = Ok c /\
    (ab <- ISO8601.__add__ a b ;; ISO8601.__add__ ab c)
    <> (bc <- ISO8601.__add__ b c ;; ISO8601.__add__ a bc) /\
    (ab <- ISO8601.__add__ a b ;; r <- ISO8601.__add__ ab c ;; ISO8601.__str__ r)
    = Ok "P0Y0M0DT0H0M0.6000000000000001S" /\
    (bc <- ISO8601.__add__ b c ;; r <- ISO8601.__add__ a bc ;; ISO8601.__str__ r)
    = Ok "P0Y0M0DT0H0M0.6S".
Proof.
  eexists; eexists; eexists.
  split; [vm_compute; reflexivity|].
  split; [vm_compute; reflexivity|].
  split; [vm_compute; reflexivity|].
  split; [vm_compute; discriminate|].
  split; vm_compute; reflexivity.
Qed.

(** ** The watcher *)

Lemma watch_errored (nodes : list PackagerNode) (k i : nat) :
  nth_error (map check_status nodes) k = Some Errored ->
  finished_before (map check_status nodes) k ->
  PeriodConcatNode.watch i nodes
  = Raise (RuntimeError (errored_message (i + k))).
Proof.
  revert k i. induction nodes as [|n nodes IH]; intros k i Hk Hbefore.
  - destruct k; discriminate.
  - destruct k as [|k]; simpl in *.
    + inversion Hk as [Hn]. rewrite Hn. now rewrite Nat.add_0_r.
    + assert (H0 : check_status n = Finished).
      { specialize (Hbefore 0%nat (Nat.lt_0_succ k)). now inversion Hbefore. }
      rewrite H0. rewrite (IH k (S i) Hk).
      * now rewrite Nat.add_succ_r.
      * intros j Hj. apply (Hbefore (S j)). lia.
Qed.

Lemma watch_running (nodes : list PackagerNode) (k i : nat) :
  nth_error (map check_status nodes) k = Some Running ->
  finished_before (map check_status nodes) k ->
  PeriodConcatNode.watch i nodes = Ok false.
Proof.
  revert k i. induction nodes as [|n nodes IH]; intros k i Hk Hbefore.
  - destruct k; discriminate.
  - destruct k as [|k]; simpl in *.
    + inversion Hk as [Hn]. now rewrite Hn.
    + assert (H0 : check_status n = Finished).
      { specialize (Hbefore 0%nat (Nat.lt_0_succ k)). now inversion Hbefore. }
      rewrite H0. apply (IH k (S i) Hk).
      intros j Hj. apply (Hbefore (S j)). lia.
Qed.

(** The loop runs to its end only when no job reports [Errored]. *)
Lemma watch_all_finished (nodes : list PackagerNode) (i : nat) :
  PeriodConcatNode.watch i nodes = Ok true ->
  forall k, nth_error (map check_status nodes) k <> Some Errored.
Proof.
  revert i. induction nodes as [|n nodes IH]; intros i H k.
  - destruct k; discriminate.
  - simpl in H. destruct (check_status n) eqn:Hn; try discriminate.
    destruct k as [|k]; simpl.
    + rewrite Hn. discriminate.
    + apply (IH (S i) H).
Qed.

(** A pass that does not reach the merge: nothing is written, the status
    stays, and the world is not looked at. *)
Lemma pass_without_merge (self : PeriodConcatNode.t) (w : World) :
  PeriodConcatNode.watch 0 (PeriodConcatNode._packager_nodes self) <> Ok true ->
  PeriodConcatNode.written (PeriodConcatNode._thread_single_pass self w) = []
  /\ PeriodConcatNode.status_after (PeriodConcatNode._thread_single_pass self w)
     = PeriodConcatNode._status self
  /\ forall w', PeriodConcatNode._thread_single_pass self w'
                = PeriodConcatNode._thread_single_pass self w.
Proof.
  intros H. unfold PeriodConcatNode._thread_single_pass.
  destruct (PeriodConcatNode.watch 0 (PeriodConcatNode._packager_nodes self))
    as [[|]|e]; simpl; auto.
  now elim H.
Qed.

(** C9: what a pass does when a job is errored.  On a pass in which job
    [i] reports [Errored], the merge is not invoked (the pass does not
    depend on the files), no file is written, the node's status is not set
    and the watcher does not end in Finished.  When every job before [i] reports [Finished], the pass
    raises the error that names [i] and the watcher ends in Errored; when
    a job before [i] reports [Running] and the jobs before that one
    [Finished], the pass returns and the watcher keeps polling. *)
Theorem C9_errored_job_blocks_merge (self : PeriodConcatNode.t) (w : World) (i : nat) :
  nth_error (statuses self) i = Some Errored ->
  let p := PeriodConcatNode._thread_single_pass self w in
  PeriodConcatNode.written p = [] /\
  PeriodConcatNode.status_after p = PeriodConcatNode._status self /\
  (forall w', PeriodConcatNode._thread_single_pass self w' = p) /\
  (PeriodConcatNode._status self = Running -> tick self w <> WatcherFinished) /\
  (finished_before (statuses self) i ->
     PeriodConcatNode.raised p = Some (RuntimeError (errored_message i)) /\
     tick self w = WatcherErrored (RuntimeError (errored_message i))) /\
  (forall j, (j < i)%nat -> nth_error (statuses self) j = Some Running ->
     finished_before (statuses self) j ->
     PeriodConcatNode.raised p = None /\
     (PeriodConcatNode._status self = Running -> tick self w = Polling)).
Proof.
  intros Hi p. subst p. unfold statuses in *.
  assert (Hw : PeriodConcatNode.watch 0 (PeriodConcatNode._packager_nodes self) <> Ok true).
  { intros H. exact (watch_all_finished _ _ H i Hi). }
  destruct (pass_without_merge self w Hw) as (Hwr & Hst & Hworld).
  split; [exact Hwr|]. split; [exact Hst|]. split; [exact Hworld|].
  split; [|split].
  - intros Hrun. unfold tick; cbv zeta.
    destruct (PeriodConcatNode.raised (PeriodConcatNode._thread_single_pass self w));
      [discriminate|].
    rewrite Hst, Hrun. discriminate.
  - intros Hbefore.
    assert (Hr : PeriodConcatNode.raised (PeriodConcatNode._thread_single_pass self w)
                 = Some (RuntimeError (errored_message i))).
    { unfold PeriodConcatNode._thread_single_pass.
      now rewrite (watch_errored _ i 0 Hi Hbefore). }
    split; [exact Hr|]. unfold tick; cbv zeta. now rewrite Hr.
  - intros j Hj Hrunning Hbefore.
    assert (Hr : PeriodConcatNode.raised (PeriodConcatNode._thread_single_pass self w)
                 = None).
    { unfold PeriodConcatNode._thread_single_pass.
      now rewrite (watch_running _ j 0 Hrunning Hbefore). }
    split; [exact Hr|]. intros Hrun. unfold tick; cbv zeta.
    now rewrite Hr, Hst, Hrun.
Qed.

(** The hypotheses of C9 hold for three jobs that report Finished,
    Errored, Running: the pass raises the error that names job 1. *)
Lemma C9_errored_witness :
  nth_error (statuses (Sample.node VOD Finished Errored Running)) 1 = Some Errored /\
  forall w,
    PeriodConcatNode.written
      (PeriodConcatNode._thread_single_pass (Sample.node VOD Finished Errored Running) w) = [] /\
    tick (Sample.node VOD Finished Errored Running) w
    = WatcherErrored (RuntimeError "PeriodConcatNode: 'PackagerNode#1 Errored, Concatenation is stopped.'").
Proof.
  split; [reflexivity|]. intros w.
  destruct (C9_errored_job_blocks_merge (Sample.node VOD Finished Errored Running) w 1 eq_refl)
    as (Hwr & _ & _ & _ & Herr & _).
  split; [exact Hwr|].
  apply Herr. intros j Hj. destruct j as [|j]; [reflexivity | lia].
Defined.

(** C9: the code at a failing input.  The docstring of
    [_thread_single_pass] has the pass raise a [RuntimeError] if one of the
    jobs is errored; the loop returns at the first job that is running
    without looking at the jobs after it.  With the statuses Running,
    Errored, Finished the pass returns at job 0, raises nothing, and the
    watcher keeps polling. *)
Lemma C9_running_job_hides_error :
  nth_error (statuses (Sample.node VOD Running Errored Finished)) 1 = Some Errored /\
  forall w,
    PeriodConcatNode.raised
      (PeriodConcatNode._thread_single_pass (Sample.node VOD Running Errored Finished) w) = None /\
    tick (Sample.node VOD Running Errored Finished) w = Polling /\
    (forall e, tick (Sample.node VOD Running Errored Finished) w <> WatcherErrored e).
Proof.
  split; [reflexivity|]. intros w.
  split; [reflexivity|]. split; [reflexivity|]. intros e; discriminate.
Qed.

(** ** Texts *)

Lemma string_app_assoc (s t u : string) : (s ++ t) ++ u = s ++ (t ++ u).
Proof. induction s as [|a s IH]; simpl; [reflexivity | now rewrite IH]. Qed.

Lemma string_app_nil_r (s : string) : s ++ "" = s.
Proof. induction s as [|a s IH]; simpl; [reflexivity | now rewrite IH]. Qed.

Lemma string_app_length (s t : string) :
  String.length (s ++ t) = (String.length s + String.length t)%nat.
Proof. induction s as [|a s IH]; simpl; [reflexivity | now rewrite IH]. Qed.

Lemma has_char_app (c : ascii) (s t : string) :
  has_char c (s ++ t) = has_char c s || has_char c t.
Proof.
  induction s as [|a s IH]; simpl; [reflexivity|].
  now rewrite IH, orb_assoc.
Qed.

Lemma all_chars_app (p : ascii -> bool) (s t : string) :
  all_chars p (s ++ t) = all_chars p s && all_chars p t.
Proof.
  induction s as [|a s IH]; simpl; [reflexivity|].
  now rewrite IH, andb_assoc.
Qed.


(** ** How floats are printed *)



(** ** Durations: what [parse] returns and how it is printed *)

Lemma parse_seconds_float (s : string) (d : ISO8601.t) :
  ISO8601.parse s = Ok d -> exists f, ISO8601.seconds d = Py.PyFloat f.
Proof.
  unfold ISO8601.parse. destruct (re.search ISO8601.pattern s); [|discriminate].
  intros H. invert_bind H as gs _.
  invert_bind H as f _.
  inversion H; subst; simpl. now exists f.
Qed.


(** ** Attribute dictionaries *)

Lemma get_setitem_same (d : ElementTree.attributes) (k v : string) :
  ElementTree.get (ElementTree.setitem d k v) k = Some v.
Proof.
  induction d as [|[k' v'] d IH]; simpl.
  - now rewrite String.eqb_refl.
  - destruct (k' =? k) eqn:E; simpl; rewrite E; [reflexivity | exact IH].
Qed.

Lemma get_setitem_other (d : ElementTree.attributes) (k k' v : string) :
  k <> k' ->
  ElementTree.get (ElementTree.setitem d k v) k' = ElementTree.get d k'.
Proof.
  intros Hk. induction d as [|[k0 v0] d IH]; simpl.
  - destruct (k =? k') eqn:E; [apply String.eqb_eq in E; contradiction | reflexivity].
  - destruct (k0 =? k) eqn:E; simpl.
    + apply String.eqb_eq in E. subst k0.
      destruct (k =? k') eqn:E'; [apply String.eqb_eq in E'; contradiction | reflexivity].
    + destruct (k0 =? k'); [reflexivity | exact IH].
Qed.

(** ** Elements: what updates keep *)

Lemma mapM_length {A B : Type} (f : A -> result B) (l : list A) (l' : list B) :
  mapM f l = Ok l' -> List.length l' = List.length l.
Proof.
  revert l'. induction l as [|a l IH]; simpl; intros l' H.
  - now inversion H.
  - invert_bind H as b _.
    invert_bind H as bs Hbs.
    inversion H; subst; simpl. now rewrite (IH bs Hbs).
Qed.

Lemma iterfind_app (path : list string) (l1 l2 : list ElementTree.Element) :
  ElementTree.iterfind (l1 ++ l2) path
  = (ElementTree.iterfind l1 path ++ ElementTree.iterfind l2 path)%list.
Proof.
  revert l1 l2. induction path as [|t path IH]; intros l1 l2; simpl.
  - reflexivity.
  - now rewrite flat_map_app, IH.
Qed.

Lemma iterfind_cons (path : list string) (e : ElementTree.Element)
      (l : list ElementTree.Element) :
  ElementTree.iterfind (e :: l) path
  = (ElementTree.iterfind [e] path ++ ElementTree.iterfind l path)%list.
Proof. exact (iterfind_app path [e] l). Qed.

Lemma iterfind_nil (path : list string) : ElementTree.iterfind [] path = [].
Proof. induction path as [|t path IH]; simpl; auto. Qed.

Lemma iterfind_children (t : string) (path : list string) (e : ElementTree.Element) :
  ElementTree.iterfind [e] (t :: path)
  = ElementTree.iterfind (filter (ElementTree.has_tag t) (ElementTree.children e)) path.
Proof. simpl. now rewrite app_nil_r. Qed.

Section Updates.

Variable f : ElementTree.Element -> result ElementTree.Element.
Hypothesis f_tag : forall x y, f x = Ok y -> ElementTree.tag y = ElementTree.tag x.

Lemma update_all_tag (path : list string) (e e' : ElementTree.Element) :
  ElementTree.update_all path f e = Ok e' -> ElementTree.tag e' = ElementTree.tag e.
Proof.
  destruct path as [|t path]; simpl; intros H.
  - now apply f_tag.
  - invert_bind H as cs _.
    inversion H; subst. now destruct e.
Qed.

(** The elements at the end of [path] are, after the update, the images
    under [f] of the elements that were there, in the same order. *)
Lemma update_all_found (path : list string) (e e' : ElementTree.Element) :
  ElementTree.update_all path f e = Ok e' ->
  Forall2 (fun x y => f x = Ok y)
          (ElementTree.iterfind [e] path) (ElementTree.iterfind [e'] path).
Proof.
  revert e e'. induction path as [|t path IH]; intros e e' H.
  - simpl in *. constructor; [exact H | constructor].
  - simpl in H. invert_bind H as cs Hcs.
    inversion H; subst e'; clear H.
    rewrite !iterfind_children.
    replace (ElementTree.children (ElementTree.set_children e cs)) with cs
      by (now destruct e).
    revert cs Hcs. generalize (ElementTree.children e) as l.
    induction l as [|c l IHl]; intros cs Hcs; simpl in Hcs.
    + inversion Hcs; subst. simpl. rewrite iterfind_nil. constructor.
    + invert_bind Hcs as c' Hc.
      invert_bind Hcs as cs' Hcs'.
      inversion Hcs; subst cs; clear Hcs. simpl.
      destruct (ElementTree.has_tag t c) eqn:Ht.
      * assert (Ht' : ElementTree.has_tag t c' = true).
        { unfold ElementTree.has_tag in *. now rewrite (update_all_tag _ _ _ Hc). }
        rewrite Ht'. rewrite (iterfind_cons path c), (iterfind_cons path c').
        apply Forall2_app; [now apply IH | now apply IHl].
      * inversion Hc; subst c'. rewrite Ht. now apply IHl.
Qed.

(** The update succeeds when [f] succeeds on every element at the end of
    [path]. *)
Lemma update_all_succeeds (path : list string) (e : ElementTree.Element) :
  Forall (fun x => exists y, f x = Ok y) (ElementTree.iterfind [e] path) ->
  exists e', ElementTree.update_all path f e = Ok e'.
Proof.
  revert e. induction path as [|t path IH]; intros e H.
  - simpl in *. inversion H; subst. assumption.
  - rewrite iterfind_children in H. simpl.
    assert (Hcs : exists cs,
               mapM (fun c => if ElementTree.has_tag t c
                              then ElementTree.update_all path f c else Ok c)
                    (ElementTree.children e) = Ok cs).
    { revert H. generalize (ElementTree.children e) as l.
      induction l as [|c l IHl]; intros H; simpl.
      - now exists [].
      - simpl in H. destruct (ElementTree.has_tag t c) eqn:Ht.
        + rewrite iterfind_cons in H. apply Forall_app in H. destruct H as [Hc Hl].
          destruct (IH c Hc) as (c' & Hc'). destruct (IHl Hl) as (cs & Hcs).
          rewrite Hc', Hcs. simpl. now eexists.
        + destruct (IHl H) as (cs & Hcs). rewrite Hcs. simpl. now eexists. }
    destruct Hcs as (cs & Hcs). rewrite Hcs. simpl. now eexists.
Qed.

(** An update at the end of [pre ++ [t]] leaves the elements at the end
    of [pre ++ [t']] as they were, for another tag [t']. *)
Lemma update_all_elsewhere (pre : list string) (t t' : string)
      (e e' : ElementTree.Element) :
  t <> t' ->
  ElementTree.update_all (pre ++ [t]) f e = Ok e' ->
  ElementTree.iterfind [e'] (pre ++ [t']) = ElementTree.iterfind [e] (pre ++ [t']).
Proof.
  intros Ht. revert e e'. induction pre as [|a pre IH]; intros e e' H.
  - simpl in H. invert_bind H as cs Hcs.
    inversion H; subst e'; clear H. simpl. rewrite !app_nil_r.
    replace (ElementTree.children (ElementTree.set_children e cs)) with cs
      by (now destruct e).
    revert cs Hcs. generalize (ElementTree.children e) as l.
    induction l as [|c l IHl]; intros cs Hcs; simpl in Hcs.
    + now inversion Hcs.
    + invert_bind Hcs as c' Hc.
      invert_bind Hcs as cs' Hcs'.
      inversion Hcs; subst cs; clear Hcs. simpl.
      rewrite (IHl cs' Hcs').
      destruct (ElementTree.has_tag t c) eqn:Hc0.
      * assert (Htag : ElementTree.tag c' = ElementTree.tag c) by now apply f_tag.
        unfold ElementTree.has_tag in *. rewrite Htag.
        apply String.eqb_eq in Hc0. rewrite Hc0.
        destruct (t =? t') eqn:E; [apply String.eqb_eq in E; contradiction|].
        reflexivity.
      * now inversion Hc.
  - rewrite <- app_comm_cons in H. simpl in H.
    invert_bind H as cs Hcs.
    inversion H; subst e'; clear H. rewrite <- !app_comm_cons.
    rewrite !iterfind_children.
    replace (ElementTree.children (ElementTree.set_children e cs)) with cs
      by (now destruct e).
    revert cs Hcs. generalize (ElementTree.children e) as l.
    induction l as [|c l IHl]; intros cs Hcs; simpl in Hcs.
    + now inversion Hcs.
    + invert_bind Hcs as c' Hc.
      invert_bind Hcs as cs' Hcs'.
      inversion Hcs; subst cs; clear Hcs. simpl.
      destruct (ElementTree.has_tag a c) eqn:Hc0.
      * assert (Hc1 : ElementTree.has_tag a c' = true).
        { unfold ElementTree.has_tag in *. now rewrite (update_all_tag _ _ _ Hc). }
        rewrite Hc1. rewrite (iterfind_cons _ c), (iterfind_cons _ c').
        now rewrite (IH _ _ Hc), (IHl cs' Hcs').
      * inversion Hc; subst c'. rewrite Hc0. now apply IHl.
Qed.

(** An update below the root keeps the root's tag, attributes and text,
    and the number of its children. *)
Lemma update_all_root (t : string) (path : list string) (e e' : ElementTree.Element) :
  ElementTree.update_all (t :: path) f e = Ok e' ->
  ElementTree.tag e' = ElementTree.tag e /\
  ElementTree.attrib e' = ElementTree.attrib e /\
  ElementTree.text e' = ElementTree.text e /\
  List.length (ElementTree.children e') = List.length (ElementTree.children e).
Proof.
  simpl. intros H. invert_bind H as cs Hcs.
  inversion H; subst e'. destruct e; simpl in *.
  repeat split. now apply mapM_length in Hcs.
Qed.

End Updates.

(** ** Relative paths *)

Lemma endswith_has_char (s : string) (c : ascii) :
  Py.endswith s c = true -> has_char c s = true.
Proof.
  induction s as [|a s IH]; simpl; [discriminate|].
  destruct s as [|b s].
  - intros H. now rewrite H.
  - intros H. rewrite (IH H). apply orb_true_r.
Qed.

Lemma endswith_app (s t : string) (c : ascii) :
  t <> "" -> Py.endswith (s ++ t) c = Py.endswith t c.
Proof.
  intros Ht. induction s as [|a s IH]; simpl; [reflexivity|].
  destruct (s ++ t) eqn:E; [|exact IH].
  destruct s; simpl in E; [contradiction | discriminate].
Qed.

Lemma component_open (c : string) : component c -> open_path c.
Proof.
  intros [Hne Hno]. split; [exact Hne|].
  destruct (Py.endswith c "/") eqn:E; [|reflexivity].
  apply endswith_has_char in E. congruence.
Qed.

Lemma component_relative (c : string) : component c -> Py.startswith c "/" = false.
Proof.
  intros [Hne Hno]. destruct c as [|a c]; [reflexivity|].
  simpl in *. now apply orb_false_elim in Hno.
Qed.

(** Joining a relative reference to an open path puts a slash between
    them. *)
Lemma join2_relative (path b : string) :
  open_path path -> Py.startswith b "/" = false ->
  posixpath.join2 path b = path ++ "/" ++ b.
Proof.
  intros [Hne Hend] Hb. unfold posixpath.join2. rewrite Hb, Hend.
  destruct (path =? "") eqn:E; [apply String.eqb_eq in E; contradiction|].
  reflexivity.
Qed.

Lemma join2_open (path b : string) :
  open_path path -> component b -> open_path (posixpath.join2 path b).
Proof.
  intros Hp Hb. rewrite (join2_relative _ _ Hp (component_relative _ Hb)).
  destruct (component_open _ Hb) as [Hne Hend]. split.
  - destruct path; [now destruct Hp | discriminate].
  - rewrite endswith_app; [|discriminate].
    change ("/" ++ b) with (String "/" b).
    destruct b as [|a b]; [contradiction | exact Hend].
Qed.

Lemma join_open (a : string) (p : list string) :
  open_path a -> Forall component p -> open_path (posixpath.join a p).
Proof.
  unfold posixpath.join. revert a. induction p as [|b p IH]; intros a Ha Hp; simpl.
  - exact Ha.
  - inversion Hp; subst. apply IH; [now apply join2_open | assumption].
Qed.

Lemma split_no_sep (sep : ascii) (s : string) :
  Forall (fun c => has_char sep c = false) (Py.split sep s).
Proof.
  induction s as [|a s IH]; simpl.
  - constructor; [reflexivity | constructor].
  - destruct (Ascii.eqb a sep) eqn:E.
    + constructor; [reflexivity | exact IH].
    + destruct (Py.split sep s) as [|x xs].
      * constructor; [simpl; now rewrite E | constructor].
      * inversion IH; subst. constructor; [simpl; now rewrite E | assumption].
Qed.

Lemma components_of_split (s : string) :
  Forall component (filter posixpath.nonempty (Py.split "/" s)).
Proof.
  pose proof (split_no_sep "/" s) as H.
  induction H as [|c l Hc Hl IH]; simpl; [constructor|].
  destruct (posixpath.nonempty c) eqn:E; [|exact IH].
  constructor; [|exact IH]. split; [|exact Hc].
  unfold posixpath.nonempty in E. intros ->. discriminate.
Qed.

Lemma Forall_skipn {A : Type} (P : A -> Prop) (n : nat) (l : list A) :
  Forall P l -> Forall P (skipn n l).
Proof.
  revert l. induction n as [|n IH]; intros l H; simpl; [exact H|].
  destruct l; [constructor | inversion H; subst; now apply IH].
Qed.

Lemma Forall_repeat {A : Type} (P : A -> Prop) (x : A) (n : nat) :
  P x -> Forall P (repeat x n).
Proof. intros H. induction n; simpl; constructor; auto. Qed.

(** [relpath] raises only for an empty [path]; what it returns is an open
    path. *)
Lemma relpath_open (cwd path start : string) :
  path <> "" ->
  exists rel, posixpath.relpath cwd path start = Ok rel /\ open_path rel.
Proof.
  intros Hp. unfold posixpath.relpath.
  destruct (path =? "") eqn:E; [apply String.eqb_eq in E; contradiction|].
  set (start_list := filter posixpath.nonempty (Py.split "/" (posixpath.abspath cwd start))).
  set (path_list := filter posixpath.nonempty (Py.split "/" (posixpath.abspath cwd path))).
  set (i := List.length (posixpath.commonprefix start_list path_list)).
  assert (H : Forall component
                (repeat posixpath.pardir (List.length start_list - i) ++ skipn i path_list)%list).
  { apply Forall_app. split.
    - apply Forall_repeat. split; [discriminate | reflexivity].
    - apply Forall_skipn, components_of_split. }
  destruct (repeat posixpath.pardir (List.length start_list - i) ++ skipn i path_list)%list
    as [|a p].
  - exists posixpath.curdir. split; [reflexivity|]. split; [discriminate | reflexivity].
  - inversion H; subst. eexists. split; [reflexivity|].
    apply join_open; [now apply component_open | assumption].
Qed.

(** The rewriting of a reference: the relative path from the destination
    to the source, a slash, and the reference when it does not start with a
    slash; the reference alone when it does. *)
Lemma rewrite_spec (w : World) (source dest reference : string) :
  source <> "" ->
  exists rel,
    posixpath.relpath (getcwd w) source dest = Ok rel /\
    PeriodConcatNode.rewrite w source dest reference
    = Ok (if Py.startswith reference "/" then reference else rel ++ "/" ++ reference).
Proof.
  intros Hs. destruct (relpath_open (getcwd w) source dest Hs) as (rel & Hrel & Hopen).
  exists rel. split; [exact Hrel|].
  unfold PeriodConcatNode.rewrite. rewrite Hrel. simpl.
  destruct (Py.startswith reference "/") eqn:E.
  - unfold posixpath.join2. now rewrite E.
  - now rewrite join2_relative.
Qed.

(** *** The relative path from [out] to [jobs/2], from any working directory *)

Lemma split_nonnil (sep : ascii) (s : string) : Py.split sep s <> [].
Proof.
  destruct s as [|a s]; simpl; [discriminate|].
  destruct (Ascii.eqb a sep); [discriminate|].
  destruct (Py.split sep s); discriminate.
Qed.

Lemma split_app_sep (sep : ascii) (a b : string) :
  Py.split sep (a ++ String sep b) = (Py.split sep a ++ Py.split sep b)%list.
Proof.
  induction a as [|c a IH]; simpl.
  - now rewrite Ascii.eqb_refl.
  - destruct (Ascii.eqb c sep); [now rewrite IH|].
    rewrite IH. pose proof (split_nonnil sep a) as Hn.
    destruct (Py.split sep a) as [|x xs]; [contradiction | reflexivity].
Qed.

Lemma split_plain (sep : ascii) (s : string) :
  has_char sep s = false -> Py.split sep s = [s].
Proof.
  induction s as [|c s IH]; simpl; [reflexivity|].
  intros H. apply orb_false_elim in H. destruct H as [Hc Hs].
  now rewrite Hc, (IH Hs).
Qed.

Lemma split_join (l : list string) :
  Forall component l -> l <> [] -> Py.split "/" (Py.join "/" l) = l.
Proof.
  induction l as [|x l IH]; intros H Hne; [contradiction|].
  inversion H as [|? ? [_ Hx] Hl]; subst.
  destruct l as [|y l].
  - simpl. now apply split_plain.
  - change (Py.join "/" (x :: y :: l)) with (x ++ String "/" (Py.join "/" (y :: l))).
    rewrite split_app_sep, (split_plain _ _ Hx), IH; [reflexivity | assumption | discriminate].
Qed.

Lemma join_nonempty (l : list string) :
  Forall component l -> l <> [] -> Py.join "/" l <> "".
Proof.
  intros H Hne. destruct l as [|x [|y l]]; [contradiction | |].
  - inversion H as [|? ? [Hx _] _]; subst. exact Hx.
  - change (Py.join "/" (x :: y :: l)) with (x ++ String "/" (Py.join "/" (y :: l))).
    destruct x; discriminate.
Qed.

Lemma split_slashes (n : nat) (s : string) :
  Py.split "/" (Py.repeat_char "/" n ++ s) = (repeat "" n ++ Py.split "/" s)%list.
Proof. induction n as [|n IH]; simpl; [reflexivity | now rewrite IH]. Qed.

Lemma filter_components (n : nat) (l : list string) :
  Forall component l -> filter posixpath.nonempty (repeat "" n ++ l)%list = l.
Proof.
  intros H. induction n as [|n IH]; simpl; [|exact IH].
  induction H as [|c l [Hc _] Hl IHl]; simpl; [reflexivity|].
  destruct c; [contradiction|]. simpl. now rewrite IHl.
Qed.

Lemma norm_step_components (n : nat) (comps st : list string) :
  Forall (fun c => has_char "/" c = false) comps -> Forall component st ->
  Forall component (fold_left (posixpath.norm_step n) comps st).
Proof.
  intros Hc. revert st. induction Hc as [|c comps Hc Hcs IH]; intros st Hst; simpl.
  - exact Hst.
  - apply IH. unfold posixpath.norm_step.
    destruct (c =? "") eqn:E; simpl; [exact Hst|].
    destruct (c =? "."); simpl; [exact Hst|].
    assert (Hcomp : component c).
    { split; [|exact Hc]. intros ->. discriminate. }
    destruct (negb (c =? "..") || _ || _).
    + now constructor.
    + destruct st; [exact Hst | now inversion Hst].
Qed.

Lemma commonprefix_fork (l r r' : list string) (a b : string) :
  (a =? b) = false ->
  posixpath.commonprefix (l ++ a :: r) (l ++ b :: r') = l.
Proof.
  intros H. induction l as [|x l IH]; simpl.
  - now rewrite H.
  - now rewrite String.eqb_refl, IH.
Qed.

Lemma skipn_length_app {A : Type} (l x : list A) :
  skipn (List.length l) (l ++ x) = x.
Proof. induction l; simpl; auto. Qed.

Lemma endswith_split (s : string) (c : ascii) :
  Py.endswith s c = true -> exists a, s = a ++ String c "".
Proof.
  induction s as [|x s IH]; simpl; [discriminate|].
  destruct s as [|y s].
  - intros H. apply Ascii.eqb_eq in H. subst. now exists "".
  - intros H. destruct (IH H) as (a & Ha). exists (String x a). simpl. now rewrite <- Ha.
Qed.

Lemma normpath_under (a x : string) (names : list string) :
  plain_path x names ->
  posixpath.normpath (a ++ String "/" x)
  = Py.repeat_char "/" (slashes_under a)
    ++ Py.join "/" (List.rev (stack_under a) ++ names)%list.
Proof.
  intros (Hsplit & Hne & Hnames & c & x' & Hx & Hc).
  unfold posixpath.normpath.
  assert (E0 : (a ++ String "/" x =? "") = false) by (destruct a; reflexivity).
  rewrite E0.
  assert (Hn : (if Py.startswith (a ++ String "/" x) "/"
                then if Py.has_prefix (a ++ String "/" x) "//"
                        && negb (Py.has_prefix (a ++ String "/" x) "///")
                     then 2%nat else 1%nat
                else 0%nat) = slashes_under a).
  { unfold slashes_under. subst x.
    assert (Ec : Ascii.eqb c "/" = false).
    { destruct (Ascii.eqb c "/") eqn:Ec; [apply Ascii.eqb_eq in Ec; contradiction | reflexivity]. }
    destruct a as [|c1 [|c2 [|c3 a]]]; simpl; rewrite ?Ec; simpl;
      repeat match goal with
             | |- context [Ascii.eqb ?y "/"] => destruct (Ascii.eqb y "/"); simpl
             end; reflexivity. }
  rewrite Hn. rewrite split_app_sep, fold_left_app. fold (stack_under a).
  rewrite Hsplit.
  assert (Hpush : forall st, fold_left (posixpath.norm_step (slashes_under a)) names st
                             = (List.rev names ++ st)%list).
  { clear Hsplit Hne. induction Hnames as [|y names (Hy & Hd & Hdd) _ IH]; intros st.
    - reflexivity.
    - simpl. rewrite IH. unfold posixpath.norm_step.
      destruct Hy as [Hy _].
      destruct (y =? "") eqn:E1; [apply String.eqb_eq in E1; contradiction|].
      destruct (y =? ".") eqn:E2; [apply String.eqb_eq in E2; contradiction|].
      destruct (y =? "..") eqn:E3; [apply String.eqb_eq in E3; contradiction|].
      simpl. now rewrite <- app_assoc. }
  rewrite Hpush, rev_app_distr, rev_involutive.
  set (path := Py.repeat_char "/" (slashes_under a)
               ++ Py.join "/" (List.rev (stack_under a) ++ names)%list).
  destruct (path =? "") eqn:E; [|reflexivity].
  apply String.eqb_eq in E. exfalso.
  assert (Hj : Py.join "/" (List.rev (stack_under a) ++ names)%list <> "").
  { apply join_nonempty.
    - apply Forall_app. split.
      + apply Forall_rev. apply norm_step_components; [apply split_no_sep | constructor].
      + revert Hnames. apply Forall_impl. now intros ? [? _].
    - destruct (List.rev (stack_under a)); [assumption | discriminate]. }
  subst path. destruct (slashes_under a); simpl in E; [contradiction | discriminate].
Qed.

(** The components [relpath] sees for the absolute form of a plain
    relative path. *)
Lemma abspath_components (cwd x : string) (names : list string) :
  plain_path x names -> cwd <> "" ->
  exists base,
    (forall y ns, plain_path y ns ->
       filter posixpath.nonempty (Py.split "/" (posixpath.abspath cwd y))
       = (base ++ ns)%list).
Proof.
  intros _ Hcwd.
  assert (Hpath : exists a, forall y ns, plain_path y ns ->
             (if posixpath.isabs y then y else posixpath.join2 cwd y) = a ++ String "/" y).
  { destruct (Py.endswith cwd "/") eqn:E.
    - destruct (endswith_split _ _ E) as (a & Ha). exists a.
      intros y ns (_ & _ & _ & c & y' & Hy & Hc). subst y.
      unfold posixpath.isabs, posixpath.join2. simpl.
      destruct (Ascii.eqb c "/") eqn:Ec; [apply Ascii.eqb_eq in Ec; contradiction|].
      rewrite E, orb_true_r. subst cwd. now rewrite string_app_assoc.
    - exists cwd. intros y ns (_ & _ & _ & c & y' & Hy & Hc). subst y.
      unfold posixpath.isabs, posixpath.join2. simpl.
      destruct (Ascii.eqb c "/") eqn:Ec; [apply Ascii.eqb_eq in Ec; contradiction|].
      rewrite E. destruct (cwd =? "") eqn:E'; [apply String.eqb_eq in E'; contradiction|].
      reflexivity. }
  destruct Hpath as (a & Ha). exists (List.rev (stack_under a)).
  intros y ns Hy. unfold posixpath.abspath. rewrite (Ha y ns Hy).
  rewrite (normpath_under a y ns Hy), split_slashes.
  assert (Hc : Forall component (List.rev (stack_under a) ++ ns)%list).
  { destruct Hy as (_ & _ & Hns & _). apply Forall_app. split.
    - apply Forall_rev. apply norm_step_components; [apply split_no_sep | constructor].
    - revert Hns. apply Forall_impl. now intros ? [? _]. }
  rewrite split_join; [now apply filter_components | exact Hc |].
  destruct Hy as (_ & Hne & _). destruct (List.rev (stack_under a)); [assumption | discriminate].
Qed.

Lemma plain_jobs_2 : plain_path "jobs/2" ["jobs"; "2"].
Proof.
  split; [reflexivity|]. split; [discriminate|]. split.
  - repeat constructor; discriminate.
  - exists "j"%char, "obs/2". split; [reflexivity | discriminate].
Qed.

Lemma plain_out : plain_path "out" ["out"].
Proof.
  split; [reflexivity|]. split; [discriminate|]. split.
  - repeat constructor; discriminate.
  - exists "o"%char, "ut". split; [reflexivity | discriminate].
Qed.

(** From [out], the directory [jobs/2] is [../jobs/2], whatever the
    working directory. *)
Lemma relpath_jobs_2_out (cwd : string) :
  posixpath.relpath cwd "jobs/2" "out" = Ok "../jobs/2".
Proof.
  destruct (string_dec cwd "") as [->|Hcwd]; [reflexivity|].
  destruct (abspath_components cwd "out" ["out"] plain_out Hcwd) as (base & Hbase).
  unfold posixpath.relpath. simpl (_ =? _).
  rewrite (Hbase _ _ plain_out), (Hbase _ _ plain_jobs_2).
  rewrite commonprefix_fork by reflexivity.
  rewrite skipn_length_app, length_app. simpl.
  replace (List.length base + 1 - List.length base)%nat with 1%nat by lia.
  reflexivity.
Qed.

(** ** The merge, one period at a time *)

Lemma set_attrib_facts (e : ElementTree.Element) (k v : string) :
  ElementTree.tag (ElementTree.set_attrib e k v) = ElementTree.tag e /\
  ElementTree.text (ElementTree.set_attrib e k v) = ElementTree.text e /\
  ElementTree.children (ElementTree.set_attrib e k v) = ElementTree.children e /\
  attribute (ElementTree.set_attrib e k v) k = Some v /\
  (forall k', k <> k' -> attribute (ElementTree.set_attrib e k v) k' = attribute e k').
Proof.
  destruct e as [t a x c]; unfold attribute; simpl.
  repeat split; [apply get_setitem_same | intros; now apply get_setitem_other].
Qed.

Lemma rewrite_attrib_tag (rel key : string) (e : ElementTree.Element) :
  ElementTree.tag (PeriodConcatNode.rewrite_attrib rel key e) = ElementTree.tag e.
Proof.
  unfold PeriodConcatNode.rewrite_attrib.
  destruct (ElementTree.get (ElementTree.attrib e) key) as [v|]; [|reflexivity].
  destruct (v =? ""); [reflexivity | apply set_attrib_facts].
Qed.

Lemma rewrite_segment_template_tag (w : World) (source dest : string)
      (x y : ElementTree.Element) :
  PeriodConcatNode.rewrite_segment_template w source dest x = Ok y ->
  ElementTree.tag y = ElementTree.tag x.
Proof.
  unfold PeriodConcatNode.rewrite_segment_template. intros H.
  invert_bind H as rel _. inversion H; subst.
  now rewrite !rewrite_attrib_tag.
Qed.

Lemma rewrite_base_url_tag (w : World) (source dest path : string)
      (x y : ElementTree.Element) :
  PeriodConcatNode.rewrite_base_url w source dest path x = Ok y ->
  ElementTree.tag y = ElementTree.tag x.
Proof.
  unfold PeriodConcatNode.rewrite_base_url. intros H.
  invert_bind H as rel _.
  destruct (ElementTree.text x); [|discriminate]. inversion H; subst.
  now destruct x.
Qed.

(** What [find] returns for a single tag: the first child with that
    tag. *)
Lemma find_child (elem child : ElementTree.Element) (t : string) :
  PeriodConcatNode.find elem [t] = Ok child ->
  exists others,
    filter (ElementTree.has_tag (PeriodConcatNode.qname t)) (ElementTree.children elem)
    = child :: others.
Proof.
  unfold PeriodConcatNode.find, ElementTree.find, ElementTree.findall.
  simpl map. rewrite iterfind_children. simpl ElementTree.iterfind.
  destruct (filter _ _) as [|c others]; simpl; [discriminate|].
  intros H. inversion H; subst. now exists others.
Qed.

Lemma find_child_tag (elem child : ElementTree.Element) (t : string) :
  PeriodConcatNode.find elem [t] = Ok child ->
  ElementTree.tag child = PeriodConcatNode.qname t.
Proof.
  intros H. destruct (find_child _ _ _ H) as (others & Hf).
  assert (Hin : In child (filter (ElementTree.has_tag (PeriodConcatNode.qname t))
                                 (ElementTree.children elem))).
  { rewrite Hf. now left. }
  apply filter_In in Hin. destruct Hin as [_ Ht].
  now apply String.eqb_eq in Ht.
Qed.

(** What is found below an element depends on its children only. *)
Lemma iterfind_same_children (e1 e2 : ElementTree.Element) (t : string)
      (path : list string) :
  ElementTree.children e1 = ElementTree.children e2 ->
  ElementTree.iterfind [e1] (t :: path) = ElementTree.iterfind [e2] (t :: path).
Proof. intros H. now rewrite !iterfind_children, H. Qed.

Lemma set_timing_inv (mode : StreamingMode) (mpd period p1 : ElementTree.Element)
      (total total' : ISO8601.t) :
  PeriodConcatNode.set_timing mode mpd period total = Ok (p1, total') ->
  ElementTree.tag p1 = ElementTree.tag period /\
  ElementTree.text p1 = ElementTree.text period /\
  ElementTree.children p1 = ElementTree.children period /\
  attribute p1 "id" = attribute period "id" /\
  match mode with
  | LIVE =>
      exists start,
        ISO8601.__str__ total = Ok start /\
        attribute p1 "start" = Some start /\ total' = total
  | VOD =>
      exists d parsed,
        attribute mpd "mediaPresentationDuration" = Some d /\
        attribute p1 "duration" = Some d /\
        ISO8601.parse d = Ok parsed /\
        ISO8601.__add__ total parsed = Ok total'
  end.
Proof.
  destruct mode; simpl; intros H.
  - invert_bind H as start Hstart. inversion H; subst.
    destruct (set_attrib_facts period "start" start) as (Ht & Hx & Hc & Hs & Ho).
    repeat split; auto; [apply Ho; discriminate|].
    exists start. repeat split; auto.
  - invert_bind H as d Hd.
    invert_bind H as parsed Hp.
    invert_bind H as t Ht.
    inversion H; subst.
    destruct (set_attrib_facts period "duration" d) as (Htag & Hx & Hc & Hs & Ho).
    repeat split; auto.
    + apply Ho. discriminate.
    + exists d, parsed. repeat split; auto.
      unfold ElementTree.getitem in Hd. unfold attribute.
      destruct (ElementTree.get (ElementTree.attrib mpd) "mediaPresentationDuration");
        now inversion Hd.
Qed.

Lemma segment_base_paths :
  PeriodConcatNode.segment_template_path
  = ([PeriodConcatNode.qname "AdaptationSet"; PeriodConcatNode.qname "Representation"]
     ++ [PeriodConcatNode.qname "SegmentTemplate"])%list /\
  PeriodConcatNode.base_url_path
  = ([PeriodConcatNode.qname "AdaptationSet"; PeriodConcatNode.qname "Representation"]
     ++ [PeriodConcatNode.qname "BaseURL"])%list /\
  PeriodConcatNode.qname "SegmentTemplate" <> PeriodConcatNode.qname "BaseURL".
Proof.
  split; [reflexivity|]. split; [reflexivity|].
  intros H. vm_compute in H. discriminate.
Qed.

Lemma findall_iterfind (e : ElementTree.Element) (t : string) (args : list string) :
  PeriodConcatNode.findall e (t :: args)
  = ElementTree.iterfind [e] (map PeriodConcatNode.qname (t :: args)).
Proof. reflexivity. Qed.

(** One turn of the loop, read backwards from its result. *)
Lemma concat_period_inv (self : PeriodConcatNode.t) (w : World) (i : nat)
      (node : PackagerNode) (total total' : ISO8601.t) (p : ElementTree.Element) :
  PeriodConcatNode.concat_period self w i node total = Ok (p, total') ->
  exists mpd p0 p1,
    files w (manifest_path self node) = Some mpd /\
    PeriodConcatNode.find mpd ["Period"] = Ok p0 /\
    PeriodConcatNode.set_timing
      (streaming_mode (PeriodConcatNode._pipeline_config self)) mpd
      (ElementTree.set_attrib p0 "id" (Py.str_int (Z.of_nat i))) total = Ok (p1, total') /\
    ElementTree.tag p = period_tag /\
    ElementTree.attrib p = ElementTree.attrib p1 /\
    ElementTree.text p = ElementTree.text p0 /\
    Forall2 (fun x y =>
               PeriodConcatNode.rewrite_segment_template
                 w (packager_output_dir node) (PeriodConcatNode._output_dir self) x = Ok y)
            (segment_templates p0) (segment_templates p) /\
    Forall2 (fun x y =>
               PeriodConcatNode.rewrite_base_url
                 w (packager_output_dir node) (PeriodConcatNode._output_dir self)
                 (manifest_path self node) x = Ok y)
            (base_urls p0) (base_urls p).
Proof.
  unfold PeriodConcatNode.concat_period. intros H.
  invert_bind H as mpd Hmpd.
  invert_bind H as p0 Hp0.
  invert_bind H as [p1 t1] Htiming.
  invert_bind H as p2 Hp2.
  invert_bind H as p3 Hp3.
  inversion H; subst p3 t1; clear H.
  destruct segment_base_paths as (Hst & Hbu & Hne).
  pose proof (rewrite_segment_template_tag w (packager_output_dir node)
                (PeriodConcatNode._output_dir self)) as Ftag.
  pose proof (rewrite_base_url_tag w (packager_output_dir node)
                (PeriodConcatNode._output_dir self)
                (posixpath.join (packager_output_dir node)
                   [dash_output (PeriodConcatNode._pipeline_config self)])) as Gtag.
  destruct (set_timing_inv _ _ _ _ _ _ Htiming) as (Ht1 & Hx1 & Hc1 & _).
  destruct (set_attrib_facts p0 "id" (Py.str_int (Z.of_nat i))) as (Ht0 & Hx0 & Hc0 & _).
  destruct (update_all_root _ _ _ _ _ Hp2) as (Ht2 & Ha2 & Hx2 & _).
  destruct (update_all_root _ _ _ _ _ Hp3) as (Ht3 & Ha3 & Hx3 & _).
  exists mpd, p0, p1.
  split.
  { unfold ElementTree.parse in Hmpd. unfold manifest_path.
    destruct (files w _); now inversion Hmpd. }
  split; [exact Hp0|]. split; [exact Htiming|].
  split.
  { rewrite Ht3, Ht2, Ht1, Ht0. now apply find_child_tag in Hp0. }
  split; [now rewrite Ha3, Ha2|].
  split; [now rewrite Hx3, Hx2, Hx1, Hx0|].
  assert (Hsame : forall path, path <> [] ->
             ElementTree.iterfind [p1] path = ElementTree.iterfind [p0] path).
  { intros [|t path] Hpath; [contradiction|].
    apply iterfind_same_children. now rewrite Hc1, Hc0. }
  assert (HsameS := Hsame PeriodConcatNode.segment_template_path).
  assert (HsameB := Hsame PeriodConcatNode.base_url_path).
  unfold segment_templates, base_urls. rewrite !findall_iterfind.
  fold PeriodConcatNode.segment_template_path PeriodConcatNode.base_url_path.
  split.
  - rewrite <- HsameS by discriminate.
    replace (ElementTree.iterfind [p] PeriodConcatNode.segment_template_path)
      with (ElementTree.iterfind [p2] PeriodConcatNode.segment_template_path).
    + now apply update_all_found.
    + symmetry. rewrite Hbu in Hp3. rewrite Hst.
      exact (update_all_elsewhere _ Gtag _ _ _ _ _ (not_eq_sym Hne) Hp3).
  - rewrite <- HsameB by discriminate.
    replace (ElementTree.iterfind [p1] PeriodConcatNode.base_url_path)
      with (ElementTree.iterfind [p2] PeriodConcatNode.base_url_path).
    + now apply update_all_found.
    + rewrite Hst in Hp2. rewrite Hbu.
      exact (update_all_elsewhere _ Ftag _ _ _ _ _ Hne Hp2).
Qed.

(** The loop and its turns. *)
Lemma concat_loop_turns (self : PeriodConcatNode.t) (w : World)
      (nodes : list PackagerNode) (i : nat) (total total' : ISO8601.t)
      (acc out : list ElementTree.Element) :
  PeriodConcatNode.concat_loop self w i nodes total acc = Ok (total', out) <->
  exists periods, turns self w i nodes total periods total' /\ out = (acc ++ periods)%list.
Proof.
  revert i total acc. induction nodes as [|node nodes IH]; intros i total acc; simpl.
  - split.
    + intros H. inversion H; subst. exists []. split; [constructor | now rewrite app_nil_r].
    + intros (periods & Ht & ->). inversion Ht; subst. now rewrite app_nil_r.
  - split.
    + intros H. invert_bind H as [p t1] Hp.
      apply IH in H. destruct H as (periods & Ht & ->).
      exists (p :: periods). split; [econstructor; eassumption|].
      now rewrite <- app_assoc.
    + intros (periods & Ht & ->). inversion Ht; subst.
      match goal with H : PeriodConcatNode.concat_period _ _ _ _ _ = _ |- _ => rewrite H end.
      simpl. apply IH. eexists. split; [eassumption|]. now rewrite <- app_assoc.
Qed.

Lemma turns_length (self : PeriodConcatNode.t) (w : World) (i : nat)
      (nodes : list PackagerNode) (total total' : ISO8601.t)
      (periods : list ElementTree.Element) :
  turns self w i nodes total periods total' -> List.length periods = List.length nodes.
Proof. induction 1; simpl; auto. Qed.

(** The period of each turn carries the period tag and the index of its
    job as identifier. *)
Lemma turns_ids (self : PeriodConcatNode.t) (w : World) (i : nat)
      (nodes : list PackagerNode) (total total' : ISO8601.t)
      (periods : list ElementTree.Element) :
  turns self w i nodes total periods total' ->
  Forall (fun p => ElementTree.has_tag period_tag p = true) periods /\
  map (fun p => attribute p "id") periods
  = map (fun j => Some (Py.str_int (Z.of_nat j))) (seq i (List.length nodes)).
Proof.
  induction 1 as [|i node nodes total p t1 periods t2 Hp _ [IHt IHi]]; simpl.
  - split; [constructor | reflexivity].
  - destruct (concat_period_inv _ _ _ _ _ _ _ Hp)
      as (mpd & p0 & p1 & _ & _ & Htiming & Htag & Hattr & _).
    destruct (set_timing_inv _ _ _ _ _ _ Htiming) as (_ & _ & _ & Hid & _).
    split.
    + constructor; [|exact IHt]. unfold ElementTree.has_tag. rewrite Htag.
      apply String.eqb_refl.
    + f_equal; [|exact IHi]. unfold attribute in *. rewrite Hattr, Hid.
      apply set_attrib_facts.
Qed.

(** ** The merge as a whole *)

Lemma set_children_facts (e : ElementTree.Element) (cs : list ElementTree.Element) :
  ElementTree.tag (ElementTree.set_children e cs) = ElementTree.tag e /\
  ElementTree.attrib (ElementTree.set_children e cs) = ElementTree.attrib e /\
  ElementTree.text (ElementTree.set_children e cs) = ElementTree.text e /\
  ElementTree.children (ElementTree.set_children e cs) = cs.
Proof. destruct e; simpl; auto. Qed.

(** The merge, read backwards from the file it writes. *)
Lemma dash_concat_inv (self : PeriodConcatNode.t) (w : World)
      (f : PeriodConcatNode.written_file) :
  PeriodConcatNode._dash_concat self w = Ok f ->
  exists first rest ref_mpd periods total,
    PeriodConcatNode._packager_nodes self = first :: rest /\
    files w (manifest_path self first) = Some ref_mpd /\
    turns self w 0 (PeriodConcatNode._packager_nodes self) ISO8601.default periods total /\
    ElementTree.children (PeriodConcatNode.document f)
    = (ElementTree.remove_first period_tag (ElementTree.children ref_mpd) ++ periods)%list /\
    ElementTree.tag (PeriodConcatNode.document f) = ElementTree.tag ref_mpd /\
    ElementTree.text (PeriodConcatNode.document f) = ElementTree.text ref_mpd /\
    match streaming_mode (PeriodConcatNode._pipeline_config self) with
    | LIVE => ElementTree.attrib (PeriodConcatNode.document f) = ElementTree.attrib ref_mpd
    | VOD =>
        (exists printed,
           ISO8601.__str__ total = Ok printed /\
           attribute (PeriodConcatNode.document f) "mediaPresentationDuration"
           = Some printed) /\
        forall k, k <> "mediaPresentationDuration" ->
                  attribute (PeriodConcatNode.document f) k = attribute ref_mpd k
    end /\
    PeriodConcatNode.file_path f
    = posixpath.join (PeriodConcatNode._output_dir self)
                     [dash_output (PeriodConcatNode._pipeline_config self)] /\
    PeriodConcatNode.prolog f = PeriodConcatNode.dash_prolog w.
Proof.
  unfold PeriodConcatNode._dash_concat. intros H.
  destruct (PeriodConcatNode._packager_nodes self) as [|first rest] eqn:Hnodes;
    [discriminate|].
  simpl in H.
  invert_bind H as ref_mpd Href.
  invert_bind H as p Hp.
  invert_bind H as [total periods] Hloop.
  invert_bind H as doc Hdoc.
  inversion H; subst f; clear H. simpl.
  apply (proj1 (concat_loop_turns self w (first :: rest) 0 ISO8601.default total [] periods))
    in Hloop.
  destruct Hloop as (ps & Hturns & Hps). simpl in Hps. subst ps.
  exists first, rest, ref_mpd, periods, total.
  split; [reflexivity|].
  split.
  { unfold ElementTree.parse in Href. unfold manifest_path.
    destruct (files w _); now inversion Href. }
  split; [exact Hturns|].
  set (skeleton := ElementTree.extend
                     (ElementTree.remove_found ref_mpd (PeriodConcatNode.qname "Period"))
                     periods) in *.
  assert (Hsk : ElementTree.children skeleton
                = (ElementTree.remove_first period_tag (ElementTree.children ref_mpd)
                   ++ periods)%list
                /\ ElementTree.tag skeleton = ElementTree.tag ref_mpd
                /\ ElementTree.text skeleton = ElementTree.text ref_mpd
                /\ ElementTree.attrib skeleton = ElementTree.attrib ref_mpd).
  { subst skeleton. destruct ref_mpd; simpl. auto. }
  destruct Hsk as (Hc & Ht & Hx & Ha).
  destruct (streaming_mode (PeriodConcatNode._pipeline_config self)).
  - inversion Hdoc; subst doc. repeat split; auto.
  - invert_bind Hdoc as printed Hprinted. inversion Hdoc; subst doc.
    destruct (set_attrib_facts skeleton "mediaPresentationDuration" printed)
      as (Ht' & Hx' & Hc' & Hs' & Ho').
    rewrite Hc', Ht', Hx'. repeat split; auto.
    + now exists printed.
    + intros k Hk. rewrite (Ho' k (not_eq_sym Hk)). unfold attribute. now rewrite Ha.
Qed.

Lemma add_parsed (total parsed : ISO8601.t) (s : string) :
  addable total -> ISO8601.parse s = Ok parsed ->
  exists total', ISO8601.__add__ total parsed = Ok total' /\ addable total'.
Proof.
  intros Ht Hp. destruct (parse_seconds_float _ _ Hp) as (g & Hg).
  unfold ISO8601.__add__. rewrite Hg.
  destruct Ht as [Ht|Ht].
  - rewrite Ht. simpl. eexists. split; [reflexivity|]. now right.
  - destruct (ISO8601.seconds total) as [z|f0]; [discriminate|].
    simpl. eexists. split; [reflexivity|]. now right.
Qed.

(** In a VOD turn the period takes the total duration of its manifest as
    it is written there, and the running total grows by its value. *)
Lemma vod_turn (self : PeriodConcatNode.t) (w : World) (i : nat) (node : PackagerNode)
      (total total' : ISO8601.t) (p : ElementTree.Element) :
  streaming_mode (PeriodConcatNode._pipeline_config self) = VOD ->
  PeriodConcatNode.concat_period self w i node total = Ok (p, total') ->
  exists mpd d parsed,
    files w (manifest_path self node) = Some mpd /\
    attribute mpd "mediaPresentationDuration" = Some d /\
    attribute p "duration" = Some d /\
    ISO8601.parse d = Ok parsed /\
    ISO8601.__add__ total parsed = Ok total'.
Proof.
  intros Hmode H.
  destruct (concat_period_inv _ _ _ _ _ _ _ H)
    as (mpd & p0 & p1 & Hmpd & _ & Htiming & _ & Hattr & _).
  rewrite Hmode in Htiming.
  destruct (set_timing_inv _ _ _ _ _ _ Htiming)
    as (_ & _ & _ & _ & d & parsed & Hd & Hdur & Hparse & Hadd).
  exists mpd, d, parsed. repeat split; auto.
  unfold attribute in *. now rewrite Hattr.
Qed.

(** What [reported] returns, read backwards. *)
Lemma reported_inv (self : PeriodConcatNode.t) (w : World) (node : PackagerNode)
      (parsed : ISO8601.t) :
  reported self w node = Ok parsed <->
  exists mpd d,
    files w (manifest_path self node) = Some mpd /\
    attribute mpd "mediaPresentationDuration" = Some d /\
    ISO8601.parse d = Ok parsed.
Proof.
  unfold reported, ElementTree.parse, ElementTree.getitem, attribute. split.
  - intros H. destruct (files w (manifest_path self node)) as [mpd|]; [|discriminate].
    simpl in H.
    destruct (ElementTree.get (ElementTree.attrib mpd) "mediaPresentationDuration")
      as [d|] eqn:Hd; [|discriminate].
    simpl in H. exists mpd, d. repeat split; assumption.
  - intros (mpd & d & Hmpd & Hd & Hp). rewrite Hmpd. simpl. rewrite Hd. simpl. exact Hp.
Qed.

(** In VOD mode the running total at the end of the turns is the
    durations the manifests report, added up in the order of the jobs. *)
Lemma turns_reported (self : PeriodConcatNode.t) (w : World) (i : nat)
      (nodes : list PackagerNode) (total total' : ISO8601.t)
      (periods : list ElementTree.Element) :
  streaming_mode (PeriodConcatNode._pipeline_config self) = VOD ->
  turns self w i nodes total periods total' ->
  exists ds, mapM (reported self w) nodes = Ok ds /\ accumulate total ds = Ok total'.
Proof.
  intros Hmode. induction 1 as [|i node nodes total p t1 periods t2 Hp _ IH].
  - exists []. split; reflexivity.
  - destruct (vod_turn _ _ _ _ _ _ _ Hmode Hp) as (mpd & d & pd & Hmpd & Hd & _ & Hparse & Hadd).
    destruct IH as (ds & Hds & Hacc).
    exists (pd :: ds). split.
    + simpl. rewrite (proj2 (reported_inv self w node pd)) by (now exists mpd, d).
      cbn [bind]. now rewrite Hds.
    + simpl. unfold ISO8601.__iadd__. rewrite Hadd. exact Hacc.
Qed.

Lemma concat_period_ok (self : PeriodConcatNode.t) (w : World) (i : nat)
      (node : PackagerNode) (total : ISO8601.t) :
  job_ok self w node = true ->
  steady (streaming_mode (PeriodConcatNode._pipeline_config self)) total ->
  exists p total',
    PeriodConcatNode.concat_period self w i node total = Ok (p, total') /\
    steady (streaming_mode (PeriodConcatNode._pipeline_config self)) total'.
Proof.
  unfold job_ok. intros H (Htotal & Hlive).
  apply andb_prop in H. destruct H as [Hdir H].
  assert (Hsrc : packager_output_dir node <> "").
  { intros E. rewrite E in Hdir. discriminate. }
  destruct (files w (manifest_path self node)) as [mpd|] eqn:Hmpd; [|discriminate].
  destruct (PeriodConcatNode.find mpd ["Period"]) as [p0|] eqn:Hp0; [|discriminate].
  apply andb_prop in H. destruct H as [Htexts Hmode].
  unfold PeriodConcatNode.concat_period. unfold manifest_path in Hmpd.
  unfold ElementTree.parse. rewrite Hmpd. cbn [bind]. rewrite Hp0. cbn [bind].
  set (pa := ElementTree.set_attrib p0 "id" (Py.str_int (Z.of_nat i))).
  assert (Htiming : exists p1 total',
             PeriodConcatNode.set_timing
               (streaming_mode (PeriodConcatNode._pipeline_config self)) mpd pa total
             = Ok (p1, total') /\
             steady (streaming_mode (PeriodConcatNode._pipeline_config self)) total').
  { unfold steady.
    destruct (streaming_mode (PeriodConcatNode._pipeline_config self)); simpl.
    - specialize (Hlive eq_refl).
      destruct (ISO8601.__str__ total) as [start|] eqn:Hstart; [|discriminate].
      cbn [bind].
      eexists; eexists. split; [reflexivity|].
      split; [exact Htotal | intros _; now rewrite Hstart].
    - unfold attribute in Hmode. unfold ElementTree.getitem.
      destruct (ElementTree.get (ElementTree.attrib mpd) "mediaPresentationDuration")
        as [d|]; [|discriminate].
      simpl. destruct (ISO8601.parse d) as [parsed|] eqn:Hparse; [|discriminate].
      simpl. destruct (add_parsed total parsed d Htotal Hparse) as (t' & Ht' & Hadd).
      unfold ISO8601.__iadd__. rewrite Ht'. simpl.
      eexists; eexists. split; [reflexivity|]. split; [exact Hadd | discriminate]. }
  fold pa. destruct Htiming as (p1 & total' & Htiming & Hadd). rewrite Htiming. cbn [bind].
  destruct (relpath_open (getcwd w) (packager_output_dir node)
                         (PeriodConcatNode._output_dir self) Hsrc) as (rel & Hrel & _).
  destruct segment_base_paths as (Hst & Hbu & Hne).
  destruct (update_all_succeeds
              (PeriodConcatNode.rewrite_segment_template
                 w (packager_output_dir node) (PeriodConcatNode._output_dir self))
              PeriodConcatNode.segment_template_path p1) as (p2 & Hp2).
  { apply Forall_forall. intros x _.
    unfold PeriodConcatNode.rewrite_segment_template. rewrite Hrel. simpl. now eexists. }
  rewrite Hp2. cbn [bind].
  destruct (update_all_succeeds
              (PeriodConcatNode.rewrite_base_url
                 w (packager_output_dir node) (PeriodConcatNode._output_dir self)
                 (posixpath.join (packager_output_dir node)
                    [dash_output (PeriodConcatNode._pipeline_config self)]))
              PeriodConcatNode.base_url_path p2) as (p3 & Hp3).
  { pose proof (rewrite_segment_template_tag w (packager_output_dir node)
                  (PeriodConcatNode._output_dir self)) as Ftag.
    rewrite Hst in Hp2. rewrite Hbu.
    rewrite (update_all_elsewhere _ Ftag _ _ _ _ _ Hne Hp2). rewrite <- Hbu.
    destruct (set_timing_inv _ _ _ _ _ _ Htiming) as (_ & _ & Hc1 & _).
    replace (ElementTree.iterfind [p1] PeriodConcatNode.base_url_path)
      with (base_urls p0).
    - apply Forall_forall. intros x Hx.
      rewrite forallb_forall in Htexts. specialize (Htexts x Hx).
      unfold PeriodConcatNode.rewrite_base_url. rewrite Hrel. simpl.
      unfold has_text in Htexts. destruct (ElementTree.text x); [|discriminate].
      now eexists.
    - unfold base_urls. rewrite findall_iterfind.
      fold PeriodConcatNode.base_url_path. unfold PeriodConcatNode.base_url_path.
      apply iterfind_same_children. rewrite Hc1. subst pa.
      symmetry. apply set_attrib_facts. }
  rewrite Hp3. cbn [bind]. eexists; eexists. split; [reflexivity | exact Hadd].
Qed.

Lemma concat_loop_ok (self : PeriodConcatNode.t) (w : World)
      (nodes : list PackagerNode) (i : nat) (total : ISO8601.t)
      (acc : list ElementTree.Element) :
  forallb (job_ok self w) nodes = true ->
  steady (streaming_mode (PeriodConcatNode._pipeline_config self)) total ->
  exists total' out, PeriodConcatNode.concat_loop self w i nodes total acc = Ok (total', out).
Proof.
  revert i total acc. induction nodes as [|node nodes IH]; intros i total acc H Ht; simpl.
  - now eexists; eexists.
  - simpl in H. apply andb_prop in H. destruct H as [Hnode Hnodes].
    destruct (concat_period_ok self w i node total Hnode Ht) as (p & t' & Hp & Ht').
    rewrite Hp. simpl. now apply IH.
Qed.

(** The default duration is printed, and can be added to. *)
Lemma default_steady (mode : StreamingMode) : steady mode ISO8601.default.
Proof. split; [now left | reflexivity]. Qed.

(** A duration is printed exactly when every field of it can be written
    out. *)
Lemma str_printable (d : ISO8601.t) : succeeds (ISO8601.__str__ d) = printable d.
Proof.
  unfold ISO8601.__str__, printable, Py.format_int. cbn [forallb].
  rewrite !(Z.leb_antisym Py.max_str_digits).
  destruct (Py.max_str_digits <? Py.digits (ISO8601.years d))%Z; [reflexivity|].
  destruct (Py.max_str_digits <? Py.digits (ISO8601.months d))%Z; [reflexivity|].
  destruct (Py.max_str_digits <? Py.digits (ISO8601.days d))%Z; [reflexivity|].
  destruct (Py.max_str_digits <? Py.digits (ISO8601.hours d))%Z; [reflexivity|].
  destruct (Py.max_str_digits <? Py.digits (ISO8601.minutes d))%Z; [reflexivity|].
  cbn [bind negb andb].
  destruct (ISO8601.seconds d) as [z|x]; [|reflexivity].
  unfold Py.str, Py.format_int, writable. rewrite (Z.leb_antisym Py.max_str_digits).
  now destruct (Py.max_str_digits <? Py.digits z)%Z.
Qed.

(** The total the merge prints for VOD is the one [vod_total] adds up. *)
Lemma total_printable_turns (self : PeriodConcatNode.t) (w : World)
      (periods : list ElementTree.Element) (total : ISO8601.t) :
  streaming_mode (PeriodConcatNode._pipeline_config self) = VOD ->
  turns self w 0 (PeriodConcatNode._packager_nodes self) ISO8601.default periods total ->
  total_printable self w = succeeds (ISO8601.__str__ total).
Proof.
  intros Hmode Hturns. unfold total_printable, vod_total. rewrite Hmode.
  destruct (turns_reported _ _ _ _ _ _ _ Hmode Hturns) as (ds & Hds & Hacc).
  rewrite Hds. cbn [bind]. rewrite Hacc. symmetry. apply str_printable.
Qed.

(** The merge goes through, up to the writing, for jobs that wrote what
    [job_ok] asks and whose total can be printed. *)
Lemma dash_concat_ok (self : PeriodConcatNode.t) (w : World) :
  mergeable self w = true -> exists f, PeriodConcatNode._dash_concat self w = Ok f.
Proof.
  unfold mergeable, PeriodConcatNode._dash_concat.
  destruct (PeriodConcatNode._packager_nodes self) as [|first rest] eqn:Hnodes;
    [discriminate|].
  intros H. apply andb_prop in H. destruct H as [H Hprint].
  assert (Hfirst : job_ok self w first = true).
  { simpl in H. now apply andb_prop in H. }
  cbn [bind].
  unfold job_ok in Hfirst. apply andb_prop in Hfirst. destruct Hfirst as [_ Hfirst].
  unfold manifest_path in Hfirst. unfold ElementTree.parse.
  destruct (files w _) as [ref_mpd|]; [|discriminate]. cbn [bind].
  destruct (PeriodConcatNode.find ref_mpd ["Period"]); [|discriminate]. cbn [bind].
  destruct (concat_loop_ok self w (first :: rest) 0 ISO8601.default [] H
              (default_steady _)) as (total & out & Hloop).
  rewrite Hloop. cbn [bind].
  destruct (streaming_mode (PeriodConcatNode._pipeline_config self)) eqn:Hmode;
    cbn [bind]; [now eexists|].
  apply concat_loop_turns in Hloop. destruct Hloop as (periods & Hturns & _).
  rewrite <- Hnodes in Hturns.
  rewrite (total_printable_turns self w periods total Hmode Hturns) in Hprint.
  destruct (ISO8601.__str__ total) as [printed|]; [|discriminate].
  cbn [bind]. now eexists.
Qed.

(** The merge does not read what the jobs report. *)
Lemma dash_concat_same_jobs (self self' : PeriodConcatNode.t) (w : World) :
  same_jobs self self' ->
  PeriodConcatNode._dash_concat self' w = PeriodConcatNode._dash_concat self w.
Proof.
  intros (Hc & Ho & Hd).
  assert (Hperiod : forall i n n' total,
             packager_output_dir n' = packager_output_dir n ->
             PeriodConcatNode.concat_period self' w i n' total
             = PeriodConcatNode.concat_period self w i n total).
  { intros i n n' total Hn. unfold PeriodConcatNode.concat_period.
    now rewrite Hc, Ho, Hn. }
  assert (Hloop : forall l l', map packager_output_dir l' = map packager_output_dir l ->
             forall i total acc,
               PeriodConcatNode.concat_loop self' w i l' total acc
               = PeriodConcatNode.concat_loop self w i l total acc).
  { induction l as [|n l IH]; intros [|n' l'] Hl i total acc;
      try discriminate; [reflexivity|].
    simpl in Hl. inversion Hl as [[Hn Hl']]. simpl.
    rewrite (Hperiod i n n' total Hn).
    destruct (PeriodConcatNode.concat_period self w i n total) as [[p t]|]; simpl;
      [now apply IH | reflexivity]. }
  unfold PeriodConcatNode._dash_concat.
  rewrite (Hloop _ _ Hd), Hc, Ho.
  destruct (PeriodConcatNode._packager_nodes self) as [|n l],
           (PeriodConcatNode._packager_nodes self') as [|n' l'];
    try discriminate; [reflexivity|].
  simpl in Hd. inversion Hd as [[Hn Hl]]. cbn [bind]. now rewrite Hn.
Qed.

Lemma filter_remove_first (t : string) (l : list ElementTree.Element) :
  filter (ElementTree.has_tag t) (ElementTree.remove_first t l)
  = tl (filter (ElementTree.has_tag t) l).
Proof.
  induction l as [|c l IH]; simpl; [reflexivity|].
  destruct (ElementTree.has_tag t c) eqn:E; simpl; [reflexivity|].
  now rewrite E.
Qed.

Lemma filter_all {A : Type} (p : A -> bool) (l : list A) :
  Forall (fun x => p x = true) l -> filter p l = l.
Proof. induction 1 as [|x l Hx _ IH]; simpl; [reflexivity | now rewrite Hx, IH]. Qed.

(** ** Timing *)

(** In a LIVE turn the start of the period is the running total, which
    the turn leaves as it found it. *)
Lemma live_turn (self : PeriodConcatNode.t) (w : World) (i : nat) (node : PackagerNode)
      (total total' : ISO8601.t) (p : ElementTree.Element) :
  streaming_mode (PeriodConcatNode._pipeline_config self) = LIVE ->
  PeriodConcatNode.concat_period self w i node total = Ok (p, total') ->
  exists start,
    ISO8601.__str__ total = Ok start /\ attribute p "start" = Some start /\ total' = total.
Proof.
  intros Hmode H.
  destruct (concat_period_inv _ _ _ _ _ _ _ H)
    as (mpd & p0 & p1 & _ & _ & Htiming & _ & Hattr & _).
  rewrite Hmode in Htiming.
  destruct (set_timing_inv _ _ _ _ _ _ Htiming)
    as (_ & _ & _ & _ & start & Hprint & Hstart & Ht).
  exists start. split; [exact Hprint|]. split; [|exact Ht].
  unfold attribute in *. now rewrite Hattr.
Qed.

Lemma live_turns (self : PeriodConcatNode.t) (w : World) (i : nat)
      (nodes : list PackagerNode) (total total' : ISO8601.t)
      (periods : list ElementTree.Element) :
  streaming_mode (PeriodConcatNode._pipeline_config self) = LIVE ->
  turns self w i nodes total periods total' ->
  total' = total /\
  forall start, ISO8601.__str__ total = Ok start ->
                Forall (fun p => attribute p "start" = Some start) periods.
Proof.
  intros Hmode. induction 1 as [|i node nodes total p t1 periods t2 Hp _ IH].
  - split; [reflexivity | constructor].
  - destruct (live_turn _ _ _ _ _ _ _ Hmode Hp) as (start & Hprint & Hstart & ->).
    destruct IH as (-> & IH). split; [reflexivity|].
    intros start' Hprint'. rewrite Hprint in Hprint'. inversion Hprint'; subst start'.
    constructor; [exact Hstart | now apply IH].
Qed.

(** In LIVE mode every period of a merged document starts at the
    formatted running total, and the running total never leaves the
    default duration: all the periods start at [P0Y0M0DT0H0M0S]. *)
Lemma live_starts (self : PeriodConcatNode.t) (w : World)
      (f : PeriodConcatNode.written_file) :
  streaming_mode (PeriodConcatNode._pipeline_config self) = LIVE ->
  PeriodConcatNode._dash_concat self w = Ok f ->
  exists ref_mpd periods,
    ElementTree.children (PeriodConcatNode.document f)
    = (ElementTree.remove_first period_tag (ElementTree.children ref_mpd) ++ periods)%list /\
    List.length periods = List.length (PeriodConcatNode._packager_nodes self) /\
    Forall (fun p => attribute p "start" = Some "P0Y0M0DT0H0M0S") periods.
Proof.
  intros Hmode Hf.
  destruct (dash_concat_inv self w f Hf)
    as (first & rest & ref_mpd & periods & total & _ & _ & Hturns & Hc & _).
  exists ref_mpd, periods. split; [exact Hc|].
  split; [exact (turns_length _ _ _ _ _ _ _ Hturns)|].
  exact (proj2 (live_turns _ _ _ _ _ _ _ Hmode Hturns) _ eq_refl).
Qed.

(** C2: the code at a failing input.  Three LIVE jobs of ten seconds each,
    as the manifests and their periods say: the second period starts at
    [P0Y0M0DT0H0M0S], the formatted running total, and not at the
    formatted duration of the first period, [P0Y0M0DT0H0M10.0S]; the third
    starts there too. *)
Theorem C2_live_start_not_cumulative :
  exists f p0 p1 p2 sum1,
    PeriodConcatNode._dash_concat (Sample.node LIVE Finished Finished Finished)
                                  Sample.world_timed = Ok f /\
    periods_of (PeriodConcatNode.document f) = [p0; p1; p2] /\
    attribute p0 "start" = Some "P0Y0M0DT0H0M0S" /\
    attribute p1 "start" = Some "P0Y0M0DT0H0M0S" /\
    attribute p2 "start" = Some "P0Y0M0DT0H0M0S" /\
    attribute Sample.timed_manifest "mediaPresentationDuration" = Some "PT10S" /\
    map (fun p => attribute p "duration") (periods_of Sample.timed_manifest)
    = [Some "PT10S"] /\
    attribute p0 "duration" = Some "PT10S" /\
    (d <- ISO8601.parse "PT10S" ;; ISO8601.__add__ ISO8601.default d) = Ok sum1 /\
    ISO8601.__str__ sum1 = Ok "P0Y0M0DT0H0M10.0S" /\
    attribute p1 "start" <> Some "P0Y0M0DT0H0M10.0S".
Proof.
  eexists; eexists; eexists; eexists; eexists.
  repeat (split; [vm_compute; reflexivity|]).
  vm_compute. discriminate.
Qed.

(** C3, as amended.  In VOD mode with three jobs whose manifests each
    report ten seconds, every document the merge writes has three appended
    periods, each with the total duration of its job's manifest as its
    duration attribute, text for text, and the total duration of the merged
    document is [P0Y0M0DT0H0M30.0S], the seconds being printed as a
    float. *)
Theorem C3_vod_three_jobs (self : PeriodConcatNode.t) (w : World)
        (n0 n1 n2 : PackagerNode) :
  streaming_mode (PeriodConcatNode._pipeline_config self) = VOD ->
  PeriodConcatNode._packager_nodes self = [n0; n1; n2] ->
  reports_ten_seconds self w n0 -> reports_ten_seconds self w n1 ->
  reports_ten_seconds self w n2 ->
  (mergeable self w = true -> exists f, PeriodConcatNode._dash_concat self w = Ok f) /\
  forall f, PeriodConcatNode._dash_concat self w = Ok f ->
  exists p0 p1 p2 m0 m1 m2,
    files w (manifest_path self n0) = Some m0 /\
    files w (manifest_path self n1) = Some m1 /\
    files w (manifest_path self n2) = Some m2 /\
    ElementTree.children (PeriodConcatNode.document f)
    = (ElementTree.remove_first period_tag (ElementTree.children m0)
       ++ [p0; p1; p2])%list /\
    attribute p0 "duration" = attribute m0 "mediaPresentationDuration" /\
    attribute p1 "duration" = attribute m1 "mediaPresentationDuration" /\
    attribute p2 "duration" = attribute m2 "mediaPresentationDuration" /\
    attribute (PeriodConcatNode.document f) "mediaPresentationDuration"
    = Some "P0Y0M0DT0H0M30.0S".
Proof.
  intros Hmode Hnodes (m0 & d0 & Hm0 & Hd0 & Hp0) (m1 & d1 & Hm1 & Hd1 & Hp1)
         (m2 & d2 & Hm2 & Hd2 & Hp2).
  split; [apply dash_concat_ok|]. intros f Hf.
  destruct (dash_concat_inv self w f Hf)
    as (first & rest & ref_mpd & periods & total & Hn & Href & Hturns & Hc & _ & _ & Hattr & _).
  rewrite Hnodes in Hn. inversion Hn; subst first rest; clear Hn.
  rewrite Hnodes in Hturns. rewrite Hmode in Hattr.
  destruct Hattr as ((printed & Hprinted & Htotal) & _).
  inversion Hturns as [|? ? ? ? p0 t1 ps1 ? Ht0 Hturns1]; subst; clear Hturns.
  inversion Hturns1 as [|? ? ? ? p1 t2 ps2 ? Ht1 Hturns2]; subst; clear Hturns1.
  inversion Hturns2 as [|? ? ? ? p2 t3 ps3 ? Ht2 Hturns3]; subst; clear Hturns2.
  inversion Hturns3; subst; clear Hturns3.
  destruct (vod_turn _ _ _ _ _ _ _ Hmode Ht0) as (m0' & d0' & q0 & Hm0' & Hd0' & Hdur0 & Hq0 & Ha0).
  destruct (vod_turn _ _ _ _ _ _ _ Hmode Ht1) as (m1' & d1' & q1 & Hm1' & Hd1' & Hdur1 & Hq1 & Ha1).
  destruct (vod_turn _ _ _ _ _ _ _ Hmode Ht2) as (m2' & d2' & q2 & Hm2' & Hd2' & Hdur2 & Hq2 & Ha2).
  rewrite Hm0 in Hm0'. inversion Hm0'; subst m0'. rewrite Hd0 in Hd0'. inversion Hd0'; subst d0'.
  rewrite Hm1 in Hm1'. inversion Hm1'; subst m1'. rewrite Hd1 in Hd1'. inversion Hd1'; subst d1'.
  rewrite Hm2 in Hm2'. inversion Hm2'; subst m2'. rewrite Hd2 in Hd2'. inversion Hd2'; subst d2'.
  rewrite Hp0 in Hq0. inversion Hq0; subst q0.
  rewrite Hp1 in Hq1. inversion Hq1; subst q1.
  rewrite Hp2 in Hq2. inversion Hq2; subst q2.
  vm_compute in Ha0. inversion Ha0; subst t1.
  vm_compute in Ha1. inversion Ha1; subst t2.
  vm_compute in Ha2. inversion Ha2; subst total.
  vm_compute in Hprinted. inversion Hprinted; subst printed.
  rewrite Hm0 in Href. inversion Href; subst ref_mpd.
  exists p0, p1, p2, m0, m1, m2.
  repeat split; auto; try congruence.
Qed.

(** The hypotheses of C3 hold for the three sample jobs, whose manifests
    give [PT10S]. *)
Lemma C3_vod_witness :
  exists f,
    PeriodConcatNode._dash_concat (Sample.node VOD Finished Finished Finished)
                                  (Sample.world10 "PT10S") = Ok f /\
    attribute (PeriodConcatNode.document f) "mediaPresentationDuration"
    = Some "P0Y0M0DT0H0M30.0S".
Proof.
  assert (Hten : forall dir s,
             dir = "jobs/0" \/ dir = "jobs/1" \/ dir = "jobs/2" ->
             reports_ten_seconds (Sample.node VOD Finished Finished Finished)
                                 (Sample.world10 "PT10S") (Sample.job dir s)).
  { intros dir s Hdir. exists (Sample.manifest "PT10S" "video.mp4"), "PT10S".
    destruct Hdir as [->|[->| ->]]; repeat split; vm_compute; reflexivity. }
  destruct (C3_vod_three_jobs
              (Sample.node VOD Finished Finished Finished) (Sample.world10 "PT10S")
              (Sample.job "jobs/0" Finished) (Sample.job "jobs/1" Finished)
              (Sample.job "jobs/2" Finished) eq_refl eq_refl
              (Hten _ _ (or_introl eq_refl))
              (Hten _ _ (or_intror (or_introl eq_refl)))
              (Hten _ _ (or_intror (or_intror eq_refl))))
    as (Hok & Hdoc).
  destruct (Hok eq_refl) as (f & Hf). exists f. split; [exact Hf|].
  destruct (Hdoc f Hf) as (? & ? & ? & ? & ? & ? & _ & _ & _ & _ & _ & _ & _ & H).
  exact H.
Defined.

(** C3, as stated, fails on the aggregate, and on the periods unless the
    manifests spell their duration in the canonical form: with manifests
    that give [P0Y0M0DT0H0M10S] the merged total is [P0Y0M0DT0H0M30.0S],
    not [P0Y0M0DT0H0M30S]; with manifests that give [PT10S] the periods
    have the duration [PT10S]. *)
Lemma C3_aggregate_printed_as_float :
  (exists f,
     PeriodConcatNode._dash_concat (Sample.node VOD Finished Finished Finished)
                                   (Sample.world10 "P0Y0M0DT0H0M10S") = Ok f /\
     ISO8601.parse "P0Y0M0DT0H0M10S" = Ok ten_seconds /\
     map (fun p => attribute p "duration") (periods_of (PeriodConcatNode.document f))
     = [Some "P0Y0M0DT0H0M10S"; Some "P0Y0M0DT0H0M10S"; Some "P0Y0M0DT0H0M10S"] /\
     attribute (PeriodConcatNode.document f) "mediaPresentationDuration"
     = Some "P0Y0M0DT0H0M30.0S" /\
     attribute (PeriodConcatNode.document f) "mediaPresentationDuration"
     <> Some "P0Y0M0DT0H0M30S") /\
  (exists f,
     PeriodConcatNode._dash_concat (Sample.node VOD Finished Finished Finished)
                                   (Sample.world10 "PT10S") = Ok f /\
     ISO8601.parse "PT10S" = Ok ten_seconds /\
     map (fun p => attribute p "duration") (periods_of (PeriodConcatNode.document f))
     = [Some "PT10S"; Some "PT10S"; Some "PT10S"]).
Proof.
  split.
  - eexists. split; [vm_compute; reflexivity|].
    split; [vm_compute; reflexivity|].
    split; [vm_compute; reflexivity|].
    split; [vm_compute; reflexivity|].
    vm_compute. discriminate.
  - eexists. split; [vm_compute; reflexivity|].
    split; vm_compute; reflexivity.
Qed.

(** ** Locations *)

Lemma rewrite_attrib_facts (rel key : string) (e : ElementTree.Element) :
  attribute (PeriodConcatNode.rewrite_attrib rel key e) key
  = rewritten rel (attribute e key) /\
  (forall k, key <> k ->
     attribute (PeriodConcatNode.rewrite_attrib rel key e) k = attribute e k).
Proof.
  unfold PeriodConcatNode.rewrite_attrib, rewritten, attribute.
  destruct (ElementTree.get (ElementTree.attrib e) key) as [v|] eqn:E.
  - destruct (v =? "") eqn:Ev.
    + split; [exact E | reflexivity].
    + destruct (set_attrib_facts e key (posixpath.join rel [v])) as (_ & _ & _ & Hs & Ho).
      split; [exact Hs | exact Ho].
  - split; [exact E | reflexivity].
Qed.


Lemma has_scheme_relative (reference : string) :
  has_scheme reference = true -> Py.startswith reference "/" = false.
Proof.
  destruct reference as [|c s]; simpl; [discriminate|].
  intros H. apply andb_prop in H. destruct H as [Hc _].
  destruct (Ascii.eqb c "/") eqn:E; [|reflexivity].
  apply Ascii.eqb_eq in E. subst c. discriminate.
Qed.

(** ** Where the rewritten references lead *)

(** Under a root, [normpath] does not tell one leading slash from two. *)
Lemma norm_step_rooted (n : nat) (st : list string) (c : string) :
  posixpath.norm_step (S n) st c = posixpath.norm_step 1 st c.
Proof. reflexivity. Qed.

Lemma fold_norm_step_rooted (n : nat) (comps st : list string) :
  fold_left (posixpath.norm_step (S n)) comps st
  = fold_left (posixpath.norm_step 1) comps st.
Proof. revert st. induction comps as [|c comps IH]; intros st; simpl; auto. Qed.

Lemma norm_step_plain (st : list string) (c : string) :
  has_char "/" c = false -> Forall plain st -> Forall plain (posixpath.norm_step 1 st c).
Proof.
  intros Hc Hst. unfold posixpath.norm_step.
  destruct (c =? "") eqn:E1; simpl; [exact Hst|].
  destruct (c =? ".") eqn:E2; simpl; [exact Hst|].
  destruct (c =? "..") eqn:E3; simpl.
  - destruct st as [|top below]; [constructor|].
    inversion Hst as [|? ? (_ & _ & Htop) Hbelow]; subst.
    destruct (top =? "..") eqn:E4; [apply String.eqb_eq in E4; contradiction|].
    exact Hbelow.
  - constructor; [|exact Hst]. apply String.eqb_neq in E1, E2, E3.
    repeat split; assumption.
Qed.

Lemma fold_norm_step_plain (comps st : list string) :
  Forall (fun c => has_char "/" c = false) comps -> Forall plain st ->
  Forall plain (fold_left (posixpath.norm_step 1) comps st).
Proof.
  intros Hc. revert st. induction Hc as [|c comps Hc _ IH]; intros st Hst; simpl.
  - exact Hst.
  - apply IH. now apply norm_step_plain.
Qed.

Lemma stack_plain (cwd path : string) : Forall plain (stack cwd path).
Proof. apply fold_norm_step_plain; [apply split_no_sep | constructor]. Qed.

Lemma plain_components (l : list string) : Forall plain l -> Forall component l.
Proof. apply Forall_impl. now intros c (H & _). Qed.

(** The names of an absolute path are what [normpath] has on its stack at
    the end. *)
Lemma names_rooted (x : string) :
  Py.startswith x "/" = true ->
  filter posixpath.nonempty (Py.split "/" (posixpath.normpath x))
  = List.rev (fold_left (posixpath.norm_step 1) (Py.split "/" x) []).
Proof.
  intros Hx. unfold posixpath.normpath.
  destruct x as [|c x]; [discriminate|]. simpl in Hx. apply Ascii.eqb_eq in Hx. subst c.
  cbn [String.eqb]. simpl (Py.startswith _ _).
  set (n := if Py.has_prefix (String "/" x) "//" && negb (Py.has_prefix (String "/" x) "///")
            then 2%nat else 1%nat).
  assert (Hn : exists k, n = S k).
  { subst n. destruct (_ && _); eexists; reflexivity. }
  destruct Hn as (k & Hn). rewrite Hn. cbv zeta. rewrite fold_norm_step_rooted.
  set (st := fold_left (posixpath.norm_step 1) (Py.split "/" (String "/" x)) []).
  assert (Hst : Forall component (List.rev st)).
  { apply Forall_rev, plain_components.
    apply fold_norm_step_plain; [apply split_no_sep | constructor]. }
  replace (if Py.repeat_char "/" (S k) ++ Py.join "/" (List.rev st) =? "" then "."
           else Py.repeat_char "/" (S k) ++ Py.join "/" (List.rev st))
    with (Py.repeat_char "/" (S k) ++ Py.join "/" (List.rev st)) by reflexivity.
  rewrite split_slashes.
  destruct (List.rev st) as [|a l] eqn:E.
  - simpl. clear. induction k; simpl; auto.
  - rewrite split_join; [now apply filter_components | exact Hst | discriminate].
Qed.

Lemma anchored_rooted (cwd path : string) :
  posixpath.isabs cwd = true -> Py.startswith (anchored cwd path) "/" = true.
Proof.
  intros Hcwd. unfold anchored. destruct (posixpath.isabs path) eqn:E; [exact E|].
  unfold posixpath.isabs in *. unfold posixpath.join2. rewrite E.
  destruct cwd as [|c cwd]; [discriminate|].
  destruct ((String c cwd =? "") || Py.endswith (String c cwd) "/"); exact Hcwd.
Qed.

Lemma names_stack (cwd path : string) :
  posixpath.isabs cwd = true -> names cwd path = List.rev (stack cwd path).
Proof.
  intros Hcwd. unfold names, posixpath.abspath. fold (anchored cwd path).
  now apply names_rooted, anchored_rooted.
Qed.

(** Joining a relative path: [normpath] goes on from where it was. *)
Lemma fold_join2 (n : nat) (a y : string) (st : list string) :
  Py.startswith y "/" = false ->
  fold_left (posixpath.norm_step n) (Py.split "/" (posixpath.join2 a y)) st
  = fold_left (posixpath.norm_step n) (Py.split "/" y)
              (fold_left (posixpath.norm_step n) (Py.split "/" a) st).
Proof.
  intros Hy. unfold posixpath.join2. rewrite Hy.
  destruct (a =? "") eqn:Ea.
  - apply String.eqb_eq in Ea. subst a. reflexivity.
  - simpl. destruct (Py.endswith a "/") eqn:Ee.
    + destruct (endswith_split _ _ Ee) as (a' & ->).
      rewrite string_app_assoc. simpl.
      rewrite !split_app_sep, !fold_left_app. reflexivity.
    + change (a ++ "/" ++ y) with (a ++ String "/" y).
      now rewrite split_app_sep, fold_left_app.
Qed.

Lemma join2_relative_stays (p y : string) :
  Py.startswith p "/" = false -> Py.startswith y "/" = false ->
  Py.startswith (posixpath.join2 p y) "/" = false.
Proof.
  intros Hp Hy. unfold posixpath.join2. rewrite Hy.
  destruct p as [|c p]; [exact Hy|]. simpl in *.
  match goal with |- context [if ?b then _ else _] => destruct b end; exact Hp.
Qed.

Lemma join2_rooted_stays (p y : string) :
  Py.startswith p "/" = true -> Py.startswith y "/" = false ->
  Py.startswith (posixpath.join2 p y) "/" = true.
Proof.
  intros Hp Hy. unfold posixpath.join2. rewrite Hy.
  destruct p as [|c p]; [discriminate|]. simpl in *.
  match goal with |- context [if ?b then _ else _] => destruct b end; exact Hp.
Qed.

Lemma stack_join2 (cwd p y : string) :
  Py.startswith y "/" = false ->
  stack cwd (posixpath.join2 p y)
  = fold_left (posixpath.norm_step 1) (Py.split "/" y) (stack cwd p).
Proof.
  intros Hy. unfold stack, anchored, posixpath.isabs.
  destruct (Py.startswith p "/") eqn:Hp.
  - rewrite (join2_rooted_stays _ _ Hp Hy). now apply fold_join2.
  - rewrite (join2_relative_stays _ _ Hp Hy).
    rewrite (fold_join2 1 cwd (posixpath.join2 p y)) by (now apply join2_relative_stays).
    rewrite (fold_join2 1 p y) by exact Hy.
    now rewrite (fold_join2 1 cwd p) by exact Hp.
Qed.

Lemma fold_pops (k : nat) (st : list string) :
  Forall plain st ->
  fold_left (posixpath.norm_step 1) (repeat posixpath.pardir k) st = skipn k st.
Proof.
  revert st. induction k as [|k IH]; intros st Hst; [reflexivity|].
  simpl. destruct st as [|top below].
  - change (posixpath.norm_step 1 [] posixpath.pardir) with (@nil string).
    rewrite IH by constructor. now destruct k.
  - inversion Hst as [|? ? (_ & _ & Htop) Hbelow]; subst.
    unfold posixpath.norm_step at 2. simpl.
    destruct (top =? "..") eqn:E; [apply String.eqb_eq in E; contradiction|].
    now apply IH.
Qed.

Lemma fold_pushes (l st : list string) :
  Forall plain l ->
  fold_left (posixpath.norm_step 1) l st = (List.rev l ++ st)%list.
Proof.
  intros Hl. revert st. induction Hl as [|c l ((Hc & _) & Hd & Hdd) _ IH]; intros st.
  - reflexivity.
  - simpl. rewrite IH. unfold posixpath.norm_step.
    destruct (c =? "") eqn:E1; [apply String.eqb_eq in E1; contradiction|].
    destruct (c =? ".") eqn:E2; [apply String.eqb_eq in E2; contradiction|].
    destruct (c =? "..") eqn:E3; [apply String.eqb_eq in E3; contradiction|].
    simpl. now rewrite <- app_assoc.
Qed.

Lemma commonprefix_split (a b : list string) :
  exists a' b',
    a = (posixpath.commonprefix a b ++ a')%list /\
    b = (posixpath.commonprefix a b ++ b')%list.
Proof.
  revert b. induction a as [|x a IH]; intros b.
  - now exists [], b.
  - destruct b as [|y b]; [now exists (x :: a), []|]. simpl.
    destruct (x =? y) eqn:E.
    + apply String.eqb_eq in E. subst y.
      destruct (IH b) as (a' & b' & Ha & Hb). exists a', b'. simpl.
      now rewrite <- Ha, <- Hb.
    + now exists (x :: a), (y :: b).
Qed.

(** [join] of components is the components with slashes between. *)
Lemma join_components (a : string) (p : list string) :
  Forall component (a :: p) -> posixpath.join a p = Py.join "/" (a :: p).
Proof.
  intros H. inversion H as [|? ? Ha Hp]; subst. clear H.
  assert (Hgen : forall pre, open_path pre ->
             fold_left posixpath.join2 p pre
             = match p with [] => pre | _ => pre ++ "/" ++ Py.join "/" p end).
  { induction Hp as [|c p Hc Hp IH]; intros pre Hpre; [reflexivity|].
    simpl fold_left. rewrite IH by (now apply join2_open).
    rewrite (join2_relative _ _ Hpre (component_relative _ Hc)).
    destruct p as [|c' p]; [reflexivity|].
    rewrite !string_app_assoc. reflexivity. }
  unfold posixpath.join. rewrite Hgen by (now apply component_open).
  now destruct p.
Qed.

(** What [relpath] returns spells the walk from [start] to [path]: up to
    the names they share, then down. *)
Lemma relpath_walk (cwd path start rel : string) (st : list string) :
  posixpath.relpath cwd path start = Ok rel ->
  let i := List.length (posixpath.commonprefix (names cwd start) (names cwd path)) in
  fold_left (posixpath.norm_step 1) (Py.split "/" rel) st
  = fold_left (posixpath.norm_step 1)
      (repeat posixpath.pardir (List.length (names cwd start) - i)
       ++ skipn i (names cwd path))%list st.
Proof.
  unfold posixpath.relpath. fold (names cwd start) (names cwd path).
  destruct (path =? ""); [discriminate|]. cbv zeta.
  set (i := List.length (posixpath.commonprefix (names cwd start) (names cwd path))).
  assert (H : Forall component
                (repeat posixpath.pardir (List.length (names cwd start) - i)
                 ++ skipn i (names cwd path))%list).
  { apply Forall_app. split.
    - apply Forall_repeat. split; [discriminate | reflexivity].
    - apply Forall_skipn, components_of_split. }
  destruct (repeat posixpath.pardir (List.length (names cwd start) - i)
            ++ skipn i (names cwd path))%list as [|a p].
  - intros E. inversion E; subst rel. reflexivity.
  - intros E. inversion E; subst rel.
    rewrite (join_components a p H), split_join; [reflexivity | exact H | discriminate].
Qed.

(** From where [normpath] stands after [start], the relative path leads
    to where it stands after [path]. *)
Lemma relpath_leads (cwd path start rel : string) :
  posixpath.isabs cwd = true ->
  posixpath.relpath cwd path start = Ok rel ->
  fold_left (posixpath.norm_step 1) (Py.split "/" rel) (stack cwd start) = stack cwd path.
Proof.
  intros Hcwd Hrel. rewrite (relpath_walk _ _ _ _ _ Hrel). cbv zeta.
  rewrite fold_left_app, (fold_pops _ _ (stack_plain cwd start)).
  pose proof (names_stack cwd start Hcwd) as Hs.
  pose proof (names_stack cwd path Hcwd) as Hp.
  destruct (commonprefix_split (names cwd start) (names cwd path)) as (s' & p' & Es & Ep).
  set (c := posixpath.commonprefix (names cwd start) (names cwd path)) in *.
  assert (Hst : stack cwd start = List.rev (names cwd start)).
  { rewrite Hs. now rewrite rev_involutive. }
  assert (Hpt : stack cwd path = List.rev (names cwd path)).
  { rewrite Hp. now rewrite rev_involutive. }
  assert (Hlen : List.length (names cwd start) = (List.length c + List.length s')%nat).
  { rewrite Es at 1. apply length_app. }
  rewrite Hst at 1. rewrite skipn_rev.
  replace (List.length (names cwd start)
           - (List.length (names cwd start) - List.length c))%nat
    with (List.length c) by lia.
  assert (Hf : firstn (List.length c) (names cwd start) = c).
  { rewrite Es at 1. rewrite <- (Nat.add_0_r (List.length c)).
    rewrite firstn_app_2. simpl. apply app_nil_r. }
  assert (Hk : skipn (List.length c) (names cwd path) = p').
  { rewrite Ep at 1. apply skipn_length_app. }
  rewrite Hf, Hk.
  assert (Hplain : Forall plain p').
  { pose proof (stack_plain cwd path) as H. rewrite Hpt in H.
    apply Forall_rev in H. rewrite rev_involutive, Ep in H.
    apply Forall_app in H. now destruct H. }
  rewrite (fold_pushes _ _ Hplain), Hpt. rewrite Ep at 1.
  now rewrite rev_app_distr.
Qed.

(** What [relpath] returns is a relative path. *)
Lemma relpath_relative (cwd path start rel : string) :
  posixpath.relpath cwd path start = Ok rel -> Py.startswith rel "/" = false.
Proof.
  unfold posixpath.relpath. destruct (path =? ""); [discriminate|].
  match goal with
  | |- match ?l with _ => _ end = _ -> _ =>
      assert (Hl : Forall component l);
      [|destruct l as [|a p]; intros Hrel; inversion Hrel; subst; [reflexivity|]]
  end.
  - apply Forall_app. split.
    + apply Forall_repeat. split; [discriminate | reflexivity].
    + apply Forall_skipn, components_of_split.
  - rewrite (join_components a p Hl).
    inversion Hl as [|? ? Ha _]; subst.
    pose proof (component_relative a Ha) as Hrela.
    destruct a as [|x a]; [now destruct Ha|].
    destruct p; simpl in *; exact Hrela.
Qed.

Lemma rewrite_relative (w : World) (source dest reference rewritten : string) :
  Py.startswith reference "/" = false ->
  PeriodConcatNode.rewrite w source dest reference = Ok rewritten ->
  Py.startswith rewritten "/" = false.
Proof.
  intros Href H. unfold PeriodConcatNode.rewrite in H. invert_bind H as rel Hrel.
  inversion H; subst rewritten. simpl.
  apply join2_relative_stays; [|exact Href]. now apply relpath_relative in Hrel.
Qed.

Lemma rewritten_names (w : World) (source dest reference rewritten : string) :
  posixpath.isabs (getcwd w) = true ->
  Py.startswith reference "/" = false ->
  PeriodConcatNode.rewrite w source dest reference = Ok rewritten ->
  names (getcwd w) (posixpath.join dest [rewritten])
  = names (getcwd w) (posixpath.join source [reference]).
Proof.
  intros Hcwd Href H.
  pose proof (rewrite_relative _ _ _ _ _ Href H) as Hrw.
  unfold PeriodConcatNode.rewrite in H.
  invert_bind H as rel Hrel. inversion H; subst rewritten; clear H.
  simpl posixpath.join in *.
  rewrite !(names_stack _ _ Hcwd). f_equal.
  rewrite (stack_join2 _ dest) by exact Hrw.
  rewrite (fold_join2 1 rel reference _ Href).
  rewrite (relpath_leads _ _ _ _ Hcwd Hrel).
  now rewrite (stack_join2 _ source reference Href).
Qed.

(** Without two slashes in front, the absolute form is a slash and the
    names with slashes between. *)
Lemma abspath_names (cwd x : string) :
  posixpath.isabs cwd = true ->
  Py.has_prefix (anchored cwd x) "//" = false ->
  posixpath.abspath cwd x = "/" ++ Py.join "/" (names cwd x).
Proof.
  intros Hcwd Hone. rewrite (names_stack _ _ Hcwd).
  unfold posixpath.abspath, stack. fold (anchored cwd x).
  pose proof (anchored_rooted cwd x Hcwd) as Hroot.
  destruct (anchored cwd x) as [|c y] eqn:E; [discriminate|].
  unfold posixpath.normpath. cbn [String.eqb]. rewrite Hroot, Hone. reflexivity.
Qed.

Lemma join2_single_slash (a z : string) :
  Py.startswith a "/" = true -> Py.has_prefix a "//" = false ->
  Py.startswith z "/" = false ->
  Py.has_prefix (posixpath.join2 a z) "//" = false.
Proof.
  intros Ha Hone Hz. unfold posixpath.join2. rewrite Hz.
  destruct a as [|c [|c' a]]; [discriminate | |].
  - simpl in *. rewrite Ha. simpl. rewrite Ha. simpl.
    destruct z as [|d z]; [reflexivity|]. simpl in *. now rewrite Hz.
  - simpl in *. rewrite Ha in *. simpl in *. rewrite andb_true_r in Hone.
    match goal with |- context [if ?b then _ else _] => destruct b end;
      simpl; rewrite Ha, Hone; reflexivity.
Qed.

Lemma anchored_single_slash (cwd p y : string) :
  posixpath.isabs cwd = true -> Py.has_prefix cwd "//" = false ->
  Py.has_prefix p "//" = false -> Py.startswith y "/" = false ->
  Py.has_prefix (anchored cwd (posixpath.join2 p y)) "//" = false.
Proof.
  intros Hcwd Hc Hp Hy. unfold anchored, posixpath.isabs.
  destruct (Py.startswith p "/") eqn:E.
  - rewrite (join2_rooted_stays _ _ E Hy). now apply join2_single_slash.
  - rewrite (join2_relative_stays _ _ E Hy).
    apply join2_single_slash; auto. now apply join2_relative_stays.
Qed.





(** C8, as amended.  The rewriting makes no case of absolute references:
    one with a scheme is handled as any reference that does not start with
    a slash, it is prefixed with the relative path and no error is raised;
    whether the rewriting raises does not depend on the reference at all;
    a reference that starts with a slash is returned as it is; and the
    merge goes through whatever the references are. *)
Theorem C8_absolute_reference_prefixed :
  (forall w source dest reference,
     has_scheme reference = true -> source <> "" ->
     exists rel,
       posixpath.relpath (getcwd w) source dest = Ok rel /\
       PeriodConcatNode.rewrite w source dest reference = Ok (rel ++ "/" ++ reference)) /\
  (forall w source dest reference reference',
     succeeds (PeriodConcatNode.rewrite w source dest reference)
     = succeeds (PeriodConcatNode.rewrite w source dest reference')) /\
  (forall w source dest reference,
     source <> "" -> Py.startswith reference "/" = true ->
     PeriodConcatNode.rewrite w source dest reference = Ok reference) /\
  (forall self w, mergeable self w = true ->
     exists f, PeriodConcatNode._dash_concat self w = Ok f).
Proof.
  split.
  { intros w source dest reference Hscheme Hs.
    destruct (rewrite_spec w source dest reference Hs) as (rel & Hrel & Hrw).
    exists rel. split; [exact Hrel|].
    now rewrite (has_scheme_relative _ Hscheme) in Hrw. }
  split.
  { intros w source dest r r'. unfold PeriodConcatNode.rewrite.
    destruct (posixpath.relpath (getcwd w) source dest); reflexivity. }
  split.
  { intros w source dest reference Hs Hr.
    destruct (rewrite_spec w source dest reference Hs) as (rel & _ & Hrw).
    now rewrite Hr in Hrw. }
  intros self w. apply dash_concat_ok.
Qed.

(** The hypotheses of C8 hold for an [https] reference of the job that
    wrote to [jobs/2], for a reference that starts with a slash, and for the
    sample jobs, one of which gives an absolute base location. *)
Lemma C8_absolute_reference_witness :
  PeriodConcatNode.rewrite Sample.world_absolute "jobs/2" "out"
                           "https://cdn.example.com/seg-$Number$.mp4"
  = Ok ("../jobs/2" ++ "/" ++ "https://cdn.example.com/seg-$Number$.mp4") /\
  PeriodConcatNode.rewrite Sample.world_absolute "jobs/2" "out" "/srv/media/seg.mp4"
  = Ok "/srv/media/seg.mp4" /\
  exists f,
    PeriodConcatNode._dash_concat (Sample.node VOD Finished Finished Finished)
                                  Sample.world_absolute = Ok f.
Proof.
  destruct C8_absolute_reference_prefixed as (Hscheme & _ & Hslash & Hmerge).
  split.
  - destruct (Hscheme Sample.world_absolute "jobs/2" "out"
                      "https://cdn.example.com/seg-$Number$.mp4")
      as (rel & Hrel & Hrw); [reflexivity | discriminate |].
    rewrite relpath_jobs_2_out in Hrel. inversion Hrel; subst rel. exact Hrw.
  - split.
    + apply Hslash; [discriminate | reflexivity].
    + apply Hmerge. vm_compute. reflexivity.
Defined.

(** C8, as stated, fails: an absolute reference raises nothing and is
    altered, and the merge of a job with an absolute base location goes
    through, the location prefixed like any other. *)
Lemma C8_absolute_reference_altered :
  has_scheme "https://cdn.example.com/video.mp4" = true /\
  (forall w, PeriodConcatNode.rewrite w "jobs/2" "out" "https://cdn.example.com/video.mp4"
             = Ok "../jobs/2/https://cdn.example.com/video.mp4") /\
  exists f,
    PeriodConcatNode._dash_concat (Sample.node VOD Finished Finished Finished)
                                  Sample.world_absolute = Ok f /\
    map ElementTree.text
        (flat_map base_urls (periods_of (PeriodConcatNode.document f)))
    = [Some "../jobs/0/https://cdn.example.com/video.mp4";
       Some "../jobs/1/video.mp4"; Some "../jobs/2/video.mp4"].
Proof.
  split; [reflexivity|]. split.
  - intros w. unfold PeriodConcatNode.rewrite. now rewrite relpath_jobs_2_out.
  - eexists. split; vm_compute; reflexivity.
Qed.

(** ** What the merge keeps of a period *)

Section Elsewhere.

Variable f : ElementTree.Element -> result ElementTree.Element.
Hypothesis f_keeps : forall x y, f x = Ok y ->
  ElementTree.tag y = ElementTree.tag x /\ ElementTree.children y = ElementTree.children x.

(** An update at the end of a path leaves every element found along any
    other path as it was by itself. *)
Lemma update_all_off_path (upath : list string) :
  forall (e e' : ElementTree.Element) (path : list string),
    ElementTree.update_all upath f e = Ok e' -> path <> upath ->
    map label (ElementTree.iterfind [e'] path) = map label (ElementTree.iterfind [e] path).
Proof.
  assert (f_tag : forall x y, f x = Ok y -> ElementTree.tag y = ElementTree.tag x).
  { intros x y H. now apply f_keeps in H. }
  induction upath as [|t upath IH]; intros e e' path H Hpath.
  - simpl in H. destruct path as [|s path]; [contradiction|].
    apply f_keeps in H. destruct H as (_ & Hc).
    now rewrite (iterfind_same_children e' e s path Hc).
  - destruct path as [|s path].
    + destruct (update_all_root f t upath e e' H) as (Ht & Ha & Hx & _).
      simpl. unfold label. now rewrite Ht, Ha, Hx.
    + simpl in H. invert_bind H as cs Hcs. inversion H; subst e'; clear H.
      rewrite !iterfind_children.
      replace (ElementTree.children (ElementTree.set_children e cs)) with cs
        by (now destruct e).
      revert cs Hcs. generalize (ElementTree.children e) as l.
      induction l as [|c l IHl]; intros cs Hcs; simpl in Hcs.
      * now inversion Hcs.
      * invert_bind Hcs as c' Hc. invert_bind Hcs as cs' Hcs'.
        inversion Hcs; subst cs; clear Hcs. simpl.
        assert (Htag : ElementTree.tag c' = ElementTree.tag c).
        { destruct (ElementTree.has_tag t c); [|now inversion Hc].
          now apply (update_all_tag f f_tag) in Hc. }
        unfold ElementTree.has_tag at 1. rewrite Htag.
        fold (ElementTree.has_tag s c).
        destruct (ElementTree.has_tag s c) eqn:Hs; [|now apply IHl].
        rewrite (iterfind_cons path c'), (iterfind_cons path c), !map_app.
        rewrite (IHl cs' Hcs'). f_equal.
        destruct (ElementTree.has_tag t c) eqn:Ht; [|now inversion Hc].
        apply (IH c c' path Hc). intros ->. apply Hpath.
        unfold ElementTree.has_tag in Hs, Ht.
        apply String.eqb_eq in Hs, Ht. congruence.
Qed.

End Elsewhere.

Lemma rewrite_attrib_keeps (rel key : string) (e : ElementTree.Element) :
  ElementTree.tag (PeriodConcatNode.rewrite_attrib rel key e) = ElementTree.tag e /\
  ElementTree.text (PeriodConcatNode.rewrite_attrib rel key e) = ElementTree.text e /\
  ElementTree.children (PeriodConcatNode.rewrite_attrib rel key e) = ElementTree.children e.
Proof.
  unfold PeriodConcatNode.rewrite_attrib.
  destruct (ElementTree.get (ElementTree.attrib e) key) as [v|]; [|auto].
  destruct (v =? ""); [auto|].
  destruct (set_attrib_facts e key (posixpath.join rel [v])) as (Ht & Hx & Hc & _). auto.
Qed.

Lemma rewrite_segment_template_keeps (w : World) (source dest : string)
      (x y : ElementTree.Element) :
  PeriodConcatNode.rewrite_segment_template w source dest x = Ok y ->
  ElementTree.tag y = ElementTree.tag x /\
  ElementTree.text y = ElementTree.text x /\
  ElementTree.children y = ElementTree.children x /\
  forall k, k <> "initialization" -> k <> "media" -> attribute y k = attribute x k.
Proof.
  unfold PeriodConcatNode.rewrite_segment_template. intros H.
  invert_bind H as rel _. inversion H; subst y; clear H.
  destruct (rewrite_attrib_keeps rel "initialization" x) as (Ht1 & Hx1 & Hc1).
  destruct (rewrite_attrib_keeps rel "media"
              (PeriodConcatNode.rewrite_attrib rel "initialization" x)) as (Ht2 & Hx2 & Hc2).
  split; [congruence|]. split; [congruence|]. split; [congruence|].
  intros k Hi Hm.
  rewrite (proj2 (rewrite_attrib_facts rel "media" _) k (not_eq_sym Hm)).
  apply (proj2 (rewrite_attrib_facts rel "initialization" x) k (not_eq_sym Hi)).
Qed.

Lemma rewrite_base_url_keeps (w : World) (source dest path : string)
      (x y : ElementTree.Element) :
  PeriodConcatNode.rewrite_base_url w source dest path x = Ok y ->
  ElementTree.tag y = ElementTree.tag x /\
  ElementTree.attrib y = ElementTree.attrib x /\
  ElementTree.children y = ElementTree.children x.
Proof.
  unfold PeriodConcatNode.rewrite_base_url. intros H.
  invert_bind H as rel _.
  destruct (ElementTree.text x); [|discriminate]. inversion H; subst.
  now destruct x.
Qed.

Lemma segment_template_kept (w : World) (source dest : string)
      (x y : ElementTree.Element) :
  PeriodConcatNode.rewrite_segment_template w source dest x = Ok y ->
  ElementTree.tag y = ElementTree.tag x /\ ElementTree.children y = ElementTree.children x.
Proof.
  intros H. apply rewrite_segment_template_keeps in H.
  destruct H as (Ht & _ & Hc & _). now split.
Qed.

Lemma base_url_kept (w : World) (source dest path : string)
      (x y : ElementTree.Element) :
  PeriodConcatNode.rewrite_base_url w source dest path x = Ok y ->
  ElementTree.tag y = ElementTree.tag x /\ ElementTree.children y = ElementTree.children x.
Proof.
  intros H. apply rewrite_base_url_keeps in H.
  destruct H as (Ht & _ & Hc). now split.
Qed.

(** The period of a turn is the period of the job's manifest with its
    identifier and its timing attribute set and its locations rewritten,
    and nothing else changed. *)
Lemma concat_period_keeps (self : PeriodConcatNode.t) (w : World) (i : nat)
      (node : PackagerNode) (total total' : ISO8601.t) (p : ElementTree.Element) :
  PeriodConcatNode.concat_period self w i node total = Ok (p, total') ->
  exists mpd p0,
    files w (manifest_path self node) = Some mpd /\
    PeriodConcatNode.find mpd ["Period"] = Ok p0 /\
    ElementTree.tag p = ElementTree.tag p0 /\
    ElementTree.text p = ElementTree.text p0 /\
    (forall k, k <> "id" ->
       k <> timing_attribute (streaming_mode (PeriodConcatNode._pipeline_config self)) ->
       attribute p k = attribute p0 k) /\
    (forall path,
       path <> [] -> path <> PeriodConcatNode.segment_template_path ->
       path <> PeriodConcatNode.base_url_path ->
       map label (ElementTree.iterfind [p] path)
       = map label (ElementTree.iterfind [p0] path)) /\
    Forall2 (fun old new =>
               ElementTree.tag new = ElementTree.tag old /\
               ElementTree.text new = ElementTree.text old /\
               ElementTree.children new = ElementTree.children old /\
               forall k, k <> "initialization" -> k <> "media" ->
                         attribute new k = attribute old k)
            (segment_templates p0) (segment_templates p) /\
    Forall2 (fun old new =>
               ElementTree.tag new = ElementTree.tag old /\
               ElementTree.attrib new = ElementTree.attrib old /\
               ElementTree.children new = ElementTree.children old)
            (base_urls p0) (base_urls p).
Proof.
  intros H.
  destruct (concat_period_inv _ _ _ _ _ _ _ H)
    as (mpd & p0 & p1 & Hmpd & Hp0 & Htiming & Htag & Hattr & Htext & Hst & Hbu).
  exists mpd, p0. split; [exact Hmpd|]. split; [exact Hp0|].
  split; [rewrite Htag; symmetry; now apply find_child_tag in Hp0|].
  split; [exact Htext|].
  split.
  { intros k Hid Htime. unfold attribute at 1. rewrite Hattr. fold (attribute p1 k).
    set (pa := ElementTree.set_attrib p0 "id" (Py.str_int (Z.of_nat i))) in *.
    assert (Hpa : attribute pa k = attribute p0 k).
    { apply set_attrib_facts. now apply not_eq_sym. }
    rewrite <- Hpa. clear - Htiming Htime.
    destruct (streaming_mode (PeriodConcatNode._pipeline_config self)); simpl in *.
    - invert_bind Htiming as start _. inversion Htiming; subst.
      apply set_attrib_facts. now apply not_eq_sym.
    - invert_bind Htiming as d _. invert_bind Htiming as parsed _.
      invert_bind Htiming as t _. inversion Htiming; subst.
      apply set_attrib_facts. now apply not_eq_sym. }
  split.
  { intros path Hne Hnst Hnbu.
    unfold PeriodConcatNode.concat_period in H.
    invert_bind H as mpd' Hmpd'. invert_bind H as p0' Hp0'.
    invert_bind H as [p1' t1] Htiming'. invert_bind H as p2 Hp2. invert_bind H as p3 Hp3.
    inversion H; subst p3 t1; clear H.
    assert (mpd' = mpd).
    { unfold ElementTree.parse in Hmpd'. unfold manifest_path in Hmpd.
      rewrite Hmpd in Hmpd'. now inversion Hmpd'. }
    subst mpd'. rewrite Hp0 in Hp0'. inversion Hp0'; subst p0'.
    rewrite Htiming in Htiming'. inversion Htiming'; subst p1'.
    rewrite (update_all_off_path _ (base_url_kept _ _ _ _) _ _ _ path Hp3 Hnbu).
    rewrite (update_all_off_path _ (segment_template_kept _ _ _) _ _ _ path Hp2 Hnst).
    destruct path as [|s path]; [contradiction|].
    f_equal. apply iterfind_same_children.
    destruct (set_timing_inv _ _ _ _ _ _ Htiming) as (_ & _ & Hc & _).
    rewrite Hc. apply set_attrib_facts. }
  split.
  - revert Hst. apply Forall2_impl. intros old new Hnew.
    now apply rewrite_segment_template_keeps in Hnew.
  - revert Hbu. apply Forall2_impl. intros old new Hnew.
    now apply rewrite_base_url_keeps in Hnew.
Qed.

(** ** The periods of the merged document *)

(** The period of a turn is the period of its job. *)
Lemma concat_period_of_job (self : PeriodConcatNode.t) (w : World) (i : nat)
      (node : PackagerNode) (total total' : ISO8601.t) (p : ElementTree.Element) :
  PeriodConcatNode.concat_period self w i node total = Ok (p, total') ->
  period_of_job self w i node p.
Proof.
  intros H.
  destruct (concat_period_keeps _ _ _ _ _ _ _ H)
    as (mpd & p0 & Hmpd & Hp0 & _ & Htext & Hattr & Hpaths & Hst & Hbu).
  destruct (concat_period_inv _ _ _ _ _ _ _ H)
    as (mpd' & p0' & p1 & _ & _ & Htiming & Htag & Ha & _).
  destruct (set_timing_inv _ _ _ _ _ _ Htiming) as (_ & _ & _ & Hid & _).
  exists mpd, p0. split; [exact Hmpd|].
  split.
  { destruct (find_child _ _ _ Hp0) as (others & Hf).
    unfold periods_of, period_tag. now rewrite Hf. }
  split; [exact Htag|].
  split.
  { unfold attribute in *. rewrite Ha, Hid. apply set_attrib_facts. }
  split; [exact Htext|]. split; [exact Hattr|]. split; [exact Hpaths|].
  split; [exact Hst | exact Hbu].
Qed.

(** The periods of the turns are those of their jobs, in the order of the
    jobs. *)
Lemma turns_of_jobs (self : PeriodConcatNode.t) (w : World) (i : nat)
      (nodes : list PackagerNode) (total total' : ISO8601.t)
      (periods : list ElementTree.Element) :
  turns self w i nodes total periods total' ->
  forall j node, nth_error nodes j = Some node ->
    exists p, nth_error periods j = Some p /\ period_of_job self w (i + j) node p.
Proof.
  induction 1 as [|i node nodes total p t1 periods t2 Hp _ IH]; intros j n Hj.
  - destruct j; discriminate.
  - destruct j as [|j]; simpl in Hj.
    + inversion Hj; subst n. exists p. split; [reflexivity|].
      rewrite Nat.add_0_r. now apply concat_period_of_job in Hp.
    + destruct (IH j n Hj) as (q & Hq & Hjob). exists q. split; [exact Hq|].
      now rewrite Nat.add_succ_r.
Qed.

(** C1, as amended.  For jobs that wrote what the merge reads, the merge
    writes a document; and every document the merge writes is the document
    of the first job with its first period child removed and one period per
    job appended, in the order of the jobs: the period at index [i] is the
    first period of the manifest of job [i], with the period tag and the
    identifier [str(i)], its text, its other attributes and what lies under
    it kept (timing attribute and rewritten locations apart).  When the
    first job's document has a single period child, as a job's manifest
    has, the periods of the merged document are exactly these.  The merge
    does not look at what the jobs report, so that the order in which they
    finished plays no part. *)
Theorem C1_merge_periods (self : PeriodConcatNode.t) (w : World) :
  (mergeable self w = true -> exists f, PeriodConcatNode._dash_concat self w = Ok f) /\
  (forall f, PeriodConcatNode._dash_concat self w = Ok f ->
     exists first rest ref_mpd periods,
       PeriodConcatNode._packager_nodes self = first :: rest /\
       files w (manifest_path self first) = Some ref_mpd /\
       ElementTree.tag (PeriodConcatNode.document f) = ElementTree.tag ref_mpd /\
       ElementTree.children (PeriodConcatNode.document f)
       = (ElementTree.remove_first period_tag (ElementTree.children ref_mpd)
          ++ periods)%list /\
       List.length periods = List.length (PeriodConcatNode._packager_nodes self) /\
       (forall i node,
          nth_error (PeriodConcatNode._packager_nodes self) i = Some node ->
          exists p, nth_error periods i = Some p /\ period_of_job self w i node p) /\
       Forall (fun p => ElementTree.tag p = period_tag) periods /\
       map (fun p => attribute p "id") periods
       = map (fun i => Some (Py.str_int (Z.of_nat i)))
             (seq 0 (List.length (PeriodConcatNode._packager_nodes self))) /\
       periods_of (PeriodConcatNode.document f) = (tl (periods_of ref_mpd) ++ periods)%list /\
       (List.length (periods_of ref_mpd) = 1%nat ->
        periods_of (PeriodConcatNode.document f) = periods)) /\
  (forall self', same_jobs self self' ->
     PeriodConcatNode._dash_concat self' w = PeriodConcatNode._dash_concat self w).
Proof.
  split; [apply dash_concat_ok|].
  split; [|intros self'; apply dash_concat_same_jobs].
  intros f Hf.
  destruct (dash_concat_inv self w f Hf)
    as (first & rest & ref_mpd & periods & total & Hnodes & Href & Hturns & Hc & Ht & _).
  destruct (turns_ids _ _ _ _ _ _ _ Hturns) as (Htags & Hids).
  exists first, rest, ref_mpd, periods.
  split; [exact Hnodes|]. split; [exact Href|]. split; [exact Ht|].
  split; [exact Hc|]. split; [exact (turns_length _ _ _ _ _ _ _ Hturns)|].
  split; [exact (turns_of_jobs _ _ _ _ _ _ _ Hturns)|].
  split.
  { revert Htags. apply Forall_impl. intros p Hp. now apply String.eqb_eq in Hp. }
  split; [exact Hids|].
  assert (Hper : periods_of (PeriodConcatNode.document f)
                 = (tl (periods_of ref_mpd) ++ periods)%list).
  { unfold periods_of. rewrite Hc, filter_app, filter_remove_first.
    now rewrite (filter_all _ _ Htags). }
  split; [exact Hper|].
  intros H1. rewrite Hper.
  destruct (periods_of ref_mpd) as [|p [|p' l]]; try discriminate. reflexivity.
Qed.

(** The hypotheses of C1 hold for three jobs whose manifests differ: the
    merged document has three periods, identified 0, 1, 2; the period at
    index 1 is made of the manifest of the second job, whose representation
    is kept, and the base locations and durations of the three periods are
    those of the three jobs in their order; and the merged document is the
    same whatever the jobs report. *)
Lemma C1_merge_witness :
  mergeable (Sample.node VOD Finished Finished Finished) Sample.world_abc = true /\
  (exists f,
     PeriodConcatNode._dash_concat (Sample.node VOD Finished Finished Finished)
                                   Sample.world_abc = Ok f /\
     map (fun p => attribute p "id") (periods_of (PeriodConcatNode.document f))
     = [Some "0"; Some "1"; Some "2"] /\
     (exists p, nth_error (periods_of (PeriodConcatNode.document f)) 1 = Some p /\
        map label (ElementTree.iterfind [p] [Sample.q "AdaptationSet"])
        = map label (ElementTree.iterfind [Sample.period "b.mp4"] [Sample.q "AdaptationSet"])) /\
     map (fun p => attribute p "duration") (periods_of (PeriodConcatNode.document f))
     = [Some "PT10S"; Some "PT20S"; Some "PT30S"] /\
     map (fun p => map ElementTree.text (base_urls p))
         (periods_of (PeriodConcatNode.document f))
     = [[Some "../jobs/0/a.mp4"]; [Some "../jobs/1/b.mp4"]; [Some "../jobs/2/c.mp4"]]) /\
  PeriodConcatNode._dash_concat (Sample.node VOD Running Errored Finished) Sample.world_abc
  = PeriodConcatNode._dash_concat (Sample.node VOD Finished Finished Finished)
                                  Sample.world_abc.
Proof.
  destruct (C1_merge_periods (Sample.node VOD Finished Finished Finished)
                             Sample.world_abc) as (Hok & Hdoc & Hsame).
  split; [vm_compute; reflexivity|].
  split.
  - destruct (Hok eq_refl) as (f & Hf). exists f. split; [exact Hf|].
    destruct (Hdoc f Hf)
      as (first & rest & ref_mpd & periods & Hn & Href & _ & _ & _ & Hjobs & _ & Hids & _ & Hone).
    inversion Hn; subst first rest.
    vm_compute in Href. inversion Href; subst ref_mpd.
    rewrite (Hone eq_refl). split; [exact Hids|].
    split.
    + destruct (Hjobs 1%nat (Sample.job "jobs/1" Finished) eq_refl)
        as (p & Hp & mpd & p0 & Hmpd & Hp0 & _ & _ & _ & _ & Hpaths & _).
      vm_compute in Hmpd. inversion Hmpd; subst mpd.
      vm_compute in Hp0. inversion Hp0; subst p0.
      exists p. split; [exact Hp|].
      apply Hpaths; vm_compute; discriminate.
    + assert (Hf' : PeriodConcatNode._dash_concat (Sample.node VOD Finished Finished Finished)
                                                  Sample.world_abc = Ok f) by exact Hf.
      vm_compute in Hf'. inversion Hf' as [Ef]. clear Hf'.
      assert (Hp : periods = periods_of (PeriodConcatNode.document f)).
      { symmetry. apply Hone. reflexivity. }
      rewrite Hp, <- Ef. split; vm_compute; reflexivity.
  - apply Hsame. repeat split.
Defined.

(** C1, as stated, fails when the document of the first job has a second
    period child: that one stays, in front of the periods of the three
    jobs, and the merged document has four period elements, two of them
    with the identifier 1. *)
Lemma C1_second_period_stays :
  Forall (fun node => exists mpd p0,
            files Sample.world_two_periods
                  (manifest_path (Sample.node VOD Finished Finished Finished) node) = Some mpd /\
            hd_error (periods_of mpd) = Some p0)
         (PeriodConcatNode._packager_nodes (Sample.node VOD Finished Finished Finished)) /\
  exists f,
    PeriodConcatNode._dash_concat (Sample.node VOD Finished Finished Finished)
                                  Sample.world_two_periods = Ok f /\
    List.length (PeriodConcatNode._packager_nodes (Sample.node VOD Finished Finished Finished))
    = 3%nat /\
    List.length (periods_of (PeriodConcatNode.document f)) = 4%nat /\
    map (fun p => attribute p "id") (periods_of (PeriodConcatNode.document f))
    = [Some "1"; Some "0"; Some "1"; Some "2"].
Proof.
  split.
  { repeat constructor; eexists; eexists; split; vm_compute; reflexivity. }
  eexists. split; [vm_compute; reflexivity|].
  repeat split; vm_compute; reflexivity.
Qed.

(** ** The duration pattern *)

Lemma span_spec (cls : ascii -> bool) (s : string) :
  s = fst (span cls s) ++ snd (span cls s) /\
  all_chars cls (fst (span cls s)) = true /\
  match snd (span cls s) with
  | String c _ => cls c = false
  | EmptyString => True
  end.
Proof.
  induction s as [|c s (IH1 & IH2 & IH3)]; simpl; [auto|].
  destruct (cls c) eqn:E.
  - destruct (span cls s) as [w r]; simpl in *.
    split; [now rewrite <- IH1|]. split; [now rewrite E, IH2 | exact IH3].
  - simpl. auto.
Qed.

Lemma span_app (cls : ascii -> bool) (w r : string) :
  all_chars cls w = true ->
  match r with String c _ => cls c = false | EmptyString => True end ->
  span cls (w ++ r) = (w, r).
Proof.
  intros Hw Hr. induction w as [|c w IH]; simpl.
  - destruct r as [|c r]; simpl; [reflexivity | now rewrite Hr].
  - simpl in Hw. apply andb_prop in Hw. destruct Hw as [Hc Hw].
    now rewrite Hc, (IH Hw).
Qed.

Lemma substring_prefix (w r : string) : substring 0 (String.length w) (w ++ r) = w.
Proof.
  induction w as [|c w IH]; simpl.
  - now destruct r.
  - now rewrite IH.
Qed.

(** A greedy run followed by something that only goes on at a character
    outside the class: the run is the longest one. *)
Lemma star_span (cls : ascii -> bool) (k : re.cont) (s : string) (pos : nat)
      (caps : re.captures) :
  (forall pos' c s' caps', cls c = true -> k pos' (String c s') caps' = None) ->
  re.star cls pos s caps k
  = k (pos + String.length (fst (span cls s)))%nat (snd (span cls s)) caps.
Proof.
  intros Hk. revert pos. induction s as [|c s IH]; intros pos; simpl.
  - now rewrite Nat.add_0_r.
  - destruct (cls c) eqn:E.
    + rewrite IH. destruct (span cls s) as [w r]; simpl.
      replace (pos + S (String.length w))%nat with (S (pos + String.length w)) by lia.
      destruct (k (S (pos + String.length w)) r caps) eqn:Ek; [reflexivity|].
      now apply Hk.
    + simpl. now rewrite Nat.add_0_r.
Qed.

(** An optional component of the pattern, run: the longest run of the
    class, then the letter, then the rest; or, failing that, the rest at
    once. *)
Lemma component_run (i : nat) (cls : ascii -> bool) (letter : ascii) (k : re.cont)
      (pos : nat) (s : string) (caps : re.captures) :
  cls letter = false ->
  re.run (ISO8601.component i cls letter) pos s caps k
  = match
      match snd (span cls s) with
      | String c r =>
          if Ascii.eqb c letter
          then k (S (pos + String.length (fst (span cls s)))) r
                 ((i, fst (span cls s)) :: caps)
          else None
      | EmptyString => None
      end
    with
    | Some m => Some m
    | None => k pos s caps
    end.
Proof.
  intros Hl. unfold ISO8601.component. simpl re.run.
  rewrite star_span.
  - destruct (span_spec cls s) as (Hs & _ & _).
    destruct (snd (span cls s)) as [|c r]; [reflexivity|].
    destruct (Ascii.eqb c letter); [|reflexivity].
    replace (pos + String.length (fst (span cls s)) - pos)%nat
      with (String.length (fst (span cls s))) by lia.
    rewrite Hs at 3. now rewrite substring_prefix.
  - intros pos' c s' caps' Hc.
    destruct (Ascii.eqb c letter) eqn:E; [|reflexivity].
    apply Ascii.eqb_eq in E. subst c. congruence.
Qed.

Lemma lead_app (cls cls' : ascii -> bool) (letter : ascii) (w r : string) :
  all_chars cls' w = true -> cls letter = false ->
  exists c, lead cls (w ++ String letter r) = Some c /\
            (Ascii.eqb c letter || cls' c) = true.
Proof.
  intros Hw Hl. unfold lead. induction w as [|c w IH]; simpl.
  - rewrite Hl. simpl. exists letter. now rewrite Ascii.eqb_refl.
  - simpl in Hw. apply andb_prop in Hw. destruct Hw as [Hc Hw].
    destruct (cls c) eqn:E.
    + destruct (IH Hw) as (c' & Hc' & Hor). exists c'.
      destruct (span cls (w ++ String letter r)) as [w1 r1]. simpl in *. auto.
    + simpl. exists c. now rewrite Hc, orb_true_r.
Qed.

(** An optional component in front of a continuation, when no text of
    the continuation can be taken for the component. *)
Lemma opt_denotes (i : nat) (cls : ascii -> bool) (letter : ascii) (k : re.cont)
      (R : string -> re.captures -> Prop) :
  cls letter = false ->
  denotes k R ->
  (forall s d, R s d -> lead cls s <> Some letter) ->
  denotes (fun pos s caps => re.run (ISO8601.component i cls letter) pos s caps k)
          (opt_rel i cls letter R).
Proof.
  intros Hl Hk Hlead pos s caps m. rewrite (component_run _ _ _ _ _ _ _ Hl).
  destruct (span_spec cls s) as (Hs & Hw & Hr).
  split.
  - intros H.
    assert (Hskip : k pos s caps = Some m ->
                    exists delta, opt_rel i cls letter R s delta /\ m = (delta ++ caps)%list).
    { intros Hm. apply Hk in Hm. destruct Hm as (d & Hd & ->).
      exists d. split; [|reflexivity].
      exists None, s, d. simpl. rewrite app_nil_r. auto. }
    destruct (snd (span cls s)) as [|c r] eqn:Er; [now apply Hskip|].
    destruct (Ascii.eqb c letter) eqn:Ec; [|now apply Hskip].
    apply Ascii.eqb_eq in Ec. subst c.
    destruct (k (S (pos + String.length (fst (span cls s)))) r
                ((i, fst (span cls s)) :: caps)) as [m0|] eqn:Ek; [|now apply Hskip].
    inversion H; subst m0. apply Hk in Ek. destruct Ek as (d & Hd & ->).
    exists (d ++ [(i, fst (span cls s))])%list. split.
    + exists (Some (fst (span cls s))), r, d. simpl.
      repeat split; auto. now rewrite string_app_assoc.
    + now rewrite <- app_assoc.
  - intros (delta & (o & r & d & Ho & Hso & Hd & ->) & ->).
    destruct o as [w|]; simpl in *.
    + rewrite string_app_assoc in Hso. simpl in Hso. subst s.
      rewrite span_app; [|exact Ho | exact Hl]. simpl.
      rewrite Ascii.eqb_refl.
      assert (Ek : k (S (pos + String.length w)) r ((i, w) :: caps)
                   = Some (d ++ (i, w) :: caps)%list).
      { apply Hk. now exists d. }
      rewrite Ek. now rewrite <- app_assoc.
    + subst r. rewrite app_nil_r.
      assert (Hnone : match snd (span cls s) with
                      | String c r =>
                          if Ascii.eqb c letter
                          then k (S (pos + String.length (fst (span cls s)))) r
                                 ((i, fst (span cls s)) :: caps)
                          else None
                      | EmptyString => None
                      end = None).
      { specialize (Hlead s d Hd). unfold lead in Hlead.
        destruct (snd (span cls s)) as [|c r]; [reflexivity|].
        destruct (Ascii.eqb c letter) eqn:Ec; [|reflexivity].
        apply Ascii.eqb_eq in Ec. subst c. now elim Hlead. }
      rewrite Hnone. apply Hk. now exists d.
Qed.

Lemma end_denotes :
  denotes (fun pos s caps => re.run re.Eol pos s caps final) end_rel.
Proof.
  intros pos s caps m. unfold end_rel, final. simpl. split.
  - intros H. destruct s as [|c [|c' s]].
    + inversion H; subst. exists []. auto.
    + destruct (Ascii.eqb c "010") eqn:E; [|discriminate].
      apply Ascii.eqb_eq in E. subst c. inversion H; subst. exists []. auto.
    + discriminate.
  - intros (delta & ([-> | ->] & ->) & ->); reflexivity.
Qed.

Lemma lead_end_rel (cls : ascii -> bool) (s : string) (d : re.captures) :
  cls "010"%char = false -> end_rel s d -> lead_end (lead cls s) = true.
Proof.
  intros Hc ([-> | ->] & _); unfold lead; simpl; [reflexivity|].
  now rewrite Hc.
Qed.

Lemma lead_opt_rel (i : nat) (cls cls' : ascii -> bool) (letter : ascii)
      (R : string -> re.captures -> Prop) (Q : option ascii -> bool) :
  (forall s d, R s d -> Q (lead cls s) = true) ->
  cls letter = false ->
  forall s d, opt_rel i cls' letter R s d -> lead_opt cls' letter Q (lead cls s) = true.
Proof.
  intros HQ Hl s d (o & r & d' & Ho & Hs & Hd & _). unfold lead_opt.
  destruct o as [w|]; simpl in *.
  - rewrite string_app_assoc in Hs. simpl in Hs. subst s.
    destruct (lead_app cls cls' letter w r Ho Hl) as (c & Hc & Hor).
    rewrite Hc, Hor. apply orb_true_r.
  - subst r. now rewrite (HQ s d' Hd).
Qed.

Lemma lead_tail_rel (s : string) (d : re.captures) :
  tail_rel s d -> lead_tail (lead re.digit s) = true.
Proof.
  unfold lead_tail. intros [(r & -> & _) | H].
  - unfold lead. simpl. reflexivity.
  - now rewrite (lead_end_rel re.digit s d eq_refl H).
Qed.

Lemma time_denotes :
  denotes
    (fun pos s caps =>
       re.run (re.Cat (ISO8601.component 4 re.digit "H")
              (re.Cat (ISO8601.component 5 re.digit "M")
                      (ISO8601.component 6 re.digit_or_dot "S")))
              pos s caps (fun pos' s' caps' => re.run re.Eol pos' s' caps' final))
    time_rel.
Proof.
  cbn [re.run]. unfold time_rel.
  pose proof (lead_end_rel re.digit_or_dot) as L0.
  pose proof (lead_opt_rel 6 re.digit re.digit_or_dot "S" end_rel lead_end
                (fun s d => lead_end_rel re.digit s d eq_refl) eq_refl) as L6.
  pose proof (lead_opt_rel 5 re.digit re.digit "M" _ _ L6 eq_refl) as L5.
  apply opt_denotes; [reflexivity | |].
  - apply opt_denotes; [reflexivity | |].
    + apply opt_denotes; [reflexivity | exact end_denotes |].
      intros s d H E. specialize (L0 s d eq_refl H). rewrite E in L0. discriminate.
    + intros s d H E. specialize (L6 s d H). rewrite E in L6. discriminate.
  - intros s d H E. specialize (L5 s d H). rewrite E in L5. discriminate.
Qed.

Lemma tail_denotes :
  denotes
    (fun pos s caps =>
       re.run (re.Cat (re.Opt (re.Cat (re.Lit "T")
                 (re.Cat (ISO8601.component 4 re.digit "H")
                 (re.Cat (ISO8601.component 5 re.digit "M")
                         (ISO8601.component 6 re.digit_or_dot "S")))))
               re.Eol) pos s caps final)
    tail_rel.
Proof.
  intros pos s caps m.
  change (re.run (re.Cat (re.Opt (re.Cat (re.Lit "T")
                 (re.Cat (ISO8601.component 4 re.digit "H")
                 (re.Cat (ISO8601.component 5 re.digit "M")
                         (ISO8601.component 6 re.digit_or_dot "S")))))
               re.Eol) pos s caps final)
    with (match
             match s with
             | String c' s' =>
                 if Ascii.eqb c' "T"
                 then re.run (re.Cat (ISO8601.component 4 re.digit "H")
                             (re.Cat (ISO8601.component 5 re.digit "M")
                                     (ISO8601.component 6 re.digit_or_dot "S")))
                             (S pos) s' caps
                             (fun pos' s' caps' => re.run re.Eol pos' s' caps' final)
                 else None
             | EmptyString => None
             end
           with
           | Some m => Some m
           | None => re.run re.Eol pos s caps final
           end).
  unfold tail_rel. split.
  - intros H.
    assert (Hskip : re.run re.Eol pos s caps final = Some m ->
                    exists delta, ((exists r, s = String "T" r /\ time_rel r delta)
                                   \/ end_rel s delta) /\ m = (delta ++ caps)%list).
    { intros Hm. apply end_denotes in Hm. destruct Hm as (d & Hd & ->). exists d. auto. }
    destruct s as [|c s]; [now apply Hskip|].
    destruct (Ascii.eqb c "T") eqn:Ec; [|now apply Hskip].
    apply Ascii.eqb_eq in Ec. subst c.
    match type of H with
    | match ?x with _ => _ end = _ => destruct x as [m0|] eqn:Et; [|now apply Hskip]
    end.
    inversion H; subst m0. apply time_denotes in Et. destruct Et as (d & Hd & ->).
    exists d. split; [left; now exists s | reflexivity].
  - intros (delta & [(r & -> & Hr) | He] & ->).
    + rewrite Ascii.eqb_refl.
      assert (Et : re.run (re.Cat (ISO8601.component 4 re.digit "H")
                          (re.Cat (ISO8601.component 5 re.digit "M")
                                  (ISO8601.component 6 re.digit_or_dot "S")))
                          (S pos) r caps
                          (fun pos' s' caps' => re.run re.Eol pos' s' caps' final)
                   = Some (delta ++ caps)%list).
      { apply time_denotes. now exists delta. }
      now rewrite Et.
    + assert (Hs : s = "" \/ s = String "010" "") by (destruct He; assumption).
      assert (Hm : re.run re.Eol pos s caps final = Some (delta ++ caps)%list).
      { apply end_denotes. now exists delta. }
      destruct Hs as [-> | ->]; exact Hm.
Qed.

(** The pattern after [^P] accepts the texts of the date part, the time
    part and the end, and captures their numerals. *)
Lemma after_P_denotes :
  denotes (fun pos s caps => re.run after_P pos s caps final) date_rel.
Proof.
  unfold after_P. cbn [re.run]. unfold date_rel.
  pose proof (lead_opt_rel 3 re.digit re.digit "D" tail_rel lead_tail
                lead_tail_rel eq_refl) as L3.
  pose proof (lead_opt_rel 2 re.digit re.digit "M" _ _ L3 eq_refl) as L2.
  apply opt_denotes; [reflexivity | |].
  - apply opt_denotes; [reflexivity | |].
    + apply opt_denotes; [reflexivity | |].
      * intros pos s caps m. apply (tail_denotes pos s caps m).
      * intros s d H E. pose proof (lead_tail_rel s d H) as L. rewrite E in L. discriminate.
    + intros s d H E. specialize (L3 s d H). rewrite E in L3. discriminate.
  - intros s d H E. specialize (L2 s d H). rewrite E in L2. discriminate.
Qed.

(** [^] lets a match start at position 0 only. *)
Lemma search_pattern (s : string) :
  re.search ISO8601.pattern s
  = match s with
    | String c r => if Ascii.eqb c "P" then re.run after_P 1 r [] final else None
    | EmptyString => None
    end.
Proof.
  assert (Hlater : forall t n, re.search_from ISO8601.pattern (S n) t = None).
  { induction t as [|c t IH]; intros n; simpl; [reflexivity | apply IH]. }
  unfold re.search. destruct s as [|c r]; [reflexivity|].
  change (re.search_from ISO8601.pattern 0 (String c r))
    with (match (if Ascii.eqb c "P" then re.run after_P 1 r [] final else None) with
          | Some m => Some m
          | None => re.search_from ISO8601.pattern 1 r
          end).
  rewrite Hlater. now destruct (if Ascii.eqb c "P" then _ else _).
Qed.

Lemma parse_convert (s : string) :
  ISO8601.parse s
  = match re.search ISO8601.pattern s with
    | None => Raise (AssertionError "ISO8601: Duration parsing failed.")
    | Some m => convert (re.groups 6 m "0")
    end.
Proof. reflexivity. Qed.

Lemma groups_caps_of (p : Grammar.parts) :
  re.groups 6 (caps_of p) "0" = groups_of p.
Proof.
  destruct p as [[y|] [mo|] [d|] [[[[h|] [mi|]] [sec|]]|]]; reflexivity.
Qed.

(** The texts the pattern accepts after [P], by their components. *)
Lemma date_rel_parts (r : string) (delta : re.captures) :
  date_rel r delta <->
  exists p tail,
    in_classes p /\ (tail = "" \/ tail = String "010" "") /\
    String "P" r = Grammar.text_of p ++ tail /\ delta = caps_of p.
Proof.
  unfold date_rel, time_rel, tail_rel, opt_rel, end_rel. split.
  - intros (y & r1 & d1 & Hy & -> & (mo & r2 & d2 & Hmo & -> & (d & r3 & d3 & Hd & -> & Ht & ->) & ->) & ->).
    destruct Ht as [(r4 & -> & h & r5 & d5 & Hh & -> & (mi & r6 & d6 & Hmi & -> & (sec & r7 & d7 & Hsec & -> & (Htail & ->) & ->) & ->) & ->) | (Htail & ->)].
    + exists {| Grammar.years := y; Grammar.months := mo; Grammar.days := d;
                Grammar.time := Some (h, mi, sec) |}, r7.
      unfold in_classes, Grammar.text_of, caps_of, Grammar.time_text; simpl.
      repeat split; auto.
      * rewrite !string_app_assoc. simpl. now rewrite !string_app_assoc.
      * now rewrite <- !app_assoc.
    + exists {| Grammar.years := y; Grammar.months := mo; Grammar.days := d;
                Grammar.time := None |}, r3.
      unfold in_classes, Grammar.text_of, caps_of, Grammar.time_text; simpl.
      repeat split; auto.
      * rewrite !string_app_assoc. now simpl.
      * now rewrite <- !app_assoc.
  - intros ([y mo d t] & tail & Hc & Htail & Hs & ->).
    unfold in_classes, Grammar.text_of, caps_of, Grammar.time_text in *; simpl in *.
    destruct Hc as (Hy & Hmo & Hd & Ht). inversion Hs as [Hr]; clear Hs Hr.
    destruct t as [[[h mi] sec]|].
    + destruct Ht as (Hh & Hmi & Hsec).
      rewrite !string_app_assoc. simpl. rewrite !string_app_assoc.
      exists y, (Grammar.opt mo "M" ++ Grammar.opt d "D"
                 ++ String "T" (Grammar.opt h "H" ++ Grammar.opt mi "M"
                                ++ Grammar.opt sec "S" ++ tail)),
             ((cap 6 sec ++ cap 5 mi ++ cap 4 h) ++ cap 3 d ++ cap 2 mo)%list.
      split; [exact Hy|]. split; [reflexivity|]. split; [|now rewrite <- !app_assoc].
      exists mo, (Grammar.opt d "D"
                  ++ String "T" (Grammar.opt h "H" ++ Grammar.opt mi "M"
                                 ++ Grammar.opt sec "S" ++ tail)),
             ((cap 6 sec ++ cap 5 mi ++ cap 4 h) ++ cap 3 d)%list.
      split; [exact Hmo|]. split; [reflexivity|]. split; [|now rewrite <- !app_assoc].
      exists d, (String "T" (Grammar.opt h "H" ++ Grammar.opt mi "M"
                             ++ Grammar.opt sec "S" ++ tail)),
             (cap 6 sec ++ cap 5 mi ++ cap 4 h)%list.
      split; [exact Hd|]. split; [reflexivity|]. split; [|reflexivity].
      left. eexists. split; [reflexivity|].
      exists h, (Grammar.opt mi "M" ++ Grammar.opt sec "S" ++ tail),
             (cap 6 sec ++ cap 5 mi)%list.
      split; [exact Hh|]. split; [reflexivity|]. split; [|now rewrite <- !app_assoc].
      exists mi, (Grammar.opt sec "S" ++ tail), (cap 6 sec).
      split; [exact Hmi|]. split; [reflexivity|]. split; [|reflexivity].
      exists sec, tail, []. repeat split; auto.
    + rewrite !string_app_assoc. simpl.
      exists y, (Grammar.opt mo "M" ++ Grammar.opt d "D" ++ tail),
             (cap 3 d ++ cap 2 mo)%list.
      split; [exact Hy|]. split; [reflexivity|]. split; [|now rewrite <- !app_assoc].
      exists mo, (Grammar.opt d "D" ++ tail), (cap 3 d).
      split; [exact Hmo|]. split; [reflexivity|]. split; [|reflexivity].
      exists d, tail, [].
      split; [exact Hd|]. split; [reflexivity|]. split; [|reflexivity].
      right. split; [exact Htail | reflexivity].
Qed.

(** [parse], through the components of the text. *)
Lemma parse_parts (p : Grammar.parts) (tail : string) :
  in_classes p -> tail = "" \/ tail = String "010" "" ->
  ISO8601.parse (Grammar.text_of p ++ tail) = convert (groups_of p).
Proof.
  intros Hc Htail. rewrite parse_convert, search_pattern.
  change (Grammar.text_of p ++ tail)
    with (String "P" ((Grammar.opt (Grammar.years p) "Y" ++ Grammar.opt (Grammar.months p) "M"
                       ++ Grammar.opt (Grammar.days p) "D"
                       ++ Grammar.time_text (Grammar.time p)) ++ tail)).
  cbv iota.
  assert (H : re.run after_P 1
                ((Grammar.opt (Grammar.years p) "Y" ++ Grammar.opt (Grammar.months p) "M"
                  ++ Grammar.opt (Grammar.days p) "D"
                  ++ Grammar.time_text (Grammar.time p)) ++ tail) [] final
              = Some (caps_of p ++ [])%list).
  { apply after_P_denotes. exists (caps_of p). split; [|reflexivity].
    apply date_rel_parts. exists p, tail.
    split; [exact Hc|]. split; [exact Htail|]. split; reflexivity. }
  rewrite H, app_nil_r, Ascii.eqb_refl. now rewrite groups_caps_of.
Qed.

Lemma parse_inv (s : string) (r : ISO8601.t) :
  ISO8601.parse s = Ok r ->
  exists p tail,
    in_classes p /\ (tail = "" \/ tail = String "010" "") /\
    s = Grammar.text_of p ++ tail /\ convert (groups_of p) = Ok r.
Proof.
  rewrite parse_convert, search_pattern.
  destruct s as [|c s]; [discriminate|].
  destruct (Ascii.eqb c "P") eqn:Ec; [|discriminate].
  apply Ascii.eqb_eq in Ec. subst c.
  destruct (re.run after_P 1 s [] final) as [m|] eqn:Em; [|discriminate].
  apply after_P_denotes in Em. destruct Em as (delta & Hd & ->).
  apply date_rel_parts in Hd. destruct Hd as (p & tail & Hc & Htail & Hs & ->).
  rewrite app_nil_r, groups_caps_of. intros H.
  exists p, tail. auto.
Qed.

(** ** Numerals *)

Lemma uint_of_char_digit (c : ascii) (d : uint) :
  Py.is_digit c = true <-> uint_of_char c (Some d) <> None.
Proof.
  destruct c as [[] [] [] [] [] [] [] []]; vm_compute; split; intros H;
    try discriminate; try reflexivity; try (now elim H).
Qed.

Lemma uint_of_string_digits (w : string) :
  all_chars Py.is_digit w = true <-> NilEmpty.uint_of_string w <> None.
Proof.
  induction w as [|c w IH]; simpl.
  - split; [discriminate | reflexivity].
  - destruct (NilEmpty.uint_of_string w) as [d|].
    + rewrite andb_true_iff, (uint_of_char_digit c d). split.
      * now intros [H _].
      * intros H. split; [exact H|]. apply IH. discriminate.
    + split.
      * intros H. apply andb_prop in H. destruct H as [_ H].
        apply IH in H. now elim H.
      * intros H. now elim H.
Qed.

(** [int] reads exactly the integer numerals that are within the limit. *)
Lemma int_reads (w : string) :
  (exists z, Py.int w = Ok z) <-> Grammar.integer w /\ within_limit w.
Proof.
  unfold Py.int, Grammar.integer, within_limit.
  destruct (Py.max_str_digits <? Z.of_nat (String.length w))%Z eqn:E.
  - apply Z.ltb_lt in E. split; [intros (z & H); discriminate | intros (_ & H); lia].
  - apply Z.ltb_ge in E. destruct w as [|c w].
    + split; [intros (z & H); discriminate | intros [[H _] _]; now elim H].
    + pose proof (uint_of_string_digits (String c w)) as H.
      destruct (NilEmpty.uint_of_string (String c w)) as [d|].
      * split; [|now eexists]. intros _.
        split; [split; [discriminate | apply H; discriminate] | exact E].
      * split; [intros (z & Hz); discriminate|].
        intros [[_ Hd] _]. apply H in Hd. now elim Hd.
Qed.

(** Beyond the limit [int] raises, whatever the text. *)
Lemma int_beyond_limit (w : string) : ~ within_limit w -> Py.int w = Raise ValueError.
Proof.
  unfold Py.int, within_limit. intros H.
  destruct (Py.max_str_digits <? Z.of_nat (String.length w))%Z eqn:E; [reflexivity|].
  apply Z.ltb_ge in E. contradiction.
Qed.

Lemma partition_dot_spec (w : string) :
  has_char "." (fst (Py.partition_dot w)) = false /\
  ((has_char "." w = false /\ Py.partition_dot w = (w, "")) \/
   w = fst (Py.partition_dot w) ++ "." ++ snd (Py.partition_dot w)).
Proof.
  induction w as [|c w (IH1 & IH2)]; simpl.
  - split; [reflexivity | left; auto].
  - destruct (Ascii.eqb c ".") eqn:E.
    + apply Ascii.eqb_eq in E. subst c. simpl. split; [reflexivity | right; reflexivity].
    + destruct (Py.partition_dot w) as [a b]; simpl in *. rewrite E. simpl.
      split; [exact IH1|].
      destruct IH2 as [(Hno & Hab) | Hw].
      * left. inversion Hab; subst. auto.
      * right. now rewrite Hw at 1.
Qed.

Lemma partition_dot_app (a b : string) :
  all_chars Py.is_digit a = true -> Py.partition_dot (a ++ String "." b) = (a, b).
Proof.
  induction a as [|c a IH]; simpl; [reflexivity|].
  intros H. apply andb_prop in H. destruct H as [Hc Ha].
  destruct (Ascii.eqb c ".") eqn:E.
  - apply Ascii.eqb_eq in E. subst c. discriminate.
  - now rewrite (IH Ha).
Qed.

Lemma partition_dot_digits (w : string) :
  all_chars Py.is_digit w = true -> Py.partition_dot w = (w, "").
Proof.
  induction w as [|c w IH]; simpl; [reflexivity|].
  intros H. apply andb_prop in H. destruct H as [Hc Hw].
  destruct (Ascii.eqb c ".") eqn:E.
  - apply Ascii.eqb_eq in E. subst c. discriminate.
  - now rewrite (IH Hw).
Qed.

(** [float] reads exactly the decimal numerals. *)
Lemma float_reads (w : string) :
  (exists f, Py.float_of_str w = Ok f) <-> Grammar.decimal w.
Proof.
  unfold Py.float_of_str, Grammar.decimal, Grammar.integer. split.
  - intros (f & H).
    destruct (partition_dot_spec w) as (_ & Hw).
    destruct (Py.partition_dot w) as [a b]; cbn [fst snd] in *.
    destruct (a ++ b) as [|c ab] eqn:Eab; [discriminate|].
    pose proof (uint_of_string_digits (String c ab)) as Hd.
    destruct (NilEmpty.uint_of_string (String c ab)); [|discriminate].
    assert (Hdig : all_chars Py.is_digit (a ++ b) = true).
    { rewrite Eab. apply Hd. discriminate. }
    rewrite all_chars_app in Hdig. apply andb_prop in Hdig. destruct Hdig as [Ha Hb].
    destruct Hw as [(_ & Hab) | Hw].
    + inversion Hab; subst a b. left. rewrite string_app_nil_r in Eab.
      split; [rewrite Eab; discriminate | exact Ha].
    + right. exists a, b. repeat split; auto. rewrite Eab. discriminate.
  - intros [[Hne Hd] | (a & b & Ha & Hb & Hne & ->)].
    + rewrite (partition_dot_digits w Hd), string_app_nil_r.
      destruct w as [|c w]; [now elim Hne|].
      apply uint_of_string_digits in Hd.
      destruct (NilEmpty.uint_of_string (String c w)); [now eexists | now elim Hd].
    + change (a ++ "." ++ b) with (a ++ String "." b).
      rewrite (partition_dot_app a b Ha).
      assert (Hd : all_chars Py.is_digit (a ++ b) = true).
      { now rewrite all_chars_app, Ha, Hb. }
      destruct (a ++ b) as [|c ab]; [now elim Hne|].
      apply uint_of_string_digits in Hd.
      destruct (NilEmpty.uint_of_string (String c ab)); [now eexists | now elim Hd].
Qed.

Lemma int_dflt (o : option string) :
  (exists z, Py.int (dflt o) = Ok z) <->
  Grammar.every Grammar.integer o /\ Grammar.every within_limit o.
Proof.
  destruct o as [w|]; simpl; [apply int_reads|].
  split; [auto | intros _; now eexists].
Qed.

Lemma float_dflt (o : option string) :
  (exists f, Py.float_of_str (dflt o) = Ok f) <-> Grammar.every Grammar.decimal o.
Proof.
  destruct o as [w|]; simpl; [apply float_reads|].
  split; [auto | intros _; now eexists].
Qed.

(** The conversion of six groups, group by group. *)
Lemma convert_six (a1 a2 a3 a4 a5 a6 : string) (r : ISO8601.t) :
  convert [a1; a2; a3; a4; a5; a6] = Ok r <->
  exists z1 z2 z3 z4 z5 f,
    Py.int a1 = Ok z1 /\ Py.int a2 = Ok z2 /\ Py.int a3 = Ok z3 /\
    Py.int a4 = Ok z4 /\ Py.int a5 = Ok z5 /\ Py.float_of_str a6 = Ok f /\
    r = ISO8601.mk z1 z2 z3 z4 z5 (Py.PyFloat f).
Proof.
  unfold convert. simpl. split.
  - intros H.
    destruct (Py.int a1) as [z1|]; [|discriminate].
    destruct (Py.int a2) as [z2|]; [|discriminate].
    destruct (Py.int a3) as [z3|]; [|discriminate].
    destruct (Py.int a4) as [z4|]; [|discriminate].
    destruct (Py.int a5) as [z5|]; [|discriminate].
    simpl in H.
    destruct (Py.float_of_str a6) as [f|]; [|discriminate].
    simpl in H. inversion H; subst.
    exists z1, z2, z3, z4, z5, f. repeat split.
  - intros (z1 & z2 & z3 & z4 & z5 & f & H1 & H2 & H3 & H4 & H5 & H6 & ->).
    now rewrite H1, H2, H3, H4, H5, H6.
Qed.

Lemma groups_of_six (p : Grammar.parts) :
  exists h mi sec,
    groups_of p = [dflt (Grammar.years p); dflt (Grammar.months p);
                   dflt (Grammar.days p); dflt h; dflt mi; dflt sec] /\
    (Grammar.well_formed p <->
     Grammar.every Grammar.integer (Grammar.years p) /\
     Grammar.every Grammar.integer (Grammar.months p) /\
     Grammar.every Grammar.integer (Grammar.days p) /\
     Grammar.every Grammar.integer h /\ Grammar.every Grammar.integer mi /\
     Grammar.every Grammar.decimal sec) /\
    (readable p <->
     Grammar.every within_limit (Grammar.years p) /\
     Grammar.every within_limit (Grammar.months p) /\
     Grammar.every within_limit (Grammar.days p) /\
     Grammar.every within_limit h /\ Grammar.every within_limit mi) /\
    (Grammar.seconds_absent p -> sec = None).
Proof.
  unfold groups_of, Grammar.well_formed, readable, Grammar.seconds_absent.
  destruct (Grammar.time p) as [[[h mi] sec]|].
  - exists h, mi, sec. split; [reflexivity|]. split; [tauto|]. split; [tauto | auto].
  - exists None, None, None. split; [reflexivity|]. simpl.
    split; [tauto|]. split; [tauto | auto].
Qed.

(** The conversion goes through exactly for well-formed components whose
    integer numerals are within the limit. *)
Lemma convert_well_formed (p : Grammar.parts) :
  (exists r, convert (groups_of p) = Ok r) <-> Grammar.well_formed p /\ readable p.
Proof.
  destruct (groups_of_six p) as (h & mi & sec & -> & Hwf & Hrd & _). rewrite Hwf, Hrd.
  split.
  - intros (r & H). apply convert_six in H.
    destruct H as (z1 & z2 & z3 & z4 & z5 & f & H1 & H2 & H3 & H4 & H5 & H6 & _).
    assert (I1 := proj1 (int_dflt _) (ex_intro _ z1 H1)).
    assert (I2 := proj1 (int_dflt _) (ex_intro _ z2 H2)).
    assert (I3 := proj1 (int_dflt _) (ex_intro _ z3 H3)).
    assert (I4 := proj1 (int_dflt _) (ex_intro _ z4 H4)).
    assert (I5 := proj1 (int_dflt _) (ex_intro _ z5 H5)).
    assert (F6 := proj1 (float_dflt _) (ex_intro _ f H6)).
    tauto.
  - intros ((W1 & W2 & W3 & W4 & W5 & W6) & (L1 & L2 & L3 & L4 & L5)).
    destruct (proj2 (int_dflt _) (conj W1 L1)) as (z1 & H1).
    destruct (proj2 (int_dflt _) (conj W2 L2)) as (z2 & H2).
    destruct (proj2 (int_dflt _) (conj W3 L3)) as (z3 & H3).
    destruct (proj2 (int_dflt _) (conj W4 L4)) as (z4 & H4).
    destruct (proj2 (int_dflt _) (conj W5 L5)) as (z5 & H5).
    destruct (proj2 (float_dflt _) W6) as (f & H6).
    eexists. apply convert_six. exists z1, z2, z3, z4, z5, f. repeat split; auto.
Qed.

Lemma digits_in_class (w : string) :
  all_chars Py.is_digit w = true -> all_chars re.digit_or_dot w = true.
Proof.
  induction w as [|c w IH]; simpl; [reflexivity|].
  intros H. apply andb_prop in H. destruct H as [Hc Hw].
  unfold re.digit_or_dot at 1. now rewrite Hc, (IH Hw).
Qed.

Lemma well_formed_in_classes (p : Grammar.parts) :
  Grammar.well_formed p -> in_classes p.
Proof.
  assert (Hint : forall o, Grammar.every Grammar.integer o ->
                           Grammar.every (fun w => all_chars re.digit w = true) o).
  { intros [w|]; simpl; [now intros [_ H] | auto]. }
  assert (Hdec : forall o, Grammar.every Grammar.decimal o ->
                           Grammar.every (fun w => all_chars re.digit_or_dot w = true) o).
  { intros [w|]; simpl; [|auto].
    intros [[_ H] | (a & b & Ha & Hb & _ & ->)]; [now apply digits_in_class|].
    rewrite !all_chars_app. simpl.
    now rewrite (digits_in_class a Ha), (digits_in_class b Hb). }
  unfold Grammar.well_formed, in_classes.
  intros (Hy & Hmo & Hd & Ht). repeat split; auto.
  destruct (Grammar.time p) as [[[h mi] sec]|]; [|exact I].
  destruct Ht as (Hh & Hmi & Hsec). auto.
Qed.

(** ** The newline at the end *)

Lemma chomp_newline (t : string) : chomp (t ++ String "010" "") = t.
Proof.
  induction t as [|c t IH]; simpl; [reflexivity|].
  rewrite IH. destruct (t ++ String "010" "") eqn:E; [|reflexivity].
  destruct t; discriminate.
Qed.

Lemma chomp_plain (t : string) : has_char "010" t = false -> chomp t = t.
Proof.
  induction t as [|c t IH]; simpl; [reflexivity|].
  intros H. apply orb_false_elim in H. destruct H as [Hc Ht].
  destruct t as [|c' t]; [now rewrite Hc|]. now rewrite (IH Ht).
Qed.

Lemma chomp_tail (s : string) :
  exists tail, (tail = "" \/ tail = String "010" "") /\ s = chomp s ++ tail.
Proof.
  induction s as [|c s (tail & Htail & IH)].
  - exists "". auto.
  - destruct s as [|c' s].
    + simpl. destruct (Ascii.eqb c "010") eqn:E.
      * apply Ascii.eqb_eq in E. subst c. exists (String "010" ""). auto.
      * exists "". auto.
    + exists tail. split; [exact Htail|].
      change (String c (String c' s) = String c (chomp (String c' s) ++ tail)).
      now rewrite <- IH.
Qed.

Lemma class_no_newline (cls : ascii -> bool) (o : option string) (letter : string) :
  cls "010"%char = false -> has_char "010" letter = false ->
  Grammar.every (fun w => all_chars cls w = true) o ->
  has_char "010" (Grammar.opt o letter) = false.
Proof.
  intros Hc Hl. destruct o as [w|]; simpl; [|reflexivity].
  intros Hw. rewrite has_char_app, Hl, orb_false_r.
  induction w as [|c w IH]; simpl; [reflexivity|].
  simpl in Hw. apply andb_prop in Hw. destruct Hw as [Hcc Hw].
  rewrite (IH Hw), orb_false_r.
  destruct (Ascii.eqb c "010") eqn:E; [|reflexivity].
  apply Ascii.eqb_eq in E. subst c. congruence.
Qed.

(** A text of the grammar holds no newline. *)
Lemma text_of_no_newline (p : Grammar.parts) :
  in_classes p -> has_char "010" (Grammar.text_of p) = false.
Proof.
  unfold in_classes, Grammar.text_of, Grammar.time_text.
  intros (Hy & Hmo & Hd & Ht).
  pose proof (class_no_newline re.digit) as Hdig.
  pose proof (class_no_newline re.digit_or_dot) as Hdot.
  rewrite !has_char_app.
  rewrite (Hdig _ "Y" eq_refl eq_refl Hy), (Hdig _ "M" eq_refl eq_refl Hmo),
          (Hdig _ "D" eq_refl eq_refl Hd).
  destruct (Grammar.time p) as [[[h mi] sec]|]; [|reflexivity].
  destruct Ht as (Hh & Hmi & Hsec). rewrite !has_char_app.
  now rewrite (Hdig _ "H" eq_refl eq_refl Hh), (Hdig _ "M" eq_refl eq_refl Hmi),
              (Hdot _ "S" eq_refl eq_refl Hsec).
Qed.

Lemma chomp_text_of (p : Grammar.parts) (tail : string) :
  in_classes p -> tail = "" \/ tail = String "010" "" ->
  chomp (Grammar.text_of p ++ tail) = Grammar.text_of p.
Proof.
  intros Hc [-> | ->].
  - rewrite string_app_nil_r. apply chomp_plain. now apply text_of_no_newline.
  - apply chomp_newline.
Qed.

(** C6: what [parse] accepts.  [parse] returns exactly for the texts
    that, the newline that may end them set aside, follow the grammar
    [P[nY][nM][nD][T[nH][nM][n.nS]]] and whose integer numerals have no
    more than 4300 digits; when the time part or the seconds in it are
    absent, the seconds of what it returns are the float 0; a text of the
    grammar followed by a newline is read as the text itself; and a text of
    the grammar with a longer integer numeral is not read. *)
Theorem C6_parse_reads_the_grammar :
  (forall s, (exists r, ISO8601.parse s = Ok r) <->
             exists p, Grammar.well_formed p /\ readable p /\ chomp s = Grammar.text_of p) /\
  (forall s p,
     Grammar.well_formed p -> readable p -> chomp s = Grammar.text_of p ->
     Grammar.seconds_absent p ->
     exists r, ISO8601.parse s = Ok r /\ ISO8601.seconds r = Py.PyFloat zero) /\
  (forall s, Grammar.duration s ->
     ISO8601.parse (s ++ PeriodConcatNode.newline) = ISO8601.parse s /\
     ~ Grammar.duration (s ++ PeriodConcatNode.newline)) /\
  (forall p r, Grammar.well_formed p -> ~ readable p ->
     ISO8601.parse (Grammar.text_of p) <> Ok r).
Proof.
  split; [|split; [|split]].
  - intros s. split.
    + intros (r & H). apply parse_inv in H.
      destruct H as (p & tail & Hc & Htail & -> & Hconv).
      destruct (proj1 (convert_well_formed p) (ex_intro _ r Hconv)) as (Hwf & Hrd).
      exists p. split; [exact Hwf|]. split; [exact Hrd|].
      now apply chomp_text_of.
    + intros (p & Hwf & Hrd & Hs).
      destruct (chomp_tail s) as (tail & Htail & Hst). rewrite Hs in Hst. rewrite Hst.
      rewrite (parse_parts p tail (well_formed_in_classes p Hwf) Htail).
      apply convert_well_formed. now split.
  - intros s p Hwf Hrd Hs Habs.
    destruct (chomp_tail s) as (tail & Htail & Hst). rewrite Hs in Hst. rewrite Hst.
    rewrite (parse_parts p tail (well_formed_in_classes p Hwf) Htail).
    destruct (proj2 (convert_well_formed p) (conj Hwf Hrd)) as (r & Hr).
    exists r. split; [exact Hr|].
    destruct (groups_of_six p) as (h & mi & sec & Hg & _ & _ & Hsec).
    rewrite Hg, (Hsec Habs) in Hr. apply convert_six in Hr.
    destruct Hr as (z1 & z2 & z3 & z4 & z5 & f & _ & _ & _ & _ & _ & Hf & ->).
    simpl in Hf. vm_compute in Hf. inversion Hf; subst f. reflexivity.
  - intros s (p & Hwf & ->). unfold PeriodConcatNode.newline.
    pose proof (well_formed_in_classes p Hwf) as Hc. split.
    + rewrite (parse_parts p _ Hc (or_intror eq_refl)).
      rewrite <- (string_app_nil_r (Grammar.text_of p)) at 1.
      now rewrite (parse_parts p "" Hc (or_introl eq_refl)).
    + intros (p' & Hwf' & Hs).
      pose proof (text_of_no_newline p' (well_formed_in_classes p' Hwf')) as H.
      rewrite <- Hs, has_char_app in H. simpl in H. rewrite orb_true_r in H. discriminate.
  - intros p r Hwf Hrd H.
    rewrite <- (string_app_nil_r (Grammar.text_of p)) in H.
    rewrite (parse_parts p "" (well_formed_in_classes p Hwf) (or_introl eq_refl)) in H.
    apply Hrd. exact (proj2 (proj1 (convert_well_formed p) (ex_intro _ r H))).
Qed.

(** The hypotheses of C6 hold for the text [P1Y2M], which has no time
    part and which [parse] reads with or without a newline after it, and
    [PT10S] follows the grammar since [parse] reads it. *)
Lemma C6_parse_witness :
  (exists r, ISO8601.parse "P1Y2M" = Ok r /\ ISO8601.seconds r = Py.PyFloat zero) /\
  ISO8601.parse ("P1Y2M" ++ PeriodConcatNode.newline) = ISO8601.parse "P1Y2M" /\
  exists p, Grammar.well_formed p /\ readable p /\ chomp "PT10S" = Grammar.text_of p.
Proof.
  destruct C6_parse_reads_the_grammar as (Hiff & Habsent & Hnewline & _).
  assert (Hwf : Grammar.well_formed
                  {| Grammar.years := Some "1"; Grammar.months := Some "2";
                     Grammar.days := None; Grammar.time := None |}).
  { repeat split; discriminate. }
  split; [|split].
  - apply (Habsent "P1Y2M"
             {| Grammar.years := Some "1"; Grammar.months := Some "2";
                Grammar.days := None; Grammar.time := None |}).
    + exact Hwf.
    + unfold readable, within_limit; simpl. repeat split; discriminate.
    + reflexivity.
    + exact I.
  - apply Hnewline. eexists. split; [exact Hwf | reflexivity].
  - apply Hiff. eexists. vm_compute. reflexivity.
Defined.

(** C6: the code at a failing input.  The pattern ends with [$], which
    also matches before a newline at the end of the text, so that [parse]
    reads one year in [P1Y] followed by a newline, a text that is not of the
    grammar. *)
Lemma C6_trailing_newline_accepted :
  ISO8601.parse (String "P" (String "1" (String "Y" (String "010" ""))))
  = Ok (ISO8601.mk 1 0 0 0 0 (Py.PyFloat zero)) /\
  ~ Grammar.duration (String "P" (String "1" (String "Y" (String "010" "")))).
Proof.
  split; [vm_compute; reflexivity|].
  intros (p & Hwf & Hs).
  pose proof (text_of_no_newline p (well_formed_in_classes p Hwf)) as H.
  rewrite <- Hs in H. discriminate.
Qed.

(** ** Round trip *)

Lemma str_int_of_uint (u : uint) :
  Py.str_int (Z.of_uint u) = NilEmpty.string_of_uint (unorm u).
Proof.
  unfold Py.str_int.
  change (Z.of_uint u) with (Z.of_int (Pos u)).
  now rewrite DecimalZ.to_of.
Qed.

Lemma string_of_uint_inj (u v : uint) :
  NilEmpty.string_of_uint u = NilEmpty.string_of_uint v -> u = v.
Proof.
  intros H. pose proof (NilEmpty.usu u) as Hu. rewrite H, NilEmpty.usu in Hu.
  now inversion Hu.
Qed.

Lemma string_of_uint_length (u : uint) :
  String.length (NilEmpty.string_of_uint u) = nb_digits u.
Proof. induction u; simpl; congruence. Qed.

Lemma of_uint_nonneg (u : uint) : (0 <= Z.of_uint u)%Z.
Proof. unfold Z.of_uint. apply N2Z.is_nonneg. Qed.

Lemma unorm_D0_fixed (u : uint) : unorm (D0 u) = D0 u -> u = Nil.
Proof.
  intros H. destruct (uint_eq_dec u Nil) as [E|E]; [exact E|].
  exfalso. rewrite DecimalFacts.unorm_D0 in H.
  pose proof (DecimalFacts.nb_digits_unorm u E) as Hn. rewrite H in Hn. simpl in Hn. lia.
Qed.

(** What [int] returns, read backwards: the text is within the limit, is
    not empty, and is a numeral of the value. *)
Lemma int_inv (t : string) (z : Z) :
  Py.int t = Ok z <->
  within_limit t /\ t <> "" /\
  exists u, NilEmpty.uint_of_string t = Some u /\ z = Z.of_uint u.
Proof.
  unfold Py.int, within_limit.
  destruct (Py.max_str_digits <? Z.of_nat (String.length t))%Z eqn:E.
  - apply Z.ltb_lt in E. split; [discriminate | intros (H & _); lia].
  - apply Z.ltb_ge in E. destruct t as [|c t].
    + split; [discriminate | intros (_ & H & _); now elim H].
    + destruct (NilEmpty.uint_of_string (String c t)) as [u|].
      * split.
        -- intros H. inversion H. split; [exact E|]. split; [discriminate|]. now exists u.
        -- intros (_ & _ & u' & Hu & ->). now inversion Hu.
      * split; [discriminate | intros (_ & _ & u' & Hu & _); discriminate].
Qed.

Lemma int_value (t : string) (z : Z) :
  Py.int t = Ok z ->
  exists u, NilEmpty.string_of_uint u = t /\ z = Z.of_uint u /\
            all_chars Py.is_digit (Py.str_int z) = true.
Proof.
  intros H. apply int_inv in H. destruct H as (_ & _ & u & Eu & ->). exists u.
  split; [now apply NilEmpty.sus|]. split; [reflexivity|].
  rewrite str_int_of_uint. apply uint_of_string_digits.
  rewrite NilEmpty.usu. discriminate.
Qed.

(** What [int] reads, [str] prints: the numeral of the value is not longer
    than the text it was read from. *)
Lemma int_printable (t : string) (z : Z) :
  Py.int t = Ok z -> Py.format_int z = Ok (Py.str_int z).
Proof.
  intros H. apply int_inv in H. destruct H as (Hlim & Hne & u & Eu & ->).
  apply NilEmpty.sus in Eu.
  assert (Hu : u <> Nil).
  { intros ->. apply Hne. now rewrite <- Eu. }
  unfold Py.format_int, Py.digits.
  rewrite Z.abs_eq by apply of_uint_nonneg.
  rewrite str_int_of_uint, string_of_uint_length.
  pose proof (DecimalFacts.nb_digits_unorm u Hu) as Hn.
  unfold within_limit in Hlim. rewrite <- Eu, string_of_uint_length in Hlim.
  destruct (Py.max_str_digits <? Z.of_nat (nb_digits (unorm u)))%Z eqn:E; [|reflexivity].
  apply Z.ltb_lt in E. lia.
Qed.

(** The integer numerals [str] and [int] agree on are those without a
    zero in front that are within the limit. *)
Lemma printed_int_iff (t : string) :
  printed_int t <-> no_leading_zero t /\ within_limit t.
Proof.
  unfold printed_int, no_leading_zero. split.
  - intros (z & Hz & Hs).
    destruct (proj1 (int_reads t) (ex_intro _ z Hz)) as (Hi & Hlim).
    split; [|exact Hlim]. split; [exact Hi|].
    apply int_inv in Hz. destruct Hz as (_ & _ & u & Eu & ->).
    apply NilEmpty.sus in Eu. rewrite str_int_of_uint, <- Eu in Hs.
    apply string_of_uint_inj in Hs.
    destruct u as [|u|u|u|u|u|u|u|u|u|u]; simpl in Eu; subst t;
      try (right; reflexivity).
    apply unorm_D0_fixed in Hs. subst u. now left.
  - intros (((Hne & Hd) & Hz) & Hlim).
    destruct (proj2 (int_reads t) (conj (conj Hne Hd) Hlim)) as (z & Hint).
    exists z. split; [exact Hint|].
    apply int_inv in Hint. destruct Hint as (_ & _ & u & Eu & ->).
    apply NilEmpty.sus in Eu. rewrite str_int_of_uint, <- Eu.
    destruct Hz as [Hz | Hz].
    + rewrite <- Eu in Hz.
      change "0" with (NilEmpty.string_of_uint (D0 Nil)) in Hz.
      apply string_of_uint_inj in Hz. now subst u.
    + rewrite <- Eu in Hz.
      destruct u as [|u|u|u|u|u|u|u|u|u|u]; simpl in Hz; try discriminate;
        try reflexivity.
      exfalso. apply Hne. now rewrite <- Eu.
Qed.

Lemma app_letter_inj (cls : ascii -> bool) (letter : ascii) (a a' r r' : string) :
  cls letter = false -> all_chars cls a = true -> all_chars cls a' = true ->
  a ++ String letter r = a' ++ String letter r' -> a = a' /\ r = r'.
Proof.
  intros Hl Ha Ha' H.
  pose proof (span_app cls a (String letter r) Ha Hl) as E.
  rewrite H, (span_app cls a' (String letter r') Ha' Hl) in E.
  inversion E; subst. auto.
Qed.

Lemma app_last_inj (x : ascii) (a b : string) :
  a ++ String x "" = b ++ String x "" -> a = b.
Proof.
  revert b. induction a as [|c a IH]; intros [|c' b] H; simpl in H.
  - reflexivity.
  - inversion H as [[Hc Hb]]. destruct b; discriminate.
  - inversion H as [[Hc Ha]]. destruct a; discriminate.
  - inversion H as [[Hc Hab]]. now rewrite (IH b Hab).
Qed.

(** What [__str__] returns for a duration whose fields [int] and [float]
    have read. *)
Lemma str_of_read (ty tmo td th tmi : string) (zy zmo zd zh zmi : Z) (f : Py.float) :
  Py.int ty = Ok zy -> Py.int tmo = Ok zmo -> Py.int td = Ok zd ->
  Py.int th = Ok zh -> Py.int tmi = Ok zmi ->
  ISO8601.__str__ (ISO8601.mk zy zmo zd zh zmi (Py.PyFloat f))
  = Ok ("P" ++ Py.str_int zy ++ "Y" ++ Py.str_int zmo ++ "M" ++ Py.str_int zd ++ "DT"
        ++ Py.str_int zh ++ "H" ++ Py.str_int zmi ++ "M" ++ Py.float_repr f ++ "S").
Proof.
  intros Iy Imo Id Ih Imi. unfold ISO8601.__str__.
  cbn [ISO8601.years ISO8601.months ISO8601.days ISO8601.hours ISO8601.minutes
       ISO8601.seconds Py.str].
  rewrite (int_printable _ _ Iy), (int_printable _ _ Imo), (int_printable _ _ Id),
          (int_printable _ _ Ih), (int_printable _ _ Imi).
  reflexivity.
Qed.


(** C4, as amended.  For a text in canonical form, formatting what
    [parse] returns gives the text back exactly when its five integer
    components have no zero in front and no more than 4300 digits, and its
    seconds are spelled the way Python prints the float they denote
    ([10.0], not [10]). *)
Theorem C4_round_trip_of_printed_form (y mo d h mi sec : string) :
  Grammar.well_formed (Grammar.canonical y mo d h mi sec) ->
  ((r <- ISO8601.parse (Grammar.text_of (Grammar.canonical y mo d h mi sec)) ;;
    ISO8601.__str__ r)
   = Ok (Grammar.text_of (Grammar.canonical y mo d h mi sec))
   <->
   (no_leading_zero y /\ within_limit y) /\ (no_leading_zero mo /\ within_limit mo) /\
   (no_leading_zero d /\ within_limit d) /\ (no_leading_zero h /\ within_limit h) /\
   (no_leading_zero mi /\ within_limit mi) /\ printed_float sec).
Proof.
  intros Hwf. rewrite <- !printed_int_iff.
  rewrite <- (string_app_nil_r (Grammar.text_of (Grammar.canonical y mo d h mi sec))) at 1.
  rewrite (parse_parts _ "" (well_formed_in_classes _ Hwf) (or_introl eq_refl)).
  change (groups_of (Grammar.canonical y mo d h mi sec)) with [y; mo; d; h; mi; sec].
  destruct Hwf as ((_ & Cy) & (_ & Cmo) & (_ & Cd) & (_ & Ch) & (_ & Cmi) & _).
  unfold Grammar.text_of, Grammar.canonical, Grammar.time_text, Grammar.opt. simpl.
  repeat (rewrite ?string_app_assoc; simpl).
  split.
  - intros H. invert_bind H as r Hr. apply convert_six in Hr.
    destruct Hr as (zy & zmo & zd & zh & zmi & f & Iy & Imo & Id & Ih & Imi & Ff & ->).
    destruct (int_value _ _ Iy) as (_ & _ & _ & Dy).
    destruct (int_value _ _ Imo) as (_ & _ & _ & Dmo).
    destruct (int_value _ _ Id) as (_ & _ & _ & Dd).
    destruct (int_value _ _ Ih) as (_ & _ & _ & Dh).
    destruct (int_value _ _ Imi) as (_ & _ & _ & Dmi).
    rewrite (str_of_read _ _ _ _ _ _ _ _ _ _ f Iy Imo Id Ih Imi) in H.
    inversion H as [H0]; clear H. simpl in H0.
    repeat (rewrite ?string_app_assoc in H0; simpl in H0).
    apply (app_letter_inj Py.is_digit "Y") in H0; auto. destruct H0 as (Sy & H0).
    apply (app_letter_inj Py.is_digit "M") in H0; auto. destruct H0 as (Smo & H0).
    apply (app_letter_inj Py.is_digit "D") in H0; auto. destruct H0 as (Sd & H0).
    inversion H0 as [H1]; clear H0.
    apply (app_letter_inj Py.is_digit "H") in H1; auto. destruct H1 as (Sh & H1).
    apply (app_letter_inj Py.is_digit "M") in H1; auto. destruct H1 as (Smi & H1).
    apply app_last_inj in H1.
    repeat split; try (eexists; split; eassumption).
  - intros ((zy & Iy & Sy) & (zmo & Imo & Smo) & (zd & Id & Sd) & (zh & Ih & Sh)
            & (zmi & Imi & Smi) & (f & Ff & Sf)).
    rewrite (proj2 (convert_six y mo d h mi sec _)
               (ex_intro _ zy (ex_intro _ zmo (ex_intro _ zd (ex_intro _ zh
                  (ex_intro _ zmi (ex_intro _ f
                     (conj Iy (conj Imo (conj Id (conj Ih (conj Imi (conj Ff eq_refl))))))))))))).
    cbn [bind]. rewrite (str_of_read _ _ _ _ _ _ _ _ _ _ f Iy Imo Id Ih Imi).
    rewrite Sy, Smo, Sd, Sh, Smi, Sf. reflexivity.
Qed.

(** The hypotheses of C4 hold for the text [P1Y2M3DT4H5M10.0S]. *)
Lemma C4_round_trip_witness :
  (r <- ISO8601.parse "P1Y2M3DT4H5M10.0S" ;; ISO8601.__str__ r)
  = Ok "P1Y2M3DT4H5M10.0S".
Proof.
  assert (Hint : forall t, t <> "" -> all_chars Py.is_digit t = true ->
                           Py.startswith t "0" = false ->
                           (Z.of_nat (String.length t) <= 4300)%Z ->
                           no_leading_zero t /\ within_limit t).
  { intros t H1 H2 H3 H4. split; [split; [now split | now right] | exact H4]. }
  apply (C4_round_trip_of_printed_form "1" "2" "3" "4" "5" "10.0").
  - unfold Grammar.well_formed; simpl.
    repeat split; try discriminate.
    right. exists "10", "0". repeat split; discriminate.
  - repeat split;
      try (apply Hint; [discriminate | reflexivity | reflexivity | discriminate]);
      try (apply Hint; [discriminate | reflexivity | reflexivity | discriminate]).
    exists ten. split; vm_compute; reflexivity.
Defined.

(** C4, as stated, fails at the canonical text of ten seconds, whose
    seconds come back as a float, at a canonical text with a zero in front
    of an integer, which is not printed, and at a canonical text with an
    integer of 4301 digits, which [parse] does not read. *)
Lemma C4_round_trip_alters_numerals :
  Grammar.well_formed (Grammar.canonical "0" "0" "0" "0" "0" "10") /\
  Grammar.text_of (Grammar.canonical "0" "0" "0" "0" "0" "10") = "P0Y0M0DT0H0M10S" /\
  (r <- ISO8601.parse "P0Y0M0DT0H0M10S" ;; ISO8601.__str__ r)
  = Ok "P0Y0M0DT0H0M10.0S" /\
  (r <- ISO8601.parse "P0Y0M0DT0H0M10S" ;; ISO8601.__str__ r)
  <> Ok "P0Y0M0DT0H0M10S" /\
  Grammar.well_formed (Grammar.canonical "01" "0" "0" "0" "0" "1.50") /\
  (r <- ISO8601.parse "P01Y0M0DT0H0M1.50S" ;; ISO8601.__str__ r)
  = Ok "P1Y0M0DT0H0M1.5S" /\
  Grammar.well_formed
    (Grammar.canonical (Py.repeat_char "1" 4301) "0" "0" "0" "0" "0.0") /\
  ISO8601.parse
    (Grammar.text_of (Grammar.canonical (Py.repeat_char "1" 4301) "0" "0" "0" "0" "0.0"))
  = Raise ValueError.
Proof.
  assert (Hint : forall t, t <> "" -> all_chars Py.is_digit t = true -> Grammar.integer t).
  { intros t H1 H2. now split. }
  split.
  { unfold Grammar.well_formed; simpl.
    repeat split; try discriminate. left. split; [discriminate | reflexivity]. }
  split; [reflexivity|].
  split; [vm_compute; reflexivity|].
  split; [vm_compute; discriminate|].
  split.
  { unfold Grammar.well_formed; simpl.
    repeat split; try discriminate.
    right. exists "1", "50". repeat split; discriminate. }
  split; [vm_compute; reflexivity|].
  split; [|vm_compute; reflexivity].
  unfold Grammar.well_formed; simpl.
  split; [split; [discriminate | vm_compute; reflexivity]|].
  repeat split; try discriminate.
  right. exists "0", "0". repeat split; discriminate.
Qed.

(** ** How floats are printed: points and exponents *)


















(* ================================================================== *)

(** * Part III.  Further properties of the code *)
(* ================================================================== *)

(** ** Integers and messages *)

(** Two integers with the same numeral are the same. *)
Lemma str_int_inj (a b : Z) : Py.str_int a = Py.str_int b -> a = b.
Proof.
  unfold Py.str_int. intros H. apply DecimalZ.to_int_inj.
  pose proof (NilEmpty.isi (Z.to_int a)) as Ha.
  rewrite H, NilEmpty.isi in Ha. now inversion Ha.
Qed.

Lemma string_app_inv_head (p s t : string) : p ++ s = p ++ t -> s = t.
Proof. induction p as [|c p IH]; simpl; intros H; [exact H | inversion H; auto]. Qed.

Lemma string_app_inv_tail (s s' t : string) : s ++ t = s' ++ t -> s = s'.
Proof.
  intros H.
  assert (Hlen : String.length s = String.length s').
  { apply (f_equal String.length) in H. rewrite !string_app_length in H. lia. }
  revert s' H Hlen. induction s as [|c s IH]; intros [|c' s'] H Hlen; try discriminate.
  - reflexivity.
  - simpl in H, Hlen. inversion H; subst. f_equal. apply IH; [assumption | lia].
Qed.

(** The message of the error tells the jobs apart. *)
Lemma errored_message_inj (j k : nat) : errored_message j = errored_message k -> j = k.
Proof.
  unfold errored_message. intros H.
  apply string_app_inv_head, string_app_inv_tail, str_int_inj in H. lia.
Qed.

(** ** The constructor *)

(** The loop of [__init__] appends to what the lists hold. *)
Lemma init_fold {Input TranscoderNode : Type} (_inputs : TranscoderNode -> list Input)
      (all_nodes : list (Pipeline.NodeBase TranscoderNode)) (self : Pipeline.instance Input TranscoderNode) :
  let self' := fold_left (Pipeline.collect _inputs) all_nodes self in
  PeriodConcatNode._packager_nodes (Pipeline.fields self')
  = (PeriodConcatNode._packager_nodes (Pipeline.fields self) ++ Pipeline.packagers all_nodes)%list /\
  Pipeline._transcoder_nodes self'
  = (Pipeline._transcoder_nodes self ++ Pipeline.transcoders all_nodes)%list /\
  Pipeline._period_inputs_list self'
  = (Pipeline._period_inputs_list self ++ map _inputs (Pipeline.transcoders all_nodes))%list /\
  PeriodConcatNode._pipeline_config (Pipeline.fields self')
  = PeriodConcatNode._pipeline_config (Pipeline.fields self) /\
  PeriodConcatNode._output_dir (Pipeline.fields self')
  = PeriodConcatNode._output_dir (Pipeline.fields self) /\
  PeriodConcatNode._status (Pipeline.fields self')
  = PeriodConcatNode._status (Pipeline.fields self).
Proof.
  revert self. induction all_nodes as [|node all_nodes IH]; intros self; simpl.
  - rewrite !app_nil_r. repeat split.
  - destruct (IH (Pipeline.collect _inputs self node)) as (Hp & Ht & Hi & Hc & Ho & Hs).
    rewrite Hp, Ht, Hi, Hc, Ho, Hs.
    destruct node as [n|n|]; simpl; rewrite <- ?app_assoc; repeat split.
Qed.

(** X1.  [__init__] keeps, of the nodes of the pipeline, the packager
    nodes and the transcoder nodes, each kind in the order of the pipeline,
    and drops the others; the inputs it lists are those of the transcoder
    nodes, index for index; the configuration and the output directory are
    stored as given. *)
Theorem init_keeps_pipeline_order {Input TranscoderNode : Type}
        (_inputs : TranscoderNode -> list Input) (status : ProcessStatus)
        (config : PipelineConfig) (all_nodes : list (Pipeline.NodeBase TranscoderNode))
        (outpud_dir : string) :
  let self := Pipeline.__init__ _inputs status config all_nodes outpud_dir in
  PeriodConcatNode._packager_nodes (Pipeline.fields self) = Pipeline.packagers all_nodes /\
  Pipeline._transcoder_nodes self = Pipeline.transcoders all_nodes /\
  Pipeline._period_inputs_list self = map _inputs (Pipeline._transcoder_nodes self) /\
  PeriodConcatNode._pipeline_config (Pipeline.fields self) = config /\
  PeriodConcatNode._output_dir (Pipeline.fields self) = outpud_dir /\
  PeriodConcatNode._status (Pipeline.fields self) = status.
Proof.
  intros self. subst self. unfold Pipeline.__init__.
  match goal with
  | |- context [fold_left _ _ ?s] =>
      destruct (init_fold _inputs all_nodes s) as (Hp & Ht & Hi & Hc & Ho & Hs)
  end.
  cbv zeta in *. simpl in Hp, Ht, Hi, Hc, Ho, Hs.
  split; [exact Hp|]. split; [exact Ht|]. split; [now rewrite Hi, Ht|].
  split; [exact Hc|]. split; [exact Ho | exact Hs].
Qed.

(** X2.  A node built from a pipeline without any packager node has no
    job to wait for: its first pass goes straight to the merge, which
    raises [IndexError] when DASH is asked for, nothing being written and
    the status staying as it was; without DASH nor HLS the pass sets the
    status to [Finished] at once. *)
Theorem pipeline_without_packager {Input TranscoderNode : Type}
        (_inputs : TranscoderNode -> list Input) (status : ProcessStatus)
        (config : PipelineConfig) (all_nodes : list (Pipeline.NodeBase TranscoderNode))
        (outpud_dir : string) (w : World) :
  Pipeline.packagers all_nodes = [] ->
  let self := Pipeline.fields (Pipeline.__init__ _inputs status config all_nodes outpud_dir) in
  (PeriodConcatNode.contains DASH (manifest_format config) = true ->
   PeriodConcatNode._thread_single_pass self w
   = {| PeriodConcatNode.status_after := status;
        PeriodConcatNode.written := [];
        PeriodConcatNode.raised := Some IndexError |}) /\
  (PeriodConcatNode.contains DASH (manifest_format config) = false ->
   PeriodConcatNode.contains HLS (manifest_format config) = false ->
   PeriodConcatNode._thread_single_pass self w
   = {| PeriodConcatNode.status_after := Finished;
        PeriodConcatNode.written := [];
        PeriodConcatNode.raised := None |}).
Proof.
  intros Hnone self. subst self. unfold Pipeline.__init__.
  match goal with
  | |- context [fold_left _ _ ?s] =>
      destruct (init_fold _inputs all_nodes s) as (Hp & _ & _ & Hc & _ & Hs)
  end.
  cbv zeta in Hp, Hc, Hs. simpl in Hp, Hc, Hs. rewrite Hnone in Hp.
  unfold PeriodConcatNode._thread_single_pass, PeriodConcatNode._dash_concat.
  rewrite Hp, Hc, Hs. simpl. split.
  - intros H. now rewrite H.
  - intros H1 H2. now rewrite H1, H2.
Qed.

(** The hypothesis of X2 holds for a pipeline of a transcoder node and a
    node of another kind. *)
Lemma pipeline_without_packager_witness :
  PeriodConcatNode._thread_single_pass
    (Pipeline.fields
       (Pipeline.__init__ (fun name : string => [name]) Running (Sample.config VOD)
          [Pipeline.Transcoder "transcoder"; Pipeline.OtherNode] "out"))
    (Sample.world10 "PT10S")
  = {| PeriodConcatNode.status_after := Running;
       PeriodConcatNode.written := [];
       PeriodConcatNode.raised := Some IndexError |}.
Proof.
  exact (proj1 (pipeline_without_packager (fun name : string => [name]) Running
                  (Sample.config VOD) [Pipeline.Transcoder "transcoder"; Pipeline.OtherNode]
                  "out" (Sample.world10 "PT10S") eq_refl) eq_refl).
Defined.


(** ** The pass, by what the jobs report *)

Lemma watch_finished (nodes : list PackagerNode) (i : nat) :
  PeriodConcatNode.watch i nodes = Ok true <->
  Forall (fun node => check_status node = Finished) nodes.
Proof.
  revert i. induction nodes as [|n nodes IH]; intros i; simpl.
  - split; [constructor | reflexivity].
  - destruct (check_status n) eqn:Hn.
    + rewrite IH. split; [now constructor | now inversion 1].
    + split; [discriminate | inversion 1; congruence].
    + split; [discriminate | inversion 1; congruence].
Qed.

(** The first job that does not report [Finished], if there is one. *)
Lemma first_unfinished (l : list ProcessStatus) :
  Forall (fun s => s = Finished) l \/
  exists k s, nth_error l k = Some s /\ s <> Finished /\ finished_before l k.
Proof.
  induction l as [|s l IH].
  - left. constructor.
  - destruct s.
    + destruct IH as [IH|(k & s & Hk & Hs & Hb)].
      * left. now constructor.
      * right. exists (S k), s. split; [exact Hk|]. split; [exact Hs|].
        intros [|j] Hj; [reflexivity|]. apply Hb. lia.
    + right. exists 0%nat, Running. split; [reflexivity|]. split; [discriminate|].
      intros j Hj. lia.
    + right. exists 0%nat, Errored. split; [reflexivity|]. split; [discriminate|].
      intros j Hj. lia.
Qed.

Lemma finished_before_unique (l : list ProcessStatus) (j k : nat) (s t : ProcessStatus) :
  nth_error l j = Some s -> s <> Finished -> finished_before l j ->
  nth_error l k = Some t -> t <> Finished -> finished_before l k -> j = k.
Proof.
  intros Hj Hs Hbj Hk Ht Hbk.
  destruct (Nat.lt_trichotomy j k) as [H|[H|H]]; [|exact H|].
  - specialize (Hbk j H). congruence.
  - specialize (Hbj k H). congruence.
Qed.

(** X3.  The loop of the pass over the jobs is decided by the first job
    that does not report [Finished]: it runs to its end, and the pass goes
    on to the merge, exactly when every job reports [Finished]; it returns
    from the pass exactly when that first job reports [Running]; and it
    raises exactly when that first job reports [Errored], the error then
    naming its index, and the messages of two jobs differ. *)
Theorem watch_first_unfinished_job (nodes : list PackagerNode) :
  (PeriodConcatNode.watch 0 nodes = Ok true <->
   Forall (fun node => check_status node = Finished) nodes) /\
  (PeriodConcatNode.watch 0 nodes = Ok false <->
   exists k, nth_error (map check_status nodes) k = Some Running /\
             finished_before (map check_status nodes) k) /\
  (forall e, PeriodConcatNode.watch 0 nodes = Raise e <->
   exists k, nth_error (map check_status nodes) k = Some Errored /\
             finished_before (map check_status nodes) k /\
             e = RuntimeError (errored_message k)) /\
  (forall j k, errored_message j = errored_message k -> j = k).
Proof.
  split; [apply watch_finished|].
  match goal with |- ?A /\ ?B /\ _ => assert (Hrest : A /\ B) end.
  {
    destruct (first_unfinished (map check_status nodes)) as [Hall|(k & s & Hk & Hs & Hb)].
    - assert (Hw : PeriodConcatNode.watch 0 nodes = Ok true).
      { apply watch_finished. rewrite Forall_map in Hall. exact Hall. }
      assert (Hno : forall k s, nth_error (map check_status nodes) k = Some s -> s = Finished).
      { intros k s Hk. rewrite Forall_forall in Hall. apply Hall.
        now apply nth_error_In in Hk. }
      rewrite Hw. split.
      + split; [discriminate|]. intros (k & Hk & _). apply Hno in Hk. discriminate.
      + intros e. split; [discriminate|]. intros (k & Hk & _). apply Hno in Hk. discriminate.
    - destruct s; [now elim Hs| |].
      + rewrite (watch_running nodes k 0 Hk Hb). split.
        * split; [intros _; now exists k | reflexivity].
        * intros e. split; [discriminate|]. intros (j & Hj & Hbj & _).
          assert (j = k) by (eapply finished_before_unique; eauto; discriminate).
          subst j. congruence.
      + rewrite (watch_errored nodes k 0 Hk Hb). simpl. split.
        * split; [discriminate|]. intros (j & Hj & Hbj).
          assert (j = k) by (eapply finished_before_unique; eauto; discriminate).
          subst j. congruence.
        * intros e. split.
          -- intros H. inversion H; subst. now exists k.
          -- intros (j & Hj & Hbj & ->).
             assert (j = k) by (eapply finished_before_unique; eauto; discriminate).
             now subst j. }
  destruct Hrest as [Hidle Hraise].
  split; [exact Hidle|]. split; [exact Hraise | exact errored_message_inj].
Qed.

(** A pass that has gone through the loop over the jobs: what it leaves,
    by what the merge, the writing and the import do. *)
Lemma pass_after_watch (self : PeriodConcatNode.t) (w : World) :
  all_finished self ->
  let formats := manifest_format (PeriodConcatNode._pipeline_config self) in
  let stop ws e := {| PeriodConcatNode.status_after := PeriodConcatNode._status self;
                      PeriodConcatNode.written := ws;
                      PeriodConcatNode.raised := Some e |} in
  let hls ws :=
    if PeriodConcatNode.contains HLS formats && negb (m3u8_installed w)
    then stop ws (ModuleNotFoundError "m3u8")
    else {| PeriodConcatNode.status_after := Finished;
            PeriodConcatNode.written := ws;
            PeriodConcatNode.raised := None |} in
  PeriodConcatNode._thread_single_pass self w
  = if PeriodConcatNode.contains DASH formats
    then match PeriodConcatNode._dash_concat self w with
         | Raise e => stop [] e
         | Ok f => match write_error w (PeriodConcatNode.file_path f) with
                   | Some e => stop [] e
                   | None => hls [f]
                   end
         end
    else hls [].
Proof.
  intros Hall formats stop hls. subst formats stop hls. cbv beta.
  apply (watch_finished _ 0) in Hall.
  unfold PeriodConcatNode._thread_single_pass, PeriodConcatNode._hls_concat,
    PeriodConcatNode.write.
  rewrite Hall.
  assert (Hhls : forall ws,
             match (if PeriodConcatNode.contains HLS
                         (manifest_format (PeriodConcatNode._pipeline_config self))
                    then if m3u8_installed w then Ok tt
                         else Raise (ModuleNotFoundError "m3u8")
                    else Ok tt) with
             | Ok _ => {| PeriodConcatNode.status_after := Finished;
                          PeriodConcatNode.written := ws;
                          PeriodConcatNode.raised := None |}
             | Raise e => {| PeriodConcatNode.status_after := PeriodConcatNode._status self;
                             PeriodConcatNode.written := ws;
                             PeriodConcatNode.raised := Some e |}
             end
             = if PeriodConcatNode.contains HLS
                    (manifest_format (PeriodConcatNode._pipeline_config self))
                  && negb (m3u8_installed w)
               then {| PeriodConcatNode.status_after := PeriodConcatNode._status self;
                       PeriodConcatNode.written := ws;
                       PeriodConcatNode.raised := Some (ModuleNotFoundError "m3u8") |}
               else {| PeriodConcatNode.status_after := Finished;
                       PeriodConcatNode.written := ws;
                       PeriodConcatNode.raised := None |}).
  { intros ws. destruct (PeriodConcatNode.contains HLS _); [|reflexivity].
    destruct (m3u8_installed w); reflexivity. }
  destruct (PeriodConcatNode.contains DASH _); [|apply Hhls].
  destruct (PeriodConcatNode._dash_concat self w) as [f|e1]; cbn [bind]; [|reflexivity].
  destruct (write_error w (PeriodConcatNode.file_path f)) as [e2|]; cbn [bind];
    [reflexivity | apply Hhls].
Qed.

Lemma pass_before_merge (self : PeriodConcatNode.t) (w : World) :
  ~ all_finished self ->
  PeriodConcatNode.status_after (PeriodConcatNode._thread_single_pass self w)
  = PeriodConcatNode._status self.
Proof.
  intros Hall. apply pass_without_merge. intros H. apply Hall.
  now apply (watch_finished _ 0).
Qed.

(** X4.  A pass of a node that is not finished yet sets its status to
    [Finished] exactly when every job reports [Finished], the merge goes
    through and its file is written if DASH is asked for, and [m3u8] can
    be imported if HLS is asked for; the pass then raises nothing, and what
    it has written is the merged DASH file when DASH is asked for, and
    nothing otherwise.  When [open] or the writing raises for the file of
    the merge, the pass ends with that exception, the status as it was and
    no file written in full. *)
Theorem pass_finishes_iff (self : PeriodConcatNode.t) (w : World) :
  PeriodConcatNode._status self <> Finished ->
  let p := PeriodConcatNode._thread_single_pass self w in
  let formats := manifest_format (PeriodConcatNode._pipeline_config self) in
  (PeriodConcatNode.status_after p = Finished <->
   all_finished self /\
   (PeriodConcatNode.contains DASH formats = true ->
    exists f, PeriodConcatNode._dash_concat self w = Ok f /\
              write_error w (PeriodConcatNode.file_path f) = None) /\
   (PeriodConcatNode.contains HLS formats = true -> m3u8_installed w = true)) /\
  (PeriodConcatNode.status_after p = Finished ->
   PeriodConcatNode.raised p = None /\
   PeriodConcatNode.written p
   = if PeriodConcatNode.contains DASH formats
     then match PeriodConcatNode._dash_concat self w with
          | Ok f => [f]
          | Raise _ => []
          end
     else []) /\
  (forall f e,
     all_finished self -> PeriodConcatNode.contains DASH formats = true ->
     PeriodConcatNode._dash_concat self w = Ok f ->
     write_error w (PeriodConcatNode.file_path f) = Some e ->
     p = {| PeriodConcatNode.status_after := PeriodConcatNode._status self;
            PeriodConcatNode.written := [];
            PeriodConcatNode.raised := Some e |}).
Proof.
  intros Hst p formats. subst p formats.
  assert (Hdec : all_finished self \/ ~ all_finished self).
  { unfold all_finished. rewrite <- (watch_finished _ 0).
    destruct (PeriodConcatNode.watch 0 (PeriodConcatNode._packager_nodes self))
      as [[|]|e]; [now left | right; discriminate | right; discriminate]. }
  split; [|split].
  - destruct Hdec as [Hall|Hall].
    + rewrite (pass_after_watch self w Hall). cbv zeta.
      destruct (PeriodConcatNode.contains DASH _).
      * destruct (PeriodConcatNode._dash_concat self w) as [f|e1].
        -- destruct (write_error w (PeriodConcatNode.file_path f)) as [e2|] eqn:Hopen.
           ++ simpl. split; [intros H; now elim Hst|].
              intros (_ & H & _). destruct (H eq_refl) as (f' & Hf' & Ho').
              inversion Hf'; subst f'. congruence.
           ++ destruct (PeriodConcatNode.contains HLS _); simpl.
              ** destruct (m3u8_installed w); simpl.
                 --- split; [|reflexivity]. intros _. split; [exact Hall|].
                     split; [intros _; now exists f | reflexivity].
                 --- split; [intros H; now elim Hst|].
                     intros (_ & _ & H). specialize (H eq_refl). discriminate.
              ** split; [|reflexivity]. intros _. split; [exact Hall|].
                 split; [intros _; now exists f | discriminate].
        -- simpl. split; [intros H; now elim Hst|].
           intros (_ & H & _). destruct (H eq_refl) as (f' & Hf' & _). discriminate.
      * destruct (PeriodConcatNode.contains HLS _); simpl.
        -- destruct (m3u8_installed w); simpl.
           ++ split; [|reflexivity]. intros _. split; [exact Hall|].
              split; [discriminate | reflexivity].
           ++ split; [intros H; now elim Hst|].
              intros (_ & _ & H). specialize (H eq_refl). discriminate.
        -- split; [|reflexivity]. intros _. split; [exact Hall|].
           split; discriminate.
    + rewrite (pass_before_merge self w Hall).
      split; [intros H; now elim Hst | intros (H & _); contradiction].
  - destruct Hdec as [Hall|Hall].
    + rewrite (pass_after_watch self w Hall). cbv zeta.
      destruct (PeriodConcatNode.contains DASH _).
      * destruct (PeriodConcatNode._dash_concat self w) as [f|e1].
        -- destruct (write_error w (PeriodConcatNode.file_path f)) as [e2|].
           ++ simpl. intros H; now elim Hst.
           ++ destruct (PeriodConcatNode.contains HLS _ && _); simpl.
              ** intros H; now elim Hst.
              ** intros _. now split.
        -- simpl. intros H; now elim Hst.
      * destruct (PeriodConcatNode.contains HLS _ && _); simpl.
        -- intros H; now elim Hst.
        -- intros _. now split.
    + rewrite (pass_before_merge self w Hall). intros H; now elim Hst.
  - intros f e Hall Hd Hf Ho.
    rewrite (pass_after_watch self w Hall). cbv zeta. now rewrite Hd, Hf, Ho.
Qed.

(** The hypotheses of X4 hold for the three sample jobs, all finished:
    the pass sets the status to [Finished] and raises nothing; and when the
    output directory is not there, [open] raises and the pass ends with its
    exception. *)
Lemma pass_finishes_witness :
  let self := Sample.node VOD Finished Finished Finished in
  let w := Sample.world10 "PT10S" in
  let w' := {| getcwd := getcwd w; files := files w;
               write_error := fun path => Some (FileNotFoundError path);
               m3u8_installed := true; __version__ := "0.3.0" |} in
  PeriodConcatNode.status_after (PeriodConcatNode._thread_single_pass self w) = Finished /\
  PeriodConcatNode.raised (PeriodConcatNode._thread_single_pass self w) = None /\
  PeriodConcatNode._thread_single_pass self w'
  = {| PeriodConcatNode.status_after := Running;
       PeriodConcatNode.written := [];
       PeriodConcatNode.raised := Some (FileNotFoundError "out/dash.mpd") |}.
Proof.
  intros self w w'.
  destruct (pass_finishes_iff self w) as (Hiff & Hdone & _); [discriminate|].
  destruct (pass_finishes_iff self w') as (_ & _ & Hopen); [discriminate|].
  assert (H : PeriodConcatNode.status_after (PeriodConcatNode._thread_single_pass self w)
              = Finished).
  { apply Hiff. split; [repeat constructor|]. split.
    - intros _. eexists. split; [vm_compute; reflexivity | reflexivity].
    - discriminate. }
  split; [exact H|]. split; [exact (proj1 (Hdone H))|].
  eapply Hopen.
  - repeat constructor.
  - reflexivity.
  - vm_compute. reflexivity.
  - reflexivity.
Defined.


(** X5.  The DASH merge comes before the HLS step: when every job
    reports [Finished], HLS is asked for and [m3u8] cannot be imported, the
    pass leaves the status as it was; it raises [ModuleNotFoundError] after
    having written the merged DASH file when DASH is asked for, the merge
    goes through and its file is written; it raises the exception of the
    merge or of the writing, no file being written in full, when one of
    them raises; and
    it raises [ModuleNotFoundError] with nothing written when DASH is not
    asked for. *)
Theorem hls_import_fails_after_dash (self : PeriodConcatNode.t) (w : World) :
  all_finished self ->
  PeriodConcatNode.contains HLS (manifest_format (PeriodConcatNode._pipeline_config self)) = true ->
  m3u8_installed w = false ->
  let p := PeriodConcatNode._thread_single_pass self w in
  let dash :=
    PeriodConcatNode.contains DASH (manifest_format (PeriodConcatNode._pipeline_config self)) in
  PeriodConcatNode.status_after p = PeriodConcatNode._status self /\
  (forall f,
     dash = true -> PeriodConcatNode._dash_concat self w = Ok f ->
     write_error w (PeriodConcatNode.file_path f) = None ->
     PeriodConcatNode.written p = [f] /\
     PeriodConcatNode.raised p = Some (ModuleNotFoundError "m3u8")) /\
  (forall f e,
     dash = true -> PeriodConcatNode._dash_concat self w = Ok f ->
     write_error w (PeriodConcatNode.file_path f) = Some e ->
     PeriodConcatNode.written p = [] /\ PeriodConcatNode.raised p = Some e) /\
  (forall e,
     dash = true -> PeriodConcatNode._dash_concat self w = Raise e ->
     PeriodConcatNode.written p = [] /\ PeriodConcatNode.raised p = Some e) /\
  (dash = false ->
   PeriodConcatNode.written p = [] /\
   PeriodConcatNode.raised p = Some (ModuleNotFoundError "m3u8")).
Proof.
  intros Hall Hhls Hm p dash. subst p dash.
  rewrite (pass_after_watch self w Hall). cbv zeta. rewrite Hhls, Hm. simpl.
  destruct (PeriodConcatNode.contains DASH _).
  - destruct (PeriodConcatNode._dash_concat self w) as [f|e1].
    + destruct (write_error w (PeriodConcatNode.file_path f)) as [e2|] eqn:Ho; simpl.
      * split; [reflexivity|].
        split; [intros f' _ Hf' Ho'; inversion Hf'; subst; congruence|].
        split; [|split; [intros e' _ H; discriminate | discriminate]].
        intros f' e' _ Hf' Ho'. inversion Hf'; subst f'.
        rewrite Ho in Ho'. inversion Ho'. now split.
      * split; [reflexivity|].
        split; [intros f' _ Hf' _; inversion Hf'; now split|].
        split; [intros f' e' _ Hf' Ho'; inversion Hf'; subst; congruence|].
        split; [intros e' _ H; discriminate | discriminate].
    + simpl. split; [reflexivity|].
      split; [intros f' _ H; discriminate|].
      split; [intros f' e' _ H; discriminate|].
      split; [intros e' _ H; inversion H; now split | discriminate].
  - simpl. split; [reflexivity|].
    split; [discriminate|]. split; [discriminate|]. split; [discriminate|].
    intros _. now split.
Qed.

(** The hypotheses of X5 hold for the three sample jobs, both formats
    asked for and [m3u8] missing. *)
Lemma hls_import_witness :
  let self := {| PeriodConcatNode._pipeline_config :=
                   {| manifest_format := [HLS; DASH]; streaming_mode := VOD;
                      dash_output := "dash.mpd" |};
                 PeriodConcatNode._output_dir := "out";
                 PeriodConcatNode._packager_nodes :=
                   [Sample.job "jobs/0" Finished; Sample.job "jobs/1" Finished;
                    Sample.job "jobs/2" Finished];
                 PeriodConcatNode._status := Running |} in
  let w := {| getcwd := "/home/streamer"; files := files (Sample.world10 "PT10S");
              write_error := fun _ => None;
              m3u8_installed := false; __version__ := "0.3.0" |} in
  exists f,
    PeriodConcatNode._dash_concat self w = Ok f /\
    PeriodConcatNode.written (PeriodConcatNode._thread_single_pass self w) = [f] /\
    PeriodConcatNode.raised (PeriodConcatNode._thread_single_pass self w)
    = Some (ModuleNotFoundError "m3u8") /\
    PeriodConcatNode.status_after (PeriodConcatNode._thread_single_pass self w) = Running.
Proof.
  intros self w.
  assert (Hall : all_finished self) by (repeat constructor).
  destruct (hls_import_fails_after_dash self w Hall eq_refl eq_refl) as (Hs & Hd & _).
  eexists. split; [vm_compute; reflexivity|].
  destruct (Hd _ eq_refl ltac:(vm_compute; reflexivity) eq_refl) as (Hw & Hr).
  split; [exact Hw|]. split; [exact Hr | exact Hs].
Defined.

(** ** When the merge goes through *)

Lemma relpath_raises (cwd path start : string) :
  succeeds (posixpath.relpath cwd path start) = negb (path =? "").
Proof.
  destruct (path =? "") eqn:E.
  - unfold posixpath.relpath. now rewrite E.
  - destruct (relpath_open cwd path start) as (rel & Hrel & _).
    + intros ->. discriminate.
    + now rewrite Hrel.
Qed.

Lemma period_found_below (p0 p1 : ElementTree.Element) (mode : StreamingMode)
      (mpd : ElementTree.Element) (i : nat) (total total' : ISO8601.t) :
  PeriodConcatNode.set_timing mode mpd
    (ElementTree.set_attrib p0 "id" (Py.str_int (Z.of_nat i))) total = Ok (p1, total') ->
  ElementTree.iterfind [p1] PeriodConcatNode.segment_template_path = segment_templates p0 /\
  ElementTree.iterfind [p1] PeriodConcatNode.base_url_path = base_urls p0.
Proof.
  intros H. destruct (set_timing_inv _ _ _ _ _ _ H) as (_ & _ & Hc & _).
  assert (Hc0 : ElementTree.children p1 = ElementTree.children p0).
  { rewrite Hc. apply set_attrib_facts. }
  unfold segment_templates, base_urls. rewrite !findall_iterfind.
  split; apply iterfind_same_children; exact Hc0.
Qed.

Lemma concat_period_ready (self : PeriodConcatNode.t) (w : World) (i : nat)
      (node : PackagerNode) (total : ISO8601.t) :
  steady (streaming_mode (PeriodConcatNode._pipeline_config self)) total ->
  succeeds (PeriodConcatNode.concat_period self w i node total) = job_ready self w node /\
  (forall p total', PeriodConcatNode.concat_period self w i node total = Ok (p, total') ->
                    steady (streaming_mode (PeriodConcatNode._pipeline_config self)) total').
Proof.
  intros (Htotal & Hlive).
  assert (Hadd : forall p total',
             PeriodConcatNode.concat_period self w i node total = Ok (p, total') ->
             steady (streaming_mode (PeriodConcatNode._pipeline_config self)) total').
  { intros p total' H.
    destruct (concat_period_inv _ _ _ _ _ _ _ H) as (mpd & p0 & p1 & _ & _ & Ht & _).
    destruct (set_timing_inv _ _ _ _ _ _ Ht) as (_ & _ & _ & _ & Hmode).
    destruct (streaming_mode (PeriodConcatNode._pipeline_config self)).
    - destruct Hmode as (start & _ & _ & ->). split; [exact Htotal | exact Hlive].
    - destruct Hmode as (d & parsed & _ & _ & Hp & Ha).
      destruct (add_parsed total parsed d Htotal Hp) as (t & Ht' & Haddable).
      rewrite Ht' in Ha. inversion Ha; subst. split; [exact Haddable | discriminate]. }
  split; [|exact Hadd].
  destruct (PeriodConcatNode.concat_period self w i node total) as [[p total']|e] eqn:H.
  - (* the turn went through: the job was ready *)
    symmetry. simpl.
    destruct (concat_period_inv _ _ _ _ _ _ _ H)
      as (mpd & p0 & p1 & Hmpd & Hp0 & Ht & _ & _ & _ & Hst & Hbu).
    unfold job_ready. rewrite Hmpd, Hp0.
    destruct (set_timing_inv _ _ _ _ _ _ Ht) as (_ & _ & _ & _ & Hmode).
    assert (Hm : match streaming_mode (PeriodConcatNode._pipeline_config self) with
                 | VOD => match attribute mpd "mediaPresentationDuration" with
                          | Some d => succeeds (ISO8601.parse d)
                          | None => false
                          end
                 | LIVE => true
                 end = true).
    { destruct (streaming_mode (PeriodConcatNode._pipeline_config self)); [reflexivity|].
      destruct Hmode as (d & parsed & Hd & _ & Hp & _). now rewrite Hd, Hp. }
    rewrite Hm. simpl.
    assert (Hdir : match segment_templates p0, base_urls p0 with
                   | [], [] => true
                   | _, _ => negb (packager_output_dir node =? "")
                   end = true).
    { destruct (segment_templates p0) as [|x xs].
      - destruct (base_urls p0) as [|y ys]; [reflexivity|].
        inversion Hbu as [|? y' ? ys' Hy _]; subst.
        unfold PeriodConcatNode.rewrite_base_url in Hy. invert_bind Hy as rel Hrel.
        rewrite <- relpath_raises with (cwd := getcwd w)
                                        (start := PeriodConcatNode._output_dir self).
        now rewrite Hrel.
      - inversion Hst as [|? x' ? xs' Hx _]; subst.
        unfold PeriodConcatNode.rewrite_segment_template in Hx. invert_bind Hx as rel Hrel.
        rewrite <- relpath_raises with (cwd := getcwd w)
                                        (start := PeriodConcatNode._output_dir self).
        now rewrite Hrel. }
    rewrite Hdir. simpl.
    apply forallb_forall. intros x Hx.
    clear - Hbu Hx. induction Hbu as [|a b l l' Hab _ IH]; [contradiction|].
    destruct Hx as [->|Hx]; [|now apply IH].
    unfold PeriodConcatNode.rewrite_base_url in Hab. invert_bind Hab as rel _.
    unfold has_text. destruct (ElementTree.text x); [reflexivity | discriminate].
  - (* the turn raised: the job was not ready *)
    simpl. symmetry. destruct (job_ready self w node) eqn:Hr; [exfalso | reflexivity].
    unfold job_ready in Hr.
    destruct (files w (manifest_path self node)) as [mpd|] eqn:Hmpd; [|discriminate].
    destruct (PeriodConcatNode.find mpd ["Period"]) as [p0|] eqn:Hp0; [|discriminate].
    apply andb_prop in Hr. destruct Hr as [Hr Htexts].
    apply andb_prop in Hr. destruct Hr as [Hmode Hdir].
    unfold PeriodConcatNode.concat_period in H. unfold manifest_path in Hmpd.
    unfold ElementTree.parse in H. rewrite Hmpd in H. cbn [bind] in H.
    rewrite Hp0 in H. cbn [bind] in H.
    set (pa := ElementTree.set_attrib p0 "id" (Py.str_int (Z.of_nat i))) in *.
    assert (Htiming : exists p1 total',
               PeriodConcatNode.set_timing
                 (streaming_mode (PeriodConcatNode._pipeline_config self)) mpd pa total
               = Ok (p1, total')).
    { destruct (streaming_mode (PeriodConcatNode._pipeline_config self)); simpl.
      - specialize (Hlive eq_refl).
        destruct (ISO8601.__str__ total) as [start|]; [|discriminate].
        cbn [bind]. now eexists; eexists.
      - unfold attribute in Hmode. unfold ElementTree.getitem.
        destruct (ElementTree.get (ElementTree.attrib mpd) "mediaPresentationDuration")
          as [d|]; [|discriminate].
        simpl. destruct (ISO8601.parse d) as [parsed|] eqn:Hparse; [|discriminate].
        simpl. destruct (add_parsed total parsed d Htotal Hparse) as (t' & Ht' & _).
        unfold ISO8601.__iadd__. rewrite Ht'. simpl. now eexists; eexists. }
    destruct Htiming as (p1 & total' & Htiming). rewrite Htiming in H. cbn [bind] in H.
    destruct (period_found_below _ _ _ _ _ _ _ Htiming) as (Hsts & Hbus).
    assert (Hrel : (segment_templates p0 = [] /\ base_urls p0 = []) \/
                   exists rel, posixpath.relpath (getcwd w) (packager_output_dir node)
                                 (PeriodConcatNode._output_dir self) = Ok rel).
    { destruct (segment_templates p0) as [|x xs] eqn:Es, (base_urls p0) as [|y ys] eqn:Eb;
        [now left | right | right | right];
        (destruct (relpath_open (getcwd w) (packager_output_dir node)
                                (PeriodConcatNode._output_dir self)) as (rel & Hrel & _);
         [intros E; rewrite E in Hdir; discriminate | now exists rel]). }
    destruct segment_base_paths as (Hst & Hbu & Hne).
    destruct (update_all_succeeds
                (PeriodConcatNode.rewrite_segment_template
                   w (packager_output_dir node) (PeriodConcatNode._output_dir self))
                PeriodConcatNode.segment_template_path p1) as (p2 & Hp2).
    { rewrite Hsts. destruct Hrel as [[E _]|(rel & Hrel)].
      - rewrite E. constructor.
      - apply Forall_forall. intros x _.
        unfold PeriodConcatNode.rewrite_segment_template. rewrite Hrel. simpl. now eexists. }
    rewrite Hp2 in H. cbn [bind] in H.
    destruct (update_all_succeeds
                (PeriodConcatNode.rewrite_base_url
                   w (packager_output_dir node) (PeriodConcatNode._output_dir self)
                   (posixpath.join (packager_output_dir node)
                      [dash_output (PeriodConcatNode._pipeline_config self)]))
                PeriodConcatNode.base_url_path p2) as (p3 & Hp3).
    { pose proof (rewrite_segment_template_tag w (packager_output_dir node)
                    (PeriodConcatNode._output_dir self)) as Ftag.
      rewrite Hst in Hp2. rewrite Hbu.
      rewrite (update_all_elsewhere _ Ftag _ _ _ _ _ Hne Hp2). rewrite <- Hbu.
      rewrite Hbus. destruct Hrel as [[_ E]|(rel & Hrel)].
      - rewrite E. constructor.
      - apply Forall_forall. intros x Hx.
        rewrite forallb_forall in Htexts. specialize (Htexts x Hx).
        unfold PeriodConcatNode.rewrite_base_url. rewrite Hrel. simpl.
        unfold has_text in Htexts. destruct (ElementTree.text x); [|discriminate].
        now eexists. }
    rewrite Hp3 in H. cbn [bind] in H. discriminate.
Qed.

Lemma concat_loop_ready (self : PeriodConcatNode.t) (w : World)
      (nodes : list PackagerNode) (i : nat) (total : ISO8601.t)
      (acc : list ElementTree.Element) :
  steady (streaming_mode (PeriodConcatNode._pipeline_config self)) total ->
  succeeds (PeriodConcatNode.concat_loop self w i nodes total acc)
  = forallb (job_ready self w) nodes.
Proof.
  revert i total acc. induction nodes as [|node nodes IH]; intros i total acc Ht; simpl.
  - reflexivity.
  - destruct (concat_period_ready self w i node total Ht) as (Hs & Ha).
    rewrite <- Hs.
    destruct (PeriodConcatNode.concat_period self w i node total) as [[p t1]|e]; simpl.
    + apply IH. now apply (Ha p t1).
    + reflexivity.
Qed.

(** X6.  The merge goes through, up to the writing of the file, exactly
    when there is a job, every job is ready, and the total can be printed.
    A job is ready when its manifest is there with a period child, gives
    for VOD a total duration that [parse] reads, has a text in every base
    location, and the job's directory is named if there is a location to
    rewrite; the total can be printed when, for VOD, no field of the sum of
    the durations has more than 4300 digits. *)
Theorem merge_goes_through_iff_ready (self : PeriodConcatNode.t) (w : World) :
  succeeds (PeriodConcatNode._dash_concat self w) = ready self w.
Proof.
  unfold PeriodConcatNode._dash_concat, ready.
  destruct (PeriodConcatNode._packager_nodes self) as [|first rest] eqn:Hnodes;
    [reflexivity|].
  cbn [bind].
  assert (Hfirst : job_ready self w first = false ->
                   forallb (job_ready self w) (first :: rest) && total_printable self w
                   = false).
  { intros H. simpl. now rewrite H. }
  unfold ElementTree.parse.
  destruct (files w (posixpath.join (packager_output_dir first)
                       [dash_output (PeriodConcatNode._pipeline_config self)]))
    as [ref_mpd|] eqn:Href; cbn [bind].
  - destruct (PeriodConcatNode.find ref_mpd ["Period"]) as [p|e] eqn:Hp; cbn [bind].
    + rewrite <- (concat_loop_ready self w (first :: rest) 0 ISO8601.default [])
        by apply default_steady.
      destruct (PeriodConcatNode.concat_loop self w 0 (first :: rest) ISO8601.default [])
        as [[total periods]|e] eqn:Hloop; [|reflexivity].
      cbn [bind succeeds andb].
      apply concat_loop_turns in Hloop. destruct Hloop as (ps & Hturns & _).
      rewrite <- Hnodes in Hturns.
      destruct (streaming_mode (PeriodConcatNode._pipeline_config self)) eqn:Hmode.
      * unfold total_printable. now rewrite Hmode.
      * rewrite (total_printable_turns self w ps total Hmode Hturns).
        now destruct (ISO8601.__str__ total).
    + symmetry. apply Hfirst. unfold job_ready, manifest_path. now rewrite Href, Hp.
  - symmetry. apply Hfirst. unfold job_ready, manifest_path. now rewrite Href.
Qed.

(** The loop stops at the first turn that raises. *)
Lemma concat_loop_raises (self : PeriodConcatNode.t) (w : World) (i : nat)
      (pre : list PackagerNode) (total total1 : ISO8601.t)
      (periods : list ElementTree.Element) :
  turns self w i pre total periods total1 ->
  forall node post e acc,
    PeriodConcatNode.concat_period self w (i + List.length pre) node total1 = Raise e ->
    PeriodConcatNode.concat_loop self w i (pre ++ node :: post)%list total acc = Raise e.
Proof.
  induction 1 as [i total|i n nodes total p t1 periods t2 Hp _ IH];
    intros node post e acc He; simpl in *.
  - rewrite Nat.add_0_r in He. now rewrite He.
  - rewrite Hp. simpl. apply IH. now rewrite Nat.add_succ_r in He.
Qed.

(** X7.  The merge raises [IndexError] without jobs; otherwise it raises
    what the turn of the first failing job raises, the turns before it
    having gone through; and a turn raises [FileNotFoundError] with the path
    of a manifest that is not there, [AssertionError] for a manifest
    without period child, and in VOD mode [KeyError] for a manifest without
    total duration and the error of [parse] for one whose total duration
    [parse] does not read. *)
Theorem merge_raises_at_first_failing_job (self : PeriodConcatNode.t) (w : World) :
  (PeriodConcatNode._packager_nodes self = [] ->
   PeriodConcatNode._dash_concat self w = Raise IndexError) /\
  (forall k node periods total e,
     nth_error (PeriodConcatNode._packager_nodes self) k = Some node ->
     turns self w 0 (firstn k (PeriodConcatNode._packager_nodes self))
           ISO8601.default periods total ->
     PeriodConcatNode.concat_period self w k node total = Raise e ->
     PeriodConcatNode._dash_concat self w = Raise e) /\
  (forall i node total,
     (files w (manifest_path self node) = None ->
      PeriodConcatNode.concat_period self w i node total
      = Raise (FileNotFoundError (manifest_path self node))) /\
     (forall mpd, files w (manifest_path self node) = Some mpd ->
        (periods_of mpd = [] ->
         PeriodConcatNode.concat_period self w i node total = Raise (AssertionError "")) /\
        (periods_of mpd <> [] ->
         streaming_mode (PeriodConcatNode._pipeline_config self) = VOD ->
         attribute mpd "mediaPresentationDuration" = None ->
         PeriodConcatNode.concat_period self w i node total
         = Raise (KeyError "mediaPresentationDuration")) /\
        (forall d e,
           periods_of mpd <> [] ->
           streaming_mode (PeriodConcatNode._pipeline_config self) = VOD ->
           attribute mpd "mediaPresentationDuration" = Some d ->
           ISO8601.parse d = Raise e ->
           PeriodConcatNode.concat_period self w i node total = Raise e))).
Proof.
  split; [|split].
  - intros H. unfold PeriodConcatNode._dash_concat. now rewrite H.
  - intros k node periods total e Hk Hturns He.
    assert (Hsplit : PeriodConcatNode._packager_nodes self
                     = (firstn k (PeriodConcatNode._packager_nodes self)
                        ++ node :: skipn (S k) (PeriodConcatNode._packager_nodes self))%list).
    { clear - Hk. revert k Hk.
      induction (PeriodConcatNode._packager_nodes self) as [|n l IH]; intros [|k] Hk;
        try discriminate; simpl in *.
      - now inversion Hk.
      - f_equal. now apply IH. }
    assert (Hlen : List.length (firstn k (PeriodConcatNode._packager_nodes self)) = k).
    { apply firstn_length_le. apply Nat.lt_le_incl. apply nth_error_Some. congruence. }
    assert (Hloop : forall acc,
               PeriodConcatNode.concat_loop self w 0 (PeriodConcatNode._packager_nodes self)
                                            ISO8601.default acc = Raise e).
    { intros acc. rewrite Hsplit at 1.
      apply (concat_loop_raises self w 0 _ _ _ _ Hturns). simpl. now rewrite Hlen. }
    unfold PeriodConcatNode._dash_concat.
    destruct (PeriodConcatNode._packager_nodes self) as [|first rest] eqn:Hnodes;
      [destruct k; discriminate|].
    cbn [bind]. specialize (Hloop []).
    (* the manifest of the first job is read here as the first turn reads it *)
    unfold ElementTree.parse.
    destruct (files w (posixpath.join (packager_output_dir first)
                         [dash_output (PeriodConcatNode._pipeline_config self)]))
      as [ref_mpd|] eqn:Href; cbn [bind].
    + destruct (PeriodConcatNode.find ref_mpd ["Period"]) as [p|e'] eqn:Hp; cbn [bind].
      * now rewrite Hloop.
      * simpl in Hloop. unfold PeriodConcatNode.concat_period, ElementTree.parse in Hloop.
        rewrite Href in Hloop. cbn [bind] in Hloop. rewrite Hp in Hloop.
        simpl in Hloop. now inversion Hloop.
    + simpl in Hloop. unfold PeriodConcatNode.concat_period, ElementTree.parse in Hloop.
      rewrite Href in Hloop. simpl in Hloop. now inversion Hloop.
  - intros i node total. unfold PeriodConcatNode.concat_period, ElementTree.parse.
    fold (manifest_path self node).
    split; [intros H; now rewrite H|].
    intros mpd Hmpd. rewrite Hmpd. cbn [bind].
    assert (Hfind : PeriodConcatNode.find mpd ["Period"]
                    = match periods_of mpd with
                      | p :: _ => Ok p
                      | [] => Raise (AssertionError "")
                      end).
    { unfold PeriodConcatNode.find, ElementTree.find, ElementTree.findall.
      simpl map. rewrite iterfind_children. simpl ElementTree.iterfind.
      unfold periods_of, period_tag. now destruct (filter _ _). }
    rewrite Hfind. split; [intros H; now rewrite H|].
    split.
    + intros Hne Hmode Hattr. destruct (periods_of mpd) as [|p ps]; [contradiction|].
      cbn [bind]. rewrite Hmode. unfold PeriodConcatNode.set_timing, ElementTree.getitem.
      unfold attribute in Hattr. now rewrite Hattr.
    + intros d e Hne Hmode Hattr Hparse. destruct (periods_of mpd) as [|p ps]; [contradiction|].
      cbn [bind]. rewrite Hmode. unfold PeriodConcatNode.set_timing, ElementTree.getitem.
      unfold attribute in Hattr. rewrite Hattr. cbn [bind]. now rewrite Hparse.
Qed.

(** The hypotheses of X7 hold for three jobs the second of which wrote no
    manifest: the merge raises [FileNotFoundError] for its path. *)
Lemma merge_raises_witness :
  let w := {| getcwd := "/home/streamer";
              files := fun path =>
                if path =? "jobs/1/dash.mpd" then None
                else files (Sample.world10 "PT10S") path;
              write_error := fun _ => None;
              m3u8_installed := true;
              __version__ := "0.3.0" |} in
  PeriodConcatNode._dash_concat (Sample.node VOD Finished Finished Finished) w
  = Raise (FileNotFoundError "jobs/1/dash.mpd").
Proof.
  intros w.
  destruct (merge_raises_at_first_failing_job (Sample.node VOD Finished Finished Finished) w)
    as (_ & Hfirst & Hturn).
  eapply (Hfirst 1%nat (Sample.job "jobs/1" Finished)).
  - reflexivity.
  - simpl. econstructor; [vm_compute; reflexivity | constructor].
  - apply (proj1 (Hturn 1%nat (Sample.job "jobs/1" Finished) _)). reflexivity.
Defined.

(** ** What the merged document keeps *)

Lemma filter_not_remove_first (t : string) (l : list ElementTree.Element) :
  filter (fun c => negb (ElementTree.has_tag t c)) (ElementTree.remove_first t l)
  = filter (fun c => negb (ElementTree.has_tag t c)) l.
Proof.
  induction l as [|c l IH]; simpl; [reflexivity|].
  destruct (ElementTree.has_tag t c) eqn:E; simpl; [reflexivity|].
  now rewrite E, IH.
Qed.

Lemma filter_none {A : Type} (p : A -> bool) (l : list A) :
  Forall (fun x => p x = true) l -> filter (fun x => negb (p x)) l = [].
Proof. induction 1 as [|x l Hx _ IH]; simpl; [reflexivity | now rewrite Hx]. Qed.

(** X9.  The root of the merged document is the root of the first job's
    manifest: same text, same children that are no periods, in their order,
    and same attributes, the total duration apart, which only VOD sets; the
    roots of the other manifests leave no trace.  The file goes to the
    output directory under the name of the manifests. *)
Theorem merged_root_is_first_manifest (self : PeriodConcatNode.t) (w : World)
        (f : PeriodConcatNode.written_file) :
  PeriodConcatNode._dash_concat self w = Ok f ->
  exists first rest ref_mpd,
    PeriodConcatNode._packager_nodes self = first :: rest /\
    files w (manifest_path self first) = Some ref_mpd /\
    ElementTree.text (PeriodConcatNode.document f) = ElementTree.text ref_mpd /\
    others_of (PeriodConcatNode.document f) = others_of ref_mpd /\
    (forall k, k <> "mediaPresentationDuration" ->
       attribute (PeriodConcatNode.document f) k = attribute ref_mpd k) /\
    (streaming_mode (PeriodConcatNode._pipeline_config self) = LIVE ->
     ElementTree.attrib (PeriodConcatNode.document f) = ElementTree.attrib ref_mpd) /\
    PeriodConcatNode.file_path f
    = posixpath.join (PeriodConcatNode._output_dir self)
                     [dash_output (PeriodConcatNode._pipeline_config self)].
Proof.
  intros Hf.
  destruct (dash_concat_inv self w f Hf)
    as (first & rest & ref_mpd & periods & total & Hn & Href & Hturns & Hc & _ & Hx & Ha & Hp & _).
  destruct (turns_ids _ _ _ _ _ _ _ Hturns) as (Htags & _).
  exists first, rest, ref_mpd.
  split; [exact Hn|]. split; [exact Href|]. split; [exact Hx|].
  split.
  { unfold others_of. rewrite Hc, filter_app, filter_not_remove_first.
    rewrite (filter_none _ _ Htags). apply app_nil_r. }
  split.
  { intros k Hk. destruct (streaming_mode (PeriodConcatNode._pipeline_config self)).
    - unfold attribute. now rewrite Ha.
    - now apply Ha. }
  split; [|exact Hp].
  intros Hmode. now rewrite Hmode in Ha.
Qed.

(** The hypothesis of X9 holds for the three LIVE sample jobs. *)
Lemma merged_root_witness :
  exists f,
    PeriodConcatNode._dash_concat (Sample.node LIVE Finished Finished Finished)
                                  Sample.world_timed = Ok f /\
    ElementTree.attrib (PeriodConcatNode.document f)
    = [("type", "static"); ("mediaPresentationDuration", "PT10S")] /\
    PeriodConcatNode.file_path f = "out/dash.mpd".
Proof.
  eexists. split; [vm_compute; reflexivity|].
  match goal with
  | |- ElementTree.attrib (PeriodConcatNode.document ?f) = _ /\ _ =>
      destruct (merged_root_is_first_manifest
                  (Sample.node LIVE Finished Finished Finished) Sample.world_timed f)
        as (first & rest & ref_mpd & Hn & Href & _ & _ & _ & Hlive & Hp);
        [vm_compute; reflexivity|]
  end.
  inversion Hn; subst first rest. vm_compute in Href. inversion Href; subst ref_mpd.
  split; [exact (Hlive eq_refl) | exact Hp].
Defined.


(** ** What the merge keeps of a period, continued *)

(** X10.  The period the merge takes from a job is the period of the
    job's manifest with its identifier and its timing attribute set and its
    locations rewritten, and nothing else changed: same tag and text, same
    other attributes; along every path of tags but the two the merge
    rewrites at, the elements are by themselves (tag, attributes, text) as
    they were, in the same order; a segment template keeps its tag, text,
    children and the attributes other than [initialization] and [media]; a
    base location keeps its tag, attributes and children. *)
Theorem merged_period_keeps_the_rest (self : PeriodConcatNode.t) (w : World) (i : nat)
        (node : PackagerNode) (total total' : ISO8601.t) (p : ElementTree.Element) :
  PeriodConcatNode.concat_period self w i node total = Ok (p, total') ->
  exists mpd p0,
    files w (manifest_path self node) = Some mpd /\
    PeriodConcatNode.find mpd ["Period"] = Ok p0 /\
    ElementTree.tag p = ElementTree.tag p0 /\
    ElementTree.text p = ElementTree.text p0 /\
    (forall k, k <> "id" ->
       k <> timing_attribute (streaming_mode (PeriodConcatNode._pipeline_config self)) ->
       attribute p k = attribute p0 k) /\
    (forall path,
       path <> [] -> path <> PeriodConcatNode.segment_template_path ->
       path <> PeriodConcatNode.base_url_path ->
       map label (ElementTree.iterfind [p] path)
       = map label (ElementTree.iterfind [p0] path)) /\
    Forall2 (fun old new =>
               ElementTree.tag new = ElementTree.tag old /\
               ElementTree.text new = ElementTree.text old /\
               ElementTree.children new = ElementTree.children old /\
               forall k, k <> "initialization" -> k <> "media" ->
                         attribute new k = attribute old k)
            (segment_templates p0) (segment_templates p) /\
    Forall2 (fun old new =>
               ElementTree.tag new = ElementTree.tag old /\
               ElementTree.attrib new = ElementTree.attrib old /\
               ElementTree.children new = ElementTree.children old)
            (base_urls p0) (base_urls p).
Proof. exact (concat_period_keeps self w i node total total' p). Qed.

(** The hypothesis of X10 holds for the sample job that wrote to [jobs/2]:
    its representations are by themselves as they were, and its segment
    template keeps its time scale. *)
Lemma merged_period_witness :
  exists p total',
    PeriodConcatNode.concat_period (Sample.node VOD Finished Finished Finished)
      (Sample.world10 "PT10S") 2 (Sample.job "jobs/2" Finished) ISO8601.default
    = Ok (p, total') /\
    map label (ElementTree.iterfind [p] [Sample.q "AdaptationSet"; Sample.q "Representation"])
    = map label (ElementTree.iterfind [Sample.period "video.mp4"]
                   [Sample.q "AdaptationSet"; Sample.q "Representation"]) /\
    map (fun e => attribute e "timescale") (segment_templates p) = [Some "90000"].
Proof.
  eexists; eexists. split; [vm_compute; reflexivity|].
  match goal with
  | |- map label (ElementTree.iterfind [?p] _) = _ /\ _ =>
      destruct (merged_period_keeps_the_rest
                  (Sample.node VOD Finished Finished Finished) (Sample.world10 "PT10S")
                  2%nat (Sample.job "jobs/2" Finished) ISO8601.default
                  (ISO8601.mk 0 0 0 0 0 (Py.PyFloat ten)) p)
        as (mpd & p0 & Hmpd & Hp0 & _ & _ & _ & Hoff & Hst & _); [vm_compute; reflexivity|]
  end.
  vm_compute in Hmpd. inversion Hmpd; subst mpd.
  vm_compute in Hp0. inversion Hp0; subst p0.
  split.
  - apply Hoff; intros E; vm_compute in E; discriminate.
  - vm_compute. reflexivity.
Defined.


(** ** Totals and identifiers *)

Lemma vod_turns (self : PeriodConcatNode.t) (w : World) (i : nat)
      (nodes : list PackagerNode) (total total' : ISO8601.t)
      (periods : list ElementTree.Element) :
  streaming_mode (PeriodConcatNode._pipeline_config self) = VOD ->
  turns self w i nodes total periods total' ->
  exists parsed,
    Forall2 (fun node pd =>
               exists mpd d,
                 files w (manifest_path self node) = Some mpd /\
                 attribute mpd "mediaPresentationDuration" = Some d /\
                 attribute (fst pd) "duration" = Some d /\
                 ISO8601.parse d = Ok (snd pd))
            nodes (combine periods parsed) /\
    List.length parsed = List.length nodes /\
    accumulate total parsed = Ok total'.
Proof.
  intros Hmode. induction 1 as [|i node nodes total p t1 periods t2 Hp _ IH].
  - exists []. split; [constructor | split; reflexivity].
  - destruct (vod_turn _ _ _ _ _ _ _ Hmode Hp) as (mpd & d & pd & Hmpd & Hd & Hdur & Hparse & Hadd).
    destruct IH as (parsed & Hall & Hlen & Hacc).
    exists (pd :: parsed). split; [|split].
    + simpl. constructor; [|exact Hall]. exists mpd, d. simpl. repeat split; auto.
    + simpl. now rewrite Hlen.
    + simpl. unfold ISO8601.__iadd__. rewrite Hadd. simpl. exact Hacc.
Qed.

Lemma accumulate_calendar (ds : list ISO8601.t) (total total' : ISO8601.t) :
  accumulate total ds = Ok total' ->
  ISO8601.years total' = (ISO8601.years total + sum (map ISO8601.years ds))%Z /\
  ISO8601.months total' = (ISO8601.months total + sum (map ISO8601.months ds))%Z /\
  ISO8601.days total' = (ISO8601.days total + sum (map ISO8601.days ds))%Z /\
  ISO8601.hours total' = (ISO8601.hours total + sum (map ISO8601.hours ds))%Z /\
  ISO8601.minutes total' = (ISO8601.minutes total + sum (map ISO8601.minutes ds))%Z.
Proof.
  revert total. induction ds as [|d ds IH]; intros total H; simpl in *.
  - inversion H; subst. rewrite !Z.add_0_r. repeat split.
  - invert_bind H as t1 Ht1. apply IH in H. unfold ISO8601.__iadd__ in Ht1.
    apply add_inv in Ht1. destruct Ht1 as [Ht1 _].
    destruct H as (Hy & Hmo & Hd & Hh & Hmi).
    rewrite Hy, Hmo, Hd, Hh, Hmi, Ht1. simpl. unfold sum. repeat split; lia.
Qed.

(** X11.  In VOD mode, for any number of jobs, the merge appends one
    period per job to the root of the first job's manifest; the period of
    each job takes the total duration of the job's manifest as its
    duration, text for text; and the total duration of the merged document
    is the printed form of the running total, which is the durations
    [parse] reads there added up in the order of the jobs, starting from
    the default duration: years, months, days, hours and minutes are the
    plain sums, nothing being carried. *)
Theorem vod_total_is_sum_of_jobs (self : PeriodConcatNode.t) (w : World)
        (f : PeriodConcatNode.written_file) :
  streaming_mode (PeriodConcatNode._pipeline_config self) = VOD ->
  PeriodConcatNode._dash_concat self w = Ok f ->
  exists first rest ref_mpd periods parsed total printed,
    PeriodConcatNode._packager_nodes self = first :: rest /\
    files w (manifest_path self first) = Some ref_mpd /\
    ElementTree.children (PeriodConcatNode.document f)
    = (ElementTree.remove_first period_tag (ElementTree.children ref_mpd) ++ periods)%list /\
    List.length periods = List.length (PeriodConcatNode._packager_nodes self) /\
    List.length parsed = List.length (PeriodConcatNode._packager_nodes self) /\
    Forall2 (fun node pd =>
               exists mpd d,
                 files w (manifest_path self node) = Some mpd /\
                 attribute mpd "mediaPresentationDuration" = Some d /\
                 attribute (fst pd) "duration" = Some d /\
                 ISO8601.parse d = Ok (snd pd))
            (PeriodConcatNode._packager_nodes self) (combine periods parsed) /\
    accumulate ISO8601.default parsed = Ok total /\
    ISO8601.__str__ total = Ok printed /\
    attribute (PeriodConcatNode.document f) "mediaPresentationDuration" = Some printed /\
    ISO8601.years total = sum (map ISO8601.years parsed) /\
    ISO8601.months total = sum (map ISO8601.months parsed) /\
    ISO8601.days total = sum (map ISO8601.days parsed) /\
    ISO8601.hours total = sum (map ISO8601.hours parsed) /\
    ISO8601.minutes total = sum (map ISO8601.minutes parsed).
Proof.
  intros Hmode Hf.
  destruct (dash_concat_inv self w f Hf)
    as (first & rest & ref_mpd & periods & total & Hn & Href & Hturns & Hc & _ & _ & Ha & _).
  rewrite Hmode in Ha. destruct Ha as ((printed & Hprinted & Ha) & _).
  destruct (vod_turns _ _ _ _ _ _ _ Hmode Hturns) as (parsed & Hall & Hlen & Hacc).
  destruct (accumulate_calendar _ _ _ Hacc) as (Hy & Hmo & Hd & Hh & Hmi).
  exists first, rest, ref_mpd, periods, parsed, total, printed.
  split; [exact Hn|]. split; [exact Href|]. split; [exact Hc|].
  split; [exact (turns_length _ _ _ _ _ _ _ Hturns)|].
  repeat split; auto.
Qed.

(** The hypotheses of X11 hold for three jobs of one day, thirty hours,
    forty-five minutes and ten seconds each: the total has 3 days, 90 hours
    and 135 minutes. *)
Lemma vod_total_witness :
  exists f,
    PeriodConcatNode._dash_concat (Sample.node VOD Finished Finished Finished)
                                  (Sample.world10 "P1DT30H45M10S") = Ok f /\
    attribute (PeriodConcatNode.document f) "mediaPresentationDuration"
    = Some "P0Y0M3DT90H135M30.0S" /\
    exists total,
      ISO8601.__str__ total = Ok "P0Y0M3DT90H135M30.0S" /\
      ISO8601.days total = 3%Z /\ ISO8601.hours total = 90%Z /\
      ISO8601.minutes total = 135%Z.
Proof.
  eexists. split; [vm_compute; reflexivity|].
  split; [vm_compute; reflexivity|].
  match goal with
  | |- exists total, _ =>
      destruct (vod_total_is_sum_of_jobs
                  (Sample.node VOD Finished Finished Finished)
                  (Sample.world10 "P1DT30H45M10S") _ eq_refl
                  ltac:(vm_compute; reflexivity))
        as (first & rest & ref_mpd & periods & parsed & total & printed & _ & _ & _
            & Hlenp & Hlen & Hall & _ & Hprinted & Ha & _ & _ & Hd & Hh & Hmi)
  end.
  exists total.
  assert (E : printed = "P0Y0M3DT90H135M30.0S").
  { vm_compute in Ha. now inversion Ha. }
  subst printed. split; [exact Hprinted|].
  assert (Hparsed : Forall (fun pd => pd = ISO8601.mk 0 0 1 30 45 (Py.PyFloat ten)) parsed).
  { simpl in Hlen, Hlenp.
    destruct periods as [|p0 [|p1 [|p2 [|p3 ps]]]]; try discriminate.
    destruct parsed as [|d0 [|d1 [|d2 [|d3 ds]]]]; try discriminate.
    simpl in Hall.
    inversion Hall as [|? ? ? ? H0 Hall1]; subst.
    inversion Hall1 as [|? ? ? ? H1 Hall2]; subst.
    inversion Hall2 as [|? ? ? ? H2 _]; subst.
    destruct H0 as (m0 & s0 & Hm0 & Hs0 & _ & Hp0).
    destruct H1 as (m1 & s1 & Hm1 & Hs1 & _ & Hp1).
    destruct H2 as (m2 & s2 & Hm2 & Hs2 & _ & Hp2).
    vm_compute in Hm0, Hm1, Hm2.
    inversion Hm0; subst m0. inversion Hm1; subst m1. inversion Hm2; subst m2.
    vm_compute in Hs0, Hs1, Hs2.
    inversion Hs0; subst s0. inversion Hs1; subst s1. inversion Hs2; subst s2.
    simpl in Hp0, Hp1, Hp2.
    vm_compute in Hp0. vm_compute in Hp1. vm_compute in Hp2.
    inversion Hp0; inversion Hp1; inversion Hp2.
    repeat constructor. }
  destruct parsed as [|d0 [|d1 [|d2 [|d3 ds]]]]; try discriminate.
  inversion Hparsed as [|? ? E0 Hp1]; subst. inversion Hp1 as [|? ? E1 Hp2]; subst.
  inversion Hp2 as [|? ? E2 _]; subst.
  rewrite Hd, Hh, Hmi. repeat split.
Defined.

(** X12.  In LIVE mode the running total is never advanced: whatever the
    manifests say, every period the merge appends, one per job, starts at
    the printed default duration, [P0Y0M0DT0H0M0S], and the attributes of
    the root are those of the first job's manifest, total duration
    included. *)
Theorem live_periods_start_at_zero (self : PeriodConcatNode.t) (w : World)
        (f : PeriodConcatNode.written_file) :
  streaming_mode (PeriodConcatNode._pipeline_config self) = LIVE ->
  PeriodConcatNode._dash_concat self w = Ok f ->
  exists first rest ref_mpd periods,
    PeriodConcatNode._packager_nodes self = first :: rest /\
    files w (manifest_path self first) = Some ref_mpd /\
    ElementTree.children (PeriodConcatNode.document f)
    = (ElementTree.remove_first period_tag (ElementTree.children ref_mpd) ++ periods)%list /\
    List.length periods = List.length (PeriodConcatNode._packager_nodes self) /\
    Forall (fun p => attribute p "start" = Some "P0Y0M0DT0H0M0S") periods /\
    ISO8601.__str__ ISO8601.default = Ok "P0Y0M0DT0H0M0S" /\
    ElementTree.attrib (PeriodConcatNode.document f) = ElementTree.attrib ref_mpd.
Proof.
  intros Hmode Hf.
  destruct (dash_concat_inv self w f Hf)
    as (first & rest & ref_mpd & periods & total & Hn & Href & Hturns & Hc & _ & _ & Ha & _).
  rewrite Hmode in Ha.
  exists first, rest, ref_mpd, periods.
  split; [exact Hn|]. split; [exact Href|]. split; [exact Hc|].
  split; [exact (turns_length _ _ _ _ _ _ _ Hturns)|].
  split; [exact (proj2 (live_turns _ _ _ _ _ _ _ Hmode Hturns) _ eq_refl)|].
  split; [reflexivity | exact Ha].
Qed.

(** The hypotheses of X12 hold for the three LIVE sample jobs of ten
    seconds each, whose merged document keeps the total duration of the
    first manifest. *)
Lemma live_periods_witness :
  exists f periods,
    PeriodConcatNode._dash_concat (Sample.node LIVE Finished Finished Finished)
                                  Sample.world_timed = Ok f /\
    ElementTree.children (PeriodConcatNode.document f)
    = (ElementTree.remove_first period_tag (ElementTree.children Sample.timed_manifest)
       ++ periods)%list /\
    List.length periods = 3%nat /\
    Forall (fun p => attribute p "start" = Some "P0Y0M0DT0H0M0S") periods /\
    ElementTree.attrib (PeriodConcatNode.document f)
    = ElementTree.attrib Sample.timed_manifest.
Proof.
  eexists.
  match goal with
  | |- exists _, PeriodConcatNode._dash_concat ?s ?w = Ok ?f /\ _ =>
      assert (Hf : PeriodConcatNode._dash_concat s w = Ok f) by (vm_compute; reflexivity);
      destruct (live_periods_start_at_zero s w f eq_refl Hf)
        as (first & rest & ref_mpd & periods & Hn & Href & Hc & Hlen & Hstart & _ & Ha)
  end.
  inversion Hn; subst first rest. vm_compute in Href. inversion Href; subst ref_mpd.
  exists periods. split; [exact Hf|]. split; [exact Hc|].
  split; [exact Hlen|]. split; [exact Hstart | exact Ha].
Defined.

(** ** Where the rewritten references lead, continued *)

(** X14.  A rewritten reference leads where the reference led: resolved
    from the destination directory, it has the same names in its absolute
    form as the reference resolved from the source directory, for every
    reference that does not start with a slash and every absolute working
    directory; and when neither the working directory nor the two
    directories start with two slashes, the two absolute paths are the same
    text. *)
Theorem rewritten_reference_same_target (w : World)
        (source dest reference rewritten : string) :
  posixpath.isabs (getcwd w) = true ->
  Py.startswith reference "/" = false ->
  PeriodConcatNode.rewrite w source dest reference = Ok rewritten ->
  names (getcwd w) (posixpath.join dest [rewritten])
  = names (getcwd w) (posixpath.join source [reference]) /\
  (Py.has_prefix (getcwd w) "//" = false -> Py.has_prefix source "//" = false ->
   Py.has_prefix dest "//" = false ->
   posixpath.abspath (getcwd w) (posixpath.join dest [rewritten])
   = posixpath.abspath (getcwd w) (posixpath.join source [reference])).
Proof.
  intros Hcwd Href H.
  pose proof (rewritten_names w source dest reference rewritten Hcwd Href H) as Hnames.
  pose proof (rewrite_relative _ _ _ _ _ Href H) as Hrw.
  split; [exact Hnames|]. intros Hc Hs Hd.
  simpl posixpath.join in *.
  rewrite !abspath_names by (auto using anchored_single_slash).
  now rewrite Hnames.
Qed.

(** The hypotheses of X14 hold for the reference [seg-$Number$.mp4] of the
    job that wrote to [jobs/2], merged into [out]. *)
Lemma rewritten_reference_witness :
  PeriodConcatNode.rewrite (Sample.world10 "PT10S") "jobs/2" "out" "seg-$Number$.mp4"
  = Ok "../jobs/2/seg-$Number$.mp4" /\
  posixpath.abspath "/home/streamer" (posixpath.join "out" ["../jobs/2/seg-$Number$.mp4"])
  = posixpath.abspath "/home/streamer" (posixpath.join "jobs/2" ["seg-$Number$.mp4"]).
Proof.
  assert (H : PeriodConcatNode.rewrite (Sample.world10 "PT10S") "jobs/2" "out" "seg-$Number$.mp4"
              = Ok "../jobs/2/seg-$Number$.mp4") by (vm_compute; reflexivity).
  split; [exact H|].
  destruct (rewritten_reference_same_target (Sample.world10 "PT10S") "jobs/2" "out"
              "seg-$Number$.mp4" "../jobs/2/seg-$Number$.mp4" eq_refl eq_refl H) as (_ & Habs).
  exact (Habs eq_refl eq_refl eq_refl).
Defined.

Lemma commonprefix_self (l : list string) : posixpath.commonprefix l l = l.
Proof. induction l as [|x l IH]; simpl; [reflexivity | now rewrite String.eqb_refl, IH]. Qed.

Lemma relpath_same_names (cwd path start : string) :
  path <> "" -> names cwd path = names cwd start ->
  posixpath.relpath cwd path start = Ok ".".
Proof.
  intros Hp Hn. unfold posixpath.relpath. fold (names cwd start) (names cwd path).
  destruct (path =? "") eqn:E; [apply String.eqb_eq in E; contradiction|].
  rewrite Hn, commonprefix_self, Nat.sub_diag, skipn_all. reflexivity.
Qed.

(** X15.  [relpath] raises [ValueError] for the empty path and for no
    other; what it returns is not empty, does not start nor end with a
    slash, is [.] when the two paths have the same names, the source
    directory of a job being the output directory for one, and, joined to
    the start, leads to the path. *)
Theorem relpath_laws (cwd path start : string) :
  (path = "" -> posixpath.relpath cwd path start = Raise ValueError) /\
  (path <> "" ->
   exists rel,
     posixpath.relpath cwd path start = Ok rel /\
     rel <> "" /\ Py.startswith rel "/" = false /\ Py.endswith rel "/" = false /\
     (names cwd path = names cwd start -> rel = ".") /\
     (posixpath.isabs cwd = true ->
      names cwd (posixpath.join start [rel]) = names cwd path)).
Proof.
  split.
  - intros ->. reflexivity.
  - intros Hp. destruct (relpath_open cwd path start Hp) as (rel & Hrel & Hne & Hend).
    exists rel. split; [exact Hrel|]. split; [exact Hne|].
    split; [now apply relpath_relative in Hrel|]. split; [exact Hend|]. split.
    + intros Hn. rewrite (relpath_same_names _ _ _ Hp Hn) in Hrel. now inversion Hrel.
    + intros Hcwd. simpl posixpath.join. rewrite !(names_stack _ _ Hcwd). f_equal.
      rewrite stack_join2 by (now apply relpath_relative in Hrel).
      now apply relpath_leads.
Qed.

(** X15 at a job that writes below the output directory, and at two
    spellings of the same directory. *)
Lemma relpath_laws_witness :
  posixpath.relpath "/home/streamer" "out/period_1" "out" = Ok "period_1" /\
  names "/home/streamer" (posixpath.join "out" ["period_1"])
  = names "/home/streamer" "out/period_1" /\
  posixpath.relpath "/home/streamer" "out" "./out/" = Ok ".".
Proof.
  destruct (relpath_laws "/home/streamer" "out/period_1" "out") as (_ & H).
  destruct H as (rel & Hrel & _ & _ & _ & _ & Hback); [discriminate|].
  destruct (relpath_laws "/home/streamer" "out" "./out/") as (_ & H').
  destruct H' as (rel' & Hrel' & _ & _ & _ & Hsame & _); [discriminate|].
  assert (E : rel = "period_1").
  { assert (H0 : posixpath.relpath "/home/streamer" "out/period_1" "out" = Ok "period_1")
      by (vm_compute; reflexivity).
    rewrite H0 in Hrel. now inversion Hrel. }
  subst rel. split; [exact Hrel|]. split; [exact (Hback eq_refl)|].
  rewrite Hrel'. f_equal. apply Hsame. vm_compute. reflexivity.
Defined.

(** ** Durations: signs and the neutral duration *)

Section Rounding.

Variables prec emax : Z.

Lemma shr_1_nonneg (mrs : shr_record) :
  (0 <= shr_m mrs)%Z -> (0 <= shr_m (shr_1 mrs))%Z.
Proof.
  destruct mrs as [m r s]. simpl. destruct m as [|[p|p|]|p]; simpl; lia.
Qed.

Lemma iter_shr_1_nonneg (p : positive) (mrs : shr_record) :
  (0 <= shr_m mrs)%Z -> (0 <= shr_m (iter_pos shr_1 p mrs))%Z.
Proof.
  revert mrs. induction p as [p IH|p IH|]; intros mrs H; simpl.
  - apply IH, IH. now apply shr_1_nonneg.
  - now apply IH, IH.
  - now apply shr_1_nonneg.
Qed.

Lemma shr_fexp_nonneg (m e : Z) (l : location) :
  (0 <= m)%Z -> (0 <= shr_m (fst (shr_fexp prec emax m e l)))%Z.
Proof.
  intros Hm. unfold shr_fexp, shr.
  assert (H0 : (0 <= shr_m (shr_record_of_loc m l))%Z).
  { destruct l as [|[]]; exact Hm. }
  destruct (fexp prec emax (Zdigits2 m + e) - e)%Z; simpl; auto.
  now apply iter_shr_1_nonneg.
Qed.

Lemma round_nearest_even_nonneg (m : Z) (l : location) :
  (0 <= m)%Z -> (0 <= round_nearest_even m l)%Z.
Proof.
  intros Hm. destruct l as [|[]]; simpl; try lia. destruct (Z.even m); lia.
Qed.

(** Rounding a natural mantissa keeps the sign it is given. *)
Lemma binary_round_aux_sign (sx : bool) (mx ex : Z) (lx : location) :
  (0 <= mx)%Z ->
  match binary_round_aux prec emax sx mx ex lx with
  | S754_zero s | S754_infinity s | S754_finite s _ _ => s = sx
  | S754_nan => False
  end.
Proof.
  intros Hm. unfold binary_round_aux.
  pose proof (shr_fexp_nonneg mx ex lx Hm) as H1.
  destruct (shr_fexp prec emax mx ex lx) as [mrs' e']. simpl in H1.
  pose proof (shr_fexp_nonneg _ e' loc_Exact
                (round_nearest_even_nonneg _ (loc_of_shr_record mrs') H1)) as H2.
  destruct (shr_fexp prec emax _ e' loc_Exact) as [mrs'' e'']. simpl in H2.
  destruct (shr_m mrs'') as [|p|p]; [reflexivity | | lia].
  now destruct (e'' <=? emax - prec)%Z.
Qed.

End Rounding.

Lemma dec2float_sign (m q : Z) : sign_plus (Py.dec2float m q) = true.
Proof.
  unfold Py.dec2float. destruct m as [|p|p]; try reflexivity.
  destruct (0 <=? q)%Z eqn:Hq.
  - apply Z.leb_le in Hq.
    assert (Hpos : (0 < Z.pos p * 10 ^ q)%Z) by (apply Z.mul_pos_pos; [lia | now apply Z.pow_pos_nonneg]).
    destruct (Z.pos p * 10 ^ q)%Z as [|n|n] eqn:E; try lia.
    unfold binary_normalize, binary_round.
    destruct (shl_align n 0 _) as [mz ez].
    pose proof (binary_round_aux_sign Py.prec Py.emax false (Zpos mz) ez loc_Exact
                  ltac:(lia)) as H.
    destruct (binary_round_aux Py.prec Py.emax false (Z.pos mz) ez loc_Exact);
      simpl; try (rewrite H; reflexivity). contradiction.
  - unfold SFdiv.
    destruct (SFdiv_core_binary Py.prec Py.emax (Z.pos p) 0
                (Z.pos (Z.to_pos (10 ^ (- q)))) 0) as [[mz ez] lz] eqn:E.
    assert (Hmz : (0 <= mz)%Z).
    { unfold SFdiv_core_binary in E.
      match type of E with
      | (let '(q, r) := Z.div_eucl ?a ?b in _) = _ =>
          pose proof (Z_div_mod a b eq_refl) as Hdiv;
          assert (Ha : (0 <= a)%Z);
          [|destruct (Z.div_eucl a b) as [q0 r0]; inversion E; subst; nia]
      end.
      match goal with
      | |- (0 <= match ?s with _ => _ end)%Z => destruct s; try lia
      end.
      apply Z.shiftl_nonneg. lia. }
    pose proof (binary_round_aux_sign Py.prec Py.emax (xorb false false) mz ez lz Hmz) as H.
    destruct (binary_round_aux Py.prec Py.emax (xorb false false) mz ez lz);
      simpl; try (rewrite H; reflexivity). contradiction.
Qed.

Lemma float_of_str_sign (t : string) (f : Py.float) :
  Py.float_of_str t = Ok f -> sign_plus f = true.
Proof.
  unfold Py.float_of_str. destruct (Py.partition_dot t) as [ip fp].
  destruct (ip ++ fp); [discriminate|].
  destruct (NilEmpty.uint_of_string _); [|discriminate].
  intros H. inversion H. apply dec2float_sign.
Qed.

Lemma int_nonneg (t : string) (z : Z) : Py.int t = Ok z -> (0 <= z)%Z.
Proof.
  intros H. apply int_inv in H. destruct H as (_ & _ & u & _ & ->).
  apply of_uint_nonneg.
Qed.

Lemma parsed_fields (s : string) (d : ISO8601.t) :
  ISO8601.parse s = Ok d ->
  exists a1 a2 a3 a4 a5 a6 f,
    Py.int a1 = Ok (ISO8601.years d) /\ Py.int a2 = Ok (ISO8601.months d) /\
    Py.int a3 = Ok (ISO8601.days d) /\ Py.int a4 = Ok (ISO8601.hours d) /\
    Py.int a5 = Ok (ISO8601.minutes d) /\ Py.float_of_str a6 = Ok f /\
    ISO8601.seconds d = Py.PyFloat f.
Proof.
  intros H. apply parse_inv in H. destruct H as (p & tail & _ & _ & _ & H).
  destruct (groups_of_six p) as (h & mi & sec & Hg & _).
  rewrite Hg in H. apply convert_six in H.
  destruct H as (z1 & z2 & z3 & z4 & z5 & f & H1 & H2 & H3 & H4 & H5 & H6 & ->).
  simpl. now exists (dflt (Grammar.years p)), (dflt (Grammar.months p)),
    (dflt (Grammar.days p)), (dflt h), (dflt mi), (dflt sec), f.
Qed.

Lemma parsed_seconds_sign (s : string) (d : ISO8601.t) :
  ISO8601.parse s = Ok d ->
  exists f, ISO8601.seconds d = Py.PyFloat f /\ sign_plus f = true.
Proof.
  intros H. destruct (parsed_fields s d H)
    as (a1 & a2 & a3 & a4 & a5 & a6 & f & _ & _ & _ & _ & _ & H6 & Hs).
  exists f. split; [exact Hs | now apply (float_of_str_sign a6)].
Qed.

(** X17.  What [parse] returns is never negative: years, months, days,
    hours and minutes are natural numbers, and the seconds are a float that
    is no NaN and has the sign plus. *)
Theorem parsed_duration_is_nonnegative (s : string) (d : ISO8601.t) :
  ISO8601.parse s = Ok d ->
  (0 <= ISO8601.years d)%Z /\ (0 <= ISO8601.months d)%Z /\ (0 <= ISO8601.days d)%Z /\
  (0 <= ISO8601.hours d)%Z /\ (0 <= ISO8601.minutes d)%Z /\
  exists f, ISO8601.seconds d = Py.PyFloat f /\ sign_plus f = true.
Proof.
  intros H. destruct (parsed_fields s d H)
    as (a1 & a2 & a3 & a4 & a5 & a6 & f & H1 & H2 & H3 & H4 & H5 & H6 & Hs).
  repeat split; try (eapply int_nonneg; eassumption).
  now apply (parsed_seconds_sign s).
Qed.

(** The hypothesis of X17 holds for thirty-six hours. *)
Lemma parsed_nonnegative_witness :
  (0 <= ISO8601.hours (ISO8601.mk 0 0 0 36 0 (Py.PyFloat (S754_zero false))))%Z /\
  ISO8601.parse "PT36H" = Ok (ISO8601.mk 0 0 0 36 0 (Py.PyFloat (S754_zero false))).
Proof.
  assert (H : ISO8601.parse "PT36H" = Ok (ISO8601.mk 0 0 0 36 0 (Py.PyFloat (S754_zero false))))
    by (vm_compute; reflexivity).
  destruct (parsed_duration_is_nonnegative _ _ H) as (_ & _ & _ & Hh & _).
  split; [exact Hh | exact H].
Defined.

Lemma fadd_zero_l (f : Py.float) :
  sign_plus f = true -> Py.fadd (S754_zero false) f = f.
Proof. destruct f as [[|]|[|]| |[|] m e]; simpl; intros H; try discriminate; reflexivity. Qed.

(** X18.  The default duration is neutral for the durations [parse]
    returns, on both sides and for [+=]: the running total after the first
    job of a VOD merge is the duration of that job, the integer 0 of the
    default seconds leaving no trace. *)
Theorem default_is_neutral_for_parsed (s : string) (d : ISO8601.t) :
  ISO8601.parse s = Ok d ->
  ISO8601.__add__ ISO8601.default d = Ok d /\
  ISO8601.__add__ d ISO8601.default = Ok d /\
  ISO8601.__iadd__ ISO8601.default d = Ok d.
Proof.
  intros H.
  destruct (parsed_seconds_sign s d H) as (f & Hf & Hsign).
  assert (Hl : ISO8601.__add__ ISO8601.default d = Ok d).
  { destruct d as [y mo dd h mi sec]. simpl in Hf. subst sec.
    unfold ISO8601.__add__, ISO8601.default. cbn [ISO8601.seconds ISO8601.years
      ISO8601.months ISO8601.days ISO8601.hours ISO8601.minutes Py.add].
    change (Py.float_of_int 0) with (@Ok Py.float (S754_zero false)).
    cbn [bind]. now rewrite (fadd_zero_l f Hsign). }
  split; [exact Hl|]. split; [|exact Hl]. now rewrite add_comm.
Qed.

(** The hypothesis of X18 holds for a duration with every component. *)
Lemma default_neutral_witness :
  ISO8601.parse "P1Y2M3DT4H5M6.5S"
  = Ok (ISO8601.mk 1 2 3 4 5 (Py.PyFloat (S754_finite false 7318349394477056 (-50)))) /\
  ISO8601.__add__ ISO8601.default
    (ISO8601.mk 1 2 3 4 5 (Py.PyFloat (S754_finite false 7318349394477056 (-50))))
  = Ok (ISO8601.mk 1 2 3 4 5 (Py.PyFloat (S754_finite false 7318349394477056 (-50)))).
Proof.
  assert (H : ISO8601.parse "P1Y2M3DT4H5M6.5S"
              = Ok (ISO8601.mk 1 2 3 4 5 (Py.PyFloat (S754_finite false 7318349394477056 (-50)))))
    by (vm_compute; reflexivity).
  split; [exact H|]. exact (proj1 (default_is_neutral_for_parsed _ _ H)).
Defined.

Lemma fadd_sign (f g : Py.float) :
  sign_plus f = true -> sign_plus g = true -> sign_plus (Py.fadd f g) = true.
Proof.
  destruct f as [[|]|[|]| |[|] mx ex], g as [[|]|[|]| |[|] my ey];
    intros Hf Hg; try discriminate; try reflexivity.
  unfold Py.fadd, SFadd, cond_Zopp.
  generalize (fst (shl_align mx ex (Z.min ex ey))) as a.
  generalize (fst (shl_align my ey (Z.min ex ey))) as b. intros b a.
  change (Z.pos a + Z.pos b)%Z with (Z.pos (a + b)).
  unfold binary_normalize, binary_round.
  destruct (shl_align (a + b) _ _) as [mz ez].
  pose proof (binary_round_aux_sign Py.prec Py.emax false (Zpos mz) ez loc_Exact
                ltac:(lia)) as H.
  destruct (binary_round_aux Py.prec Py.emax false (Z.pos mz) ez loc_Exact);
    simpl; try (rewrite H; reflexivity). contradiction.
Qed.

(** The running total of a merge is the default duration or has float
    seconds with the sign plus. *)
Lemma accumulate_parsed (ds : list ISO8601.t) :
  Forall (fun d => exists s, ISO8601.parse s = Ok d) ds ->
  forall total,
    (0 <= ISO8601.years total)%Z -> (0 <= ISO8601.months total)%Z ->
    (0 <= ISO8601.days total)%Z -> (0 <= ISO8601.hours total)%Z ->
    (0 <= ISO8601.minutes total)%Z ->
    (ISO8601.seconds total = Py.PyInt 0 \/
     exists f, ISO8601.seconds total = Py.PyFloat f /\ sign_plus f = true) ->
    exists total',
      accumulate total ds = Ok total' /\
      (0 <= ISO8601.years total')%Z /\ (0 <= ISO8601.months total')%Z /\
      (0 <= ISO8601.days total')%Z /\ (0 <= ISO8601.hours total')%Z /\
      (0 <= ISO8601.minutes total')%Z /\
      (ISO8601.seconds total' = Py.PyInt 0 \/
       exists f, ISO8601.seconds total' = Py.PyFloat f /\ sign_plus f = true).
Proof.
  induction 1 as [|d ds (s & Hd) _ IH]; intros total Hy Hmo Hdd Hh Hmi Hs; simpl.
  - exists total. repeat split; auto.
  - destruct (parsed_fields s d Hd)
      as (a1 & a2 & a3 & a4 & a5 & a6 & g & H1 & H2 & H3 & H4 & H5 & H6 & Hg).
    apply int_nonneg in H1, H2, H3, H4, H5. apply float_of_str_sign in H6.
    assert (Hadd : exists f,
               Py.add (ISO8601.seconds total) (ISO8601.seconds d) = Ok (Py.PyFloat f) /\
               sign_plus f = true).
    { rewrite Hg. destruct Hs as [Hs | (f & Hs & Hf)]; rewrite Hs; cbn [Py.add].
      - change (Py.float_of_int 0) with (@Ok Py.float (S754_zero false)). cbn [bind].
        exists (Py.fadd (S754_zero false) g). split; [reflexivity|]. now apply fadd_sign.
      - exists (Py.fadd f g). split; [reflexivity|]. now apply fadd_sign. }
    destruct Hadd as (f & Hadd & Hf).
    unfold ISO8601.__iadd__, ISO8601.__add__. rewrite Hadd. cbn [bind].
    apply IH; simpl; try lia. right. now exists f.
Qed.

(** X19.  Adding up durations that [parse] returned, from the default
    duration on, as the merge does for VOD, never raises, and the total is
    never negative: its years, months, days, hours and minutes are natural
    numbers and its seconds the integer 0 of the default or a float with
    the sign plus, never a NaN. *)
Theorem total_of_parsed_durations (ds : list ISO8601.t) :
  Forall (fun d => exists s, ISO8601.parse s = Ok d) ds ->
  exists total,
    accumulate ISO8601.default ds = Ok total /\
    (0 <= ISO8601.years total)%Z /\ (0 <= ISO8601.months total)%Z /\
    (0 <= ISO8601.days total)%Z /\ (0 <= ISO8601.hours total)%Z /\
    (0 <= ISO8601.minutes total)%Z /\
    (ISO8601.seconds total = Py.PyInt 0 \/
     exists f, ISO8601.seconds total = Py.PyFloat f /\ sign_plus f = true).
Proof.
  intros Hds. apply (accumulate_parsed ds Hds ISO8601.default); simpl; try lia.
  now left.
Qed.

(** The hypothesis of X19 holds for twice thirty hours. *)
Lemma total_of_parsed_witness :
  exists total,
    accumulate ISO8601.default
      [ISO8601.mk 0 0 0 30 0 (Py.PyFloat zero); ISO8601.mk 0 0 0 30 0 (Py.PyFloat zero)]
    = Ok total /\ (0 <= ISO8601.hours total)%Z.
Proof.
  destruct (total_of_parsed_durations
              [ISO8601.mk 0 0 0 30 0 (Py.PyFloat zero); ISO8601.mk 0 0 0 30 0 (Py.PyFloat zero)])
    as (total & Hacc & _ & _ & _ & Hh & _).
  - repeat constructor; exists "PT30H"; vm_compute; reflexivity.
  - now exists total.
Defined.

(** ** Durations: what [parse] raises *)

Lemma int_raises (t : string) (e : exn) : Py.int t = Raise e -> e = ValueError.
Proof.
  unfold Py.int. destruct (Py.max_str_digits <? _)%Z; [now inversion 1|].
  destruct t; [now inversion 1|].
  destruct (NilEmpty.uint_of_string _); [discriminate | now inversion 1].
Qed.

Lemma float_of_str_raises (t : string) (e : exn) :
  Py.float_of_str t = Raise e -> e = ValueError.
Proof.
  unfold Py.float_of_str. destruct (Py.partition_dot t) as [ip fp].
  destruct (ip ++ fp); [now inversion 1|].
  destruct (NilEmpty.uint_of_string _); [discriminate | now inversion 1].
Qed.

Lemma convert_raises (gs : list string) (e : exn) :
  convert gs = Raise e -> e = ValueError.
Proof.
  unfold convert.
  assert (Hm : forall l e, mapM Py.int l = Raise e -> e = ValueError).
  { induction l as [|t l IH]; intros e0; simpl; [discriminate|].
    destruct (Py.int t) eqn:Ht; simpl.
    - destruct (mapM Py.int l); simpl; [discriminate|].
      intros H. inversion H; subst. now apply IH.
    - intros H. inversion H; subst. now apply int_raises in Ht. }
  destruct (mapM Py.int (firstn 5 gs)) as [zs|e0] eqn:E; simpl.
  - destruct (Py.float_of_str (nth 5 gs "")) eqn:F; simpl; [discriminate|].
    intros H. inversion H; subst. now apply float_of_str_raises in F.
  - intros H. inversion H; subst. now apply Hm in E.
Qed.

Lemma search_matches (s : string) :
  (exists m, re.search ISO8601.pattern s = Some m) <-> pattern_matches s.
Proof.
  rewrite search_pattern. split.
  - intros (m & H). destruct s as [|c s]; [discriminate|].
    destruct (Ascii.eqb c "P") eqn:Ec; [|discriminate].
    apply Ascii.eqb_eq in Ec. subst c.
    apply after_P_denotes in H. destruct H as (delta & Hd & _).
    apply date_rel_parts in Hd. destruct Hd as (p & tail & Hc & Htail & Hs & _).
    now exists p, tail.
  - intros (p & tail & Hc & Htail & ->).
    change (Grammar.text_of p ++ tail)
      with (String "P" ((Grammar.opt (Grammar.years p) "Y" ++ Grammar.opt (Grammar.months p) "M"
                         ++ Grammar.opt (Grammar.days p) "D"
                         ++ Grammar.time_text (Grammar.time p)) ++ tail)).
    cbv iota. rewrite Ascii.eqb_refl.
    exists (caps_of p ++ [])%list. apply after_P_denotes.
    exists (caps_of p). split; [|reflexivity].
    apply date_rel_parts. exists p, tail.
    split; [exact Hc|]. split; [exact Htail|]. split; reflexivity.
Qed.

Lemma parse_duration (s : string) :
  (exists r, ISO8601.parse s = Ok r) <-> short_duration (chomp s).
Proof.
  split.
  - intros (r & H). apply parse_inv in H.
    destruct H as (p & tail & Hc & Htail & -> & Hconv).
    destruct (proj1 (convert_well_formed p) (ex_intro _ r Hconv)) as (Hwf & Hrd).
    exists p. split; [exact Hwf|]. split; [exact Hrd|]. now apply chomp_text_of.
  - intros (p & Hwf & Hrd & Hs).
    destruct (chomp_tail s) as (tail & Htail & Hst). rewrite Hs in Hst. rewrite Hst.
    rewrite (parse_parts p tail (well_formed_in_classes p Hwf) Htail).
    apply convert_well_formed. now split.
Qed.

(** X20.  [parse] raises two exceptions and no other: [AssertionError],
    with its message, exactly for the texts the pattern does not match;
    and [ValueError], from [int] or [float], exactly for the texts the
    pattern matches that, the newline that may end them set aside, are no
    durations of the grammar with integer numerals of at most 4300 digits:
    a numeral is empty, the seconds are malformed, or an integer numeral is
    longer than the limit. *)
Theorem parse_raises_by_cause (s : string) :
  (ISO8601.parse s = Raise (AssertionError "ISO8601: Duration parsing failed.") <->
   ~ pattern_matches s) /\
  (ISO8601.parse s = Raise ValueError <->
   pattern_matches s /\ ~ short_duration (chomp s)) /\
  (forall e, ISO8601.parse s = Raise e ->
     e = AssertionError "ISO8601: Duration parsing failed." \/ e = ValueError).
Proof.
  pose proof (search_matches s) as Hm. pose proof (parse_duration s) as Hd.
  rewrite parse_convert in *.
  destruct (re.search ISO8601.pattern s) as [m|].
  - assert (Hyes : pattern_matches s) by (apply Hm; now exists m).
    destruct (convert (re.groups 6 m "0")) as [r|e] eqn:Hc.
    + assert (Hdur : short_duration (chomp s)) by (apply Hd; now exists r).
      split; [split; [discriminate | intros H; now elim H]|].
      split; [split; [discriminate | intros (_ & H); now elim H]|].
      discriminate.
    + apply convert_raises in Hc. subst e.
      split; [split; [discriminate | intros H; now elim H]|].
      split; [|intros e H; right; now inversion H].
      split; [|reflexivity]. intros _. split; [exact Hyes|].
      intros H. apply Hd in H. destruct H as (r & H). discriminate.
  - assert (Hno : ~ pattern_matches s).
    { intros H. apply Hm in H. destruct H as (m & H). discriminate. }
    split; [split; [intros _; exact Hno | reflexivity]|].
    split; [split; [discriminate | intros (H & _); now elim Hno]|].
    intros e H. left. now inversion H.
Qed.

(** X20 at a text without its last letter, at one with an empty numeral
    and malformed seconds, and at one with a year of 4301 digits. *)
Lemma parse_raises_witness :
  ISO8601.parse "PT5" = Raise (AssertionError "ISO8601: Duration parsing failed.") /\
  ~ pattern_matches "PT5" /\
  ISO8601.parse "PYT1.2.3S" = Raise ValueError /\
  pattern_matches "PYT1.2.3S" /\
  ISO8601.parse ("P" ++ Py.repeat_char "1" 4301 ++ "Y") = Raise ValueError /\
  ~ short_duration (chomp ("P" ++ Py.repeat_char "1" 4301 ++ "Y")).
Proof.
  destruct (parse_raises_by_cause "PT5") as (Ha & _).
  destruct (parse_raises_by_cause "PYT1.2.3S") as (_ & Hv & _).
  destruct (parse_raises_by_cause ("P" ++ Py.repeat_char "1" 4301 ++ "Y")) as (_ & Hl & _).
  assert (H1 : ISO8601.parse "PT5" = Raise (AssertionError "ISO8601: Duration parsing failed."))
    by (vm_compute; reflexivity).
  assert (H2 : ISO8601.parse "PYT1.2.3S" = Raise ValueError) by (vm_compute; reflexivity).
  assert (H3 : ISO8601.parse ("P" ++ Py.repeat_char "1" 4301 ++ "Y") = Raise ValueError)
    by (vm_compute; reflexivity).
  split; [exact H1|]. split; [exact (proj1 Ha H1)|].
  split; [exact H2|]. split; [exact (proj1 (proj1 Hv H2))|].
  split; [exact H3 | exact (proj2 (proj1 Hl H3))].
Defined.

(** ** Durations: what [parse] reads *)

(** X21.  For a text of the grammar whose integer numerals have no more
    than 4300 digits, [parse] returns in each container what [int] reads in
    the numeral before the container's letter, [0] standing for an absent
    numeral, and as seconds what [float] reads before [S]: a numeral before
    [M] is months in the date part and minutes after [T]; without time
    part, hours and minutes are 0 and the seconds the float 0. *)
Theorem parse_reads_each_numeral (s : string) (p : Grammar.parts) :
  Grammar.well_formed p -> readable p -> chomp s = Grammar.text_of p ->
  exists r f,
    ISO8601.parse s = Ok r /\ ISO8601.seconds r = Py.PyFloat f /\
    Py.int (dflt (Grammar.years p)) = Ok (ISO8601.years r) /\
    Py.int (dflt (Grammar.months p)) = Ok (ISO8601.months r) /\
    Py.int (dflt (Grammar.days p)) = Ok (ISO8601.days r) /\
    match Grammar.time p with
    | Some (h, mi, sec) =>
        Py.int (dflt h) = Ok (ISO8601.hours r) /\
        Py.int (dflt mi) = Ok (ISO8601.minutes r) /\
        Py.float_of_str (dflt sec) = Ok f
    | None => ISO8601.hours r = 0%Z /\ ISO8601.minutes r = 0%Z /\ f = zero
    end.
Proof.
  intros Hwf Hrd Hs.
  destruct (chomp_tail s) as (tail & Htail & Hst). rewrite Hs in Hst. rewrite Hst.
  rewrite (parse_parts p tail (well_formed_in_classes p Hwf) Htail).
  destruct (proj2 (convert_well_formed p) (conj Hwf Hrd)) as (r & Hr).
  assert (Hr' := Hr). unfold groups_of in Hr'.
  destruct (Grammar.time p) as [[[h mi] sec]|] eqn:Ht; simpl in Hr';
    apply convert_six in Hr';
    destruct Hr' as (z1 & z2 & z3 & z4 & z5 & f & H1 & H2 & H3 & H4 & H5 & H6 & Hrf);
    exists r, f; subst r; simpl.
  - repeat split; assumption.
  - vm_compute in H4, H5, H6. inversion H4; inversion H5; inversion H6; subst.
    repeat split; assumption.
Qed.

(** The hypotheses of X21 hold for three months and five minutes. *)
Lemma parse_numerals_witness :
  exists r,
    ISO8601.parse "P3MT5M" = Ok r /\ ISO8601.months r = 3%Z /\ ISO8601.minutes r = 5%Z.
Proof.
  destruct (parse_reads_each_numeral "P3MT5M"
              {| Grammar.years := None; Grammar.months := Some "3"; Grammar.days := None;
                 Grammar.time := Some (None, Some "5", None) |})
    as (r & f & Hr & _ & _ & Hmo & _ & _ & Hmi & _).
  - repeat split; discriminate.
  - unfold readable, within_limit; simpl. repeat split; discriminate.
  - reflexivity.
  - exists r. split; [exact Hr|]. simpl in Hmo, Hmi.
    vm_compute in Hmo. vm_compute in Hmi. inversion Hmo. inversion Hmi. now split.
Defined.
